(** * Chainlink External Adapter Manager: a shallow embedding

    The development follows the Python sources:
    - [utils/logger.py]          (module [Logger]: the operation journal),
    - [config/config_manager.py] (module [Config]: static discovery and
                                  the credential store),
    - [utils/docker_utils.py] and [core/manager.py]
                                 (module [Manager]: the orchestrator).

    The orchestrator talks to the Docker daemon, the file system and two
    command-line tools.  Those are kept behind an interface
    ([Manager.platform]) whose operations thread an abstract world; a run
    yields, next to its result, the list of its effects: every platform
    call with its answer, every log record and every journal append. *)

From Stdlib Require Import ZArith String Ascii List.
From stdpp Require Import base option list gmap strings pretty sorting.

Set Warnings "-register-all".

Open Scope Z_scope.
Open Scope string_scope.
Open Scope list_scope.

(** ** Python values *)

Module Py.

(** The exception classes the sources distinguish in their handlers,
    and the ones the language raises on the paths modelled here. *)
Inductive exn_class : Type :=
| CalledProcessError
| JSONDecodeError
| AttributeError
| TypeError
| ValueError
| NameError
| FileNotFoundError
| OtherException.

Global Instance exn_class_eq_dec : EqDecision exn_class.
Proof. solve_decision. Defined.

(** An exception with the text [str(e)] gives. *)
Record exn : Type := Exn { exn_cls : exn_class; exn_msg : string }.

Global Instance exn_eq_dec : EqDecision exn.
Proof. solve_decision. Defined.

(** The result of evaluating an expression: a value, or an exception
    on its way up. *)
Inductive outcome (A : Type) : Type :=
| Ret (a : A)
| Raise (e : exn).
Global Arguments Ret {A} a.
Global Arguments Raise {A} e.

(** [Optional[str]]: the values of the adapter configuration and of
    the container environment. *)
Abbreviation pyval := (option string) (only parsing).

(** Truth value of an [Optional[str]]: [None] and [''] are false. *)
Definition truthy (v : pyval) : bool :=
  match v with
  | None => false
  | Some s => negb (bool_decide (s = ""))
  end.

(** [f"{v}"] for an [Optional[str]]. *)
Definition format (v : pyval) : string :=
  match v with
  | None => "None"
  | Some s => s
  end.

(** [d.get(k, default)] on a dict whose values may be [None]: the
    default is used only when the key is missing. *)
Definition dict_get (d : gmap string (option string)) (k : string)
    (dflt : pyval) : pyval :=
  match d !! k with
  | Some v => v
  | None => dflt
  end.

(** Decoded JSON.  [JNull] is Python's [None]; the fields of [JObj]
    are the items of the decoded dict, so their keys are distinct.  A
    float is kept by the two things the sources ask of a decoded value:
    whether it is zero, for its truth value, and the text [repr] gives,
    for f-strings. *)
Inductive json : Type :=
| JNull
| JBool (b : bool)
| JNum (n : Z)
| JFloat (zero : bool) (text : string)
| JStr (s : string)
| JArr (items : list json)
| JObj (fields : list (string * json)).

Fixpoint assoc (k : string) (fields : list (string * json)) : option json :=
  match fields with
  | [] => None
  | (k', v) :: rest => if bool_decide (k' = k) then Some v else assoc k rest
  end.

(** Truth value of a decoded JSON value. *)
Definition json_truthy (v : json) : bool :=
  match v with
  | JNull => false
  | JBool b => b
  | JNum n => negb (Z.eqb n 0)
  | JFloat zero _ => negb zero
  | JStr s => negb (bool_decide (s = ""))
  | JArr items => negb (bool_decide (items = []))
  | JObj fields => negb (bool_decide (fields = []))
  end.

(** [type(v).__name__] of a decoded JSON value. *)
Definition type_name (v : json) : string :=
  match v with
  | JNull => "NoneType"
  | JBool _ => "bool"
  | JNum _ => "int"
  | JFloat _ _ => "float"
  | JStr _ => "str"
  | JArr _ => "list"
  | JObj _ => "dict"
  end.

(** The [AttributeError] of [v.get] on a value of a type that has no
    such method. *)
Definition no_get (type_name : string) : exn :=
  Exn AttributeError
    ("'" +:+ type_name +:+ "' object has no attribute 'get'").

(** [int(s)] on the text of a port.  The discovery pattern [(\d+)] only
    yields runs of decimal digits, for which [int] is the decimal
    value; [None] is a [TypeError].  Text that is no digit run is
    reported as [ValueError] (Python also accepts blanks around the
    number, a sign and digit-group underscores, none of which the
    pattern produces). *)
Definition digit_of (c : ascii) : option Z :=
  let n := Z.of_nat (nat_of_ascii c) in
  if Z.leb 48 n && Z.leb n 57 then Some (n - 48) else None.

Fixpoint digits_value (acc : Z) (s : string) : option Z :=
  match s with
  | EmptyString => Some acc
  | String c rest =>
      match digit_of c with
      | Some d => digits_value (10 * acc + d) rest
      | None => None
      end
  end.

Definition int (v : pyval) : outcome Z :=
  match v with
  | None =>
      Raise (Exn TypeError
        "int() argument must be a string, a bytes-like object or a real number, not 'NoneType'")
  | Some s =>
      match s with
      | EmptyString =>
          Raise (Exn ValueError "invalid literal for int() with base 10: ''")
      | _ =>
          match digits_value 0 s with
          | Some n => Ret n
          | None =>
              Raise (Exn ValueError
                ("invalid literal for int() with base 10: '" +:+ s +:+ "'"))
          end
      end
  end.

(** [" ".join(words)] *)
Fixpoint join (sep : string) (words : list string) : string :=
  match words with
  | [] => ""
  | [w] => w
  | w :: rest => w +:+ sep +:+ join sep rest
  end.

End Py.

Export Py.

(** ** utils/logger.py: the operation journal *)

Module Logger.

Inductive level : Type := INFO | WARNING | ERROR.

Global Instance level_eq_dec : EqDecision level.
Proof. solve_decision. Defined.

(** One call of [EALogger.log_operation]: the arguments it was given.
    The journal is the list of these calls, oldest first. *)
Record entry : Type := Entry {
  operation : string;
  adapter : option string;
  success : bool;
  details : option string
}.

Global Instance entry_eq_dec : EqDecision entry.
Proof. solve_decision. Defined.

(** The line [log_operation] hands to the file handler. *)
Definition message (e : entry) : string :=
  let status := if success e then "SUCCESS" else "FAILURE" in
  let message := operation e +:+ " - " +:+ status in
  let message :=
    if truthy (adapter e)
    then message +:+ " - Adapter: " +:+ format (adapter e) else message in
  if truthy (details e)
  then message +:+ " - Details: " +:+ format (details e) else message.

Definition line (e : entry) : level * string :=
  (if success e then INFO else ERROR, message e).

Definition log_operation (operation : string) (adapter : option string)
    (success : bool) (details : option string) : entry :=
  Entry operation adapter success details.

Definition log_initialize (success : bool) (details : option string) : entry :=
  log_operation "INITIALIZE" None success details.

Definition details_with_tag (tag details : option string) : string :=
  let details_with_tag := "Tag: " +:+ format tag in
  if truthy details
  then details_with_tag +:+ ", " +:+ format details else details_with_tag.

Definition log_deploy (adapter : string) (tag : option string)
    (success : bool) (details : option string) : entry :=
  log_operation "DEPLOY" (Some adapter) success
    (Some (details_with_tag tag details)).

Definition log_upgrade (adapter : string) (tag : option string)
    (success : bool) (details : option string) : entry :=
  log_operation "UPGRADE" (Some adapter) success
    (Some (details_with_tag tag details)).

Section Test.
(** [repr] of a decoded JSON array or object, as an f-string prints
    it; the text plays no part in any decision. *)
Variable repr : json -> string.

(** [f"{v}"] for a decoded JSON value. *)
Definition str (v : json) : string :=
  match v with
  | JNull => "None"
  | JBool true => "True"
  | JBool false => "False"
  | JNum n => pretty n
  | JFloat _ text => text
  | JStr s => s
  | _ => repr v
  end.

Definition log_test (container from_param to_param : string)
    (success : bool) (result : json) : entry :=
  let details := "FROM: " +:+ from_param +:+ ", TO: " +:+ to_param in
  let details :=
    if json_truthy result
    then details +:+ ", Result: " +:+ str result else details in
  log_operation "TEST" (Some container) success (Some details).
End Test.

End Logger.

(** ** config/config_manager.py: static discovery and credentials *)

Module Config.

(** What the four [re.search] calls of [_create_adapter_configs] find
    in one adapter script: the captured group, or [None]. *)
Record script : Type := Script {
  ip_match : option string;
  port_match : option string;
  api_key_match : option string;
  sub_tier_match : option string
}.

(** One name returned by [os.listdir(adapters_dir)].  [content] is
    [None] when opening or reading the file raises. *)
Record dir_entry : Type := DirEntry {
  file_name : string;
  is_dir : bool;
  executable : bool;
  content : option script
}.

(** The dict stored for one adapter: all four keys, always. *)
Definition adapter_dict (sc : script) : gmap string (option string) :=
  <["ip" := ip_match sc]>
    (<["port" := port_match sc]>
      (<["api_key_var" := api_key_match sc]>
        (<["sub_tier_var" := sub_tier_match sc]> ∅))).

(** The loop over the directory listing; [None] stands for an
    exception leaving the loop. *)
Fixpoint scan (entries : list dir_entry)
    (adapter_configs : gmap string (gmap string (option string)))
    : option (gmap string (gmap string (option string))) :=
  match entries with
  | [] => Some adapter_configs
  | f :: rest =>
      if is_dir f || negb (executable f)
      then scan rest adapter_configs
      else
        match content f with
        | None => None
        | Some sc =>
            scan rest (<[file_name f := adapter_dict sc]> adapter_configs)
        end
  end.

(** [listing] is [None] when the [externalAdapters] directory does not
    exist. *)
Definition _create_adapter_configs (listing : option (list dir_entry))
    : gmap string (gmap string (option string)) :=
  match listing with
  | Some entries =>
      match scan entries ∅ with
      | Some adapter_configs => adapter_configs
      | None => ∅
      end
  | None => ∅
  end.

(** [value.strip()] for the blanks of ASCII. *)
Definition is_blank (c : ascii) : bool :=
  let n := nat_of_ascii c in
  (n =? 32)%nat || ((9 <=? n)%nat && (n <=? 13)%nat)
  || ((28 <=? n)%nat && (n <=? 31)%nat).

Fixpoint lstrip (s : string) : string :=
  match s with
  | String c rest => if is_blank c then lstrip rest else s
  | EmptyString => EmptyString
  end.

Definition strip (s : string) : string :=
  String.rev (lstrip (String.rev (lstrip s))).

Definition starts_with (q : ascii) (s : string) : bool :=
  match s with
  | String c _ => bool_decide (c = q)
  | EmptyString => false
  end.

Definition ends_with (q : ascii) (s : string) : bool :=
  starts_with q (String.rev s).

(** [value[1:-1]] *)
Definition inner (s : string) : string :=
  match s with
  | String _ rest =>
      match String.rev rest with
      | String _ body => String.rev body
      | EmptyString => EmptyString
      end
  | EmptyString => EmptyString
  end.

Definition double_quote : ascii := ascii_of_nat 34.
Definition single_quote : ascii := ascii_of_nat 39.

(** The clean-up of one value inside the loop of [_load_api_keys]. *)
Definition clean (value : string) : string :=
  let value := strip value in
  if starts_with double_quote value && ends_with double_quote value
  then inner value
  else if starts_with single_quote value && ends_with single_quote value
  then inner value
  else value.

(** [_load_api_keys] on the name and raw value of each export
    statement its pattern finds in the [api_keys] file, in file order;
    [None] when the file does not exist or cannot be read. *)
Definition _load_api_keys (matches : option (list (string * string)))
    : gmap string string :=
  match matches with
  | Some pairs =>
      foldl (λ api_keys nv, <[nv.1 := clean nv.2]> api_keys) ∅ pairs
  | None => ∅
  end.

Record ConfigManager : Type := {
  api_keys : gmap string string;
  adapter_configs : gmap string (gmap string (option string))
}.

(** [ConfigManager.__init__], for the two stores the orchestrator
    reads. *)
Definition init (matches : option (list (string * string)))
    (listing : option (list dir_entry)) : ConfigManager :=
  {| api_keys := _load_api_keys matches;
     adapter_configs := _create_adapter_configs listing |}.

Definition get_adapter_config (self : ConfigManager) (adapter_name : string)
    : option (gmap string (option string)) :=
  adapter_configs self !! adapter_name.

(** [not adapter_config]: [None] or an empty dict. *)
Definition no_config (adapter_config : option (gmap string (option string)))
    : bool :=
  match adapter_config with
  | None => true
  | Some d => bool_decide (d = ∅)
  end.

Definition get_api_key (self : ConfigManager) (adapter_name : string)
    : option string :=
  match get_adapter_config self adapter_name with
  | Some adapter_config =>
      if no_config (Some adapter_config) then None
      else
        let api_key_var := dict_get adapter_config "api_key_var" None in
        match api_key_var with
        | Some var => if truthy api_key_var then api_keys self !! var else None
        | None => None
        end
  | None => None
  end.

Definition get_subscription_tier (self : ConfigManager)
    (adapter_name : string) : option string :=
  match get_adapter_config self adapter_name with
  | Some adapter_config =>
      if no_config (Some adapter_config) then None
      else
        let sub_tier_var := dict_get adapter_config "sub_tier_var" None in
        match sub_tier_var with
        | Some var => if truthy sub_tier_var then api_keys self !! var else None
        | None => None
        end
  | None => None
  end.

End Config.

(** ** core/manager.py and utils/docker_utils.py: the orchestrator *)

Module Manager.
Import Logger Config.

(** *** What the platform hands back *)

(** A [docker.models.networks.Network]. *)
Record network : Type := Network { net_name : string }.

(** A [docker.models.containers.Container]: its name and
    [attrs['NetworkSettings']['Networks']], network name to
    [IPAddress]. *)
Record container : Type := Container {
  ctr_name : string;
  ctr_networks : list (string * string)
}.

(** The keyword arguments of [containers.run]. *)
Record run_spec : Type := RunSpec {
  image : string;
  name : string;
  detach : bool;
  restart_policy : string;
  network_mode : option string;
  ports : list (string * Z);
  volumes : list (string * (string * string));
  environment : gmap string (option string);
  labels : list (string * string);
  command : option string
}.

(** The captured stdout of a finished command, as [json.loads] sees
    it: not JSON at all (with the decoder's complaint), or a value. *)
Inductive decoded (A : Type) : Type :=
| NotJson (msg : string)
| Json (v : A).
Global Arguments NotJson {A} msg.
Global Arguments Json {A} v.

(** The registry answers with a JSON object whose [Tags] member, when
    there is one, is an array of strings; a JSON value that is no
    object is kept apart, by the name of its Python type.  Objects
    whose [Tags] member has another shape are not covered. *)
Inductive tags_json : Type :=
| NotObject (type_name : string)
| Object (tags : option (list string)).

(** *** The calls the orchestrator makes, and their answers *)

Inductive call : Type :=
| SubprocessRun (argv : list string)
| PlatformSystem
| InstallDocker
| PathExists (path : string)
| MakeDirs (path : string)
| NetworksList (names : list string)
| NetworksCreate (name driver subnet gateway : string)
| NetworksGet (name : string)
| NetworkConnect (net : network) (c : container) (ipv4_address : option string)
| ContainersList (name_filter : string)
| ContainersRun (spec : run_spec)
| ContainersGet (name : string)
| ContainerStop (c : container)
| ContainerRemove (c : container) (force : bool).

Inductive reply : Type :=
| Done
| Answer (b : bool)
| Text (s : string)
| Networks (ns : list network)
| Containers (cs : list container)
| TheNetwork (n : network)
| TheContainer (c : container)
| TagsOut (body : decoded tags_json)
| ProbeOut (body : decoded json)
| Raised (e : exn).

(** The platform: host commands, the file system and the Docker SDK,
    each operation taking the world to an answer and a new world. *)
Record platform (W : Type) : Type := Platform {
  (** [subprocess.run(argv, check=True)], output unused *)
  run_check : list string -> W -> outcome unit * W;
  (** [subprocess.run(argv, capture_output=True, text=True, check=True)]
      for the registry query and for the probe *)
  run_registry : list string -> W -> outcome (decoded tags_json) * W;
  run_probe : list string -> W -> outcome (decoded json) * W;
  (** [platform.system()] *)
  platform_system : W -> string * W;
  (** [install_docker()] of docker_utils, by its result *)
  install_docker : W -> outcome bool * W;
  (** [os.path.expanduser], [os.path.exists], [os.makedirs] *)
  expanduser : string -> string;
  path_exists : string -> W -> bool * W;
  makedirs : string -> W -> outcome unit * W;
  (** [docker_client.networks] *)
  networks_list : list string -> W -> outcome (list network) * W;
  networks_create : string -> string -> string -> string -> W -> outcome unit * W;
  networks_get : string -> W -> outcome network * W;
  network_connect : network -> container -> option string -> W -> outcome unit * W;
  (** [docker_client.containers]; [containers_list] is the call with
      [all=True] and a name filter *)
  containers_list : string -> W -> outcome (list container) * W;
  containers_run : run_spec -> W -> outcome unit * W;
  containers_get : string -> W -> outcome container * W;
  container_stop : container -> W -> outcome unit * W;
  container_remove : container -> bool -> W -> outcome unit * W;
  (** [repr] of JSON arrays and objects, for f-strings *)
  repr : json -> string
}.
Global Arguments run_check {W} _ _ _.
Global Arguments run_registry {W} _ _ _.
Global Arguments run_probe {W} _ _ _.
Global Arguments platform_system {W} _ _.
Global Arguments install_docker {W} _ _.
Global Arguments expanduser {W} _ _.
Global Arguments path_exists {W} _ _ _.
Global Arguments makedirs {W} _ _ _.
Global Arguments networks_list {W} _ _ _.
Global Arguments networks_create {W} _ _ _ _ _ _.
Global Arguments networks_get {W} _ _ _.
Global Arguments network_connect {W} _ _ _ _ _.
Global Arguments containers_list {W} _ _ _.
Global Arguments containers_run {W} _ _ _.
Global Arguments containers_get {W} _ _ _.
Global Arguments container_stop {W} _ _ _.
Global Arguments container_remove {W} _ _ _ _.
Global Arguments repr {W} _ _.

(** *** What a run leaves behind *)

(** The orchestrator only ever appends to its logs and never reads
    them back, so a run is a function from the world to an outcome, a
    new world and the effects it had, oldest first: the platform calls
    with their answers, the records of the [logging] loggers, and the
    appends to the operation journal. *)
Inductive effect : Type :=
| Call (c : call) (r : reply)
| Log (lvl : level) (msg : string)
| Journal (e : entry).

Definition M (W A : Type) : Type := W -> outcome A * W * list effect.

Definition ret {W A} (a : A) : M W A := fun w => (Ret a, w, []).

Definition raise {W A} (e : exn) : M W A := fun w => (Raise e, w, []).

Definition lift {W A} (o : outcome A) : M W A := fun w => (o, w, []).

Definition bind {W A B} (m : M W A) (k : A -> M W B) : M W B :=
  fun w =>
    match m w with
    | (Ret a, w1, t1) =>
        match k a w1 with
        | (o, w2, t2) => (o, w2, t1 ++ t2)
        end
    | (Raise e, w1, t1) => (Raise e, w1, t1)
    end.

(** The outcome of [m], reified: what a [try] statement looks at.
    Effects that happened before the exception stay. *)
Definition attempt {W A} (m : M W A) : M W (outcome A) :=
  fun w => match m w with (o, w1, t) => (Ret o, w1, t) end.

Declare Scope py_scope.
Delimit Scope py_scope with py.
Notation "x <- m ;; k" := (bind m (fun x => k))
  (at level 100, m at next level, right associativity,
   format "'[v' x  <-  m  ;;  '/' k ']'") : py_scope.
Notation "m ;; k" := (bind m (fun _ => k))
  (at level 100, right associativity,
   format "'[v' m  ;;  '/' k ']'") : py_scope.

(** [try: m  except Exception as e: handler e] *)
Definition try_except {W A} (m : M W A) (handler : exn -> M W A) : M W A :=
  (o <- attempt m ;;
   match o with
   | Ret a => ret a
   | Raise e => handler e
   end)%py.

(** A platform call, written down with its answer. *)
Definition answered {A} (answer : A -> reply) (o : outcome A) : reply :=
  match o with
  | Ret a => answer a
  | Raise e => Raised e
  end.

Definition perform {W A} (c : call) (op : W -> outcome A * W)
    (answer : A -> reply) : M W A :=
  fun w => match op w with (o, w1) => (o, w1, [Call c (answered answer o)]) end.

Definition perform_total {W A} (c : call) (op : W -> A * W)
    (answer : A -> reply) : M W A :=
  fun w => match op w with (a, w1) => (Ret a, w1, [Call c (answer a)]) end.

(** [logger.info / warning / error] *)
Definition logger {W} (lvl : level) (msg : string) : M W unit :=
  fun w => (Ret tt, w, [Log lvl msg]).

(** [self.op_logger.log_...]: one append to the journal *)
Definition op_logger {W} (e : entry) : M W unit :=
  fun w => (Ret tt, w, [Journal e]).

(** The three records a run leaves, read off its effects. *)
Fixpoint calls (t : list effect) : list (call * reply) :=
  match t with
  | [] => []
  | Call c r :: rest => (c, r) :: calls rest
  | _ :: rest => calls rest
  end.

Fixpoint logged (t : list effect) : list (level * string) :=
  match t with
  | [] => []
  | Log lvl msg :: rest => (lvl, msg) :: logged rest
  | _ :: rest => logged rest
  end.

Fixpoint journal (t : list effect) : list entry :=
  match t with
  | [] => []
  | Journal e :: rest => e :: journal rest
  | _ :: rest => journal rest
  end.

(** *** utils/docker_utils.py *)

Section Orchestrator.
Context {W : Type} (os : platform W) (config : ConfigManager).

Local Open Scope py_scope.

Definition subprocess_check (argv : list string) : M W unit :=
  perform (SubprocessRun argv) (run_check os argv) (fun _ => Done).

Definition is_docker_installed : M W bool :=
  try_except
    (subprocess_check ["docker"; "--version"] ;; ret true)
    (fun e =>
       match exn_cls e with
       | CalledProcessError | FileNotFoundError => ret false
       | _ => raise e
       end).

Definition is_docker_running : M W bool :=
  try_except
    (subprocess_check ["docker"; "info"] ;; ret true)
    (fun e =>
       match exn_cls e with
       | CalledProcessError => ret false
       | _ => raise e
       end).

Definition has_sudo_privileges : M W bool :=
  try_except
    (subprocess_check ["sudo"; "-n"; "true"] ;; ret true)
    (fun e =>
       match exn_cls e with
       | CalledProcessError | FileNotFoundError => ret false
       | _ => raise e
       end).

Definition start_docker : M W bool :=
  try_except
    (system <- perform_total PlatformSystem (platform_system os) Text ;;
     if bool_decide (system = "Linux")
     then
       subprocess_check ["sudo"; "systemctl"; "start"; "docker"] ;;
       logger INFO "Docker started successfully" ;;
       ret true
     else
       logger ERROR
         ("Starting Docker daemon on " +:+ system +:+ " is not supported") ;;
       logger ERROR "Please start Docker manually" ;;
       ret false)
    (fun e =>
       match exn_cls e with
       | CalledProcessError =>
           logger ERROR ("Failed to start Docker: " +:+ exn_msg e) ;;
           ret false
       | _ => raise e
       end).

Definition ensure_docker_running : M W bool :=
  logger INFO "Checking if Docker is installed and running..." ;;
  installed <- is_docker_installed ;;
  proceed <-
    (if negb installed
     then
       logger WARNING "Docker is not installed" ;;
       sudo <- has_sudo_privileges ;;
       if negb sudo
       then
         logger ERROR "Cannot install Docker: insufficient privileges" ;;
         logger ERROR
           "Please install Docker manually and run the command again" ;;
         ret false
       else
         ok <- perform InstallDocker (install_docker os) Answer ;;
         if negb ok
         then logger ERROR "Failed to install Docker" ;; ret false
         else ret true
     else ret true) ;;
  if negb proceed then ret false
  else
    running <- is_docker_running ;;
    started <-
      (if negb running
       then
         logger WARNING "Docker is not running" ;;
         ok <- start_docker ;;
         if negb ok
         then logger ERROR "Failed to start Docker" ;; ret false
         else ret true
       else ret true) ;;
    if negb started then ret false
    else logger INFO "Docker is installed and running" ;; ret true.

(** *** core/manager.py *)

Definition docker_networks_list (names : list string) : M W (list network) :=
  perform (NetworksList names) (networks_list os names) Networks.

Definition docker_containers_list (name_filter : string)
    : M W (list container) :=
  perform (ContainersList name_filter) (containers_list os name_filter)
    Containers.

Definition docker_connect (net : network) (c : container)
    (ipv4_address : option string) : M W unit :=
  perform (NetworkConnect net c ipv4_address)
    (network_connect os net c ipv4_address) (fun _ => Done).

Definition docker_run (spec : run_spec) : M W unit :=
  perform (ContainersRun spec) (containers_run os spec) (fun _ => Done).

(** The block that follows [containers.run] in both
    [initialize_environment] and [deploy_adapter]: attach at the
    static address, and on any exception warn and attach without
    one.  [network] is assigned only after both lookups went through,
    so the retry reaches Docker only when the connect itself raised;
    otherwise evaluating [network.connect] is an unbound local. *)
Definition connect_fallback (warning error : string) (e : exn)
    (bound : option (network * container)) : M W unit :=
  logger WARNING (warning +:+ exn_msg e) ;;
  try_except
    (match bound with
     | Some (network, container) => docker_connect network container None
     | None =>
         raise (Exn NameError
           "cannot access local variable 'network' where it is not associated with a value")
     end)
    (fun inner_e => logger ERROR (error +:+ exn_msg inner_e)).

Definition connect_static (container_name : string)
    (ip_address : option string) (warning error : string) : M W unit :=
  got <- attempt (perform (ContainersGet container_name)
                    (containers_get os container_name) TheContainer) ;;
  match got with
  | Raise e => connect_fallback warning error e None
  | Ret container =>
      net <- attempt (perform (NetworksGet "eas-net")
                        (networks_get os "eas-net") TheNetwork) ;;
      match net with
      | Raise e => connect_fallback warning error e None
      | Ret network =>
          try_except
            (docker_connect network container ip_address)
            (fun e =>
               connect_fallback warning error e (Some (network, container)))
      end
  end.

Definition redis_spec (redis_dir : string) : run_spec :=
  {| image := "redis";
     name := "redis-cache";
     detach := true;
     restart_policy := "unless-stopped";
     network_mode := None;
     ports := [("6379/tcp", 6379)];
     volumes := [(redis_dir, ("/data", "rw"))];
     environment := ∅;
     labels := [];
     command := Some "redis-server --maxclients 2500" |}.

Definition initialize_environment : M W bool :=
  logger INFO "Initializing new Docker environment..." ;;
  running <- ensure_docker_running ;;
  if negb running then ret false
  else
    try_except
      (networks <- docker_networks_list ["eas-net"] ;;
       (match networks with
        | [] =>
            logger INFO "Creating Docker network..." ;;
            perform
              (NetworksCreate "eas-net" "bridge" "192.168.0.0/16" "192.168.0.1")
              (networks_create os "eas-net" "bridge" "192.168.0.0/16"
                 "192.168.0.1")
              (fun _ => Done) ;;
            logger INFO "Docker network created successfully"
        | _ :: _ => logger INFO "Docker network already exists"
        end) ;;
       let redis_dir := expanduser os "~/.redis" in
       present <- perform_total (PathExists redis_dir)
                    (path_exists os redis_dir) Answer ;;
       (if negb present
        then
          logger INFO "Creating Redis volume directory..." ;;
          perform (MakeDirs redis_dir) (makedirs os redis_dir) (fun _ => Done)
        else ret tt) ;;
       existing_containers <- docker_containers_list "redis-cache" ;;
       (match existing_containers with
        | _ :: _ => logger INFO "Redis container already exists"
        | [] =>
            logger INFO "Deploying Redis container..." ;;
            docker_run (redis_spec redis_dir) ;;
            connect_static "redis-cache" (Some "192.168.1.1")
              "Failed to set static IP for Redis: "
              "Failed to connect Redis to network: " ;;
            logger INFO "Redis container deployed successfully"
        end) ;;
       logger INFO "Environment initialization completed successfully" ;;
       op_logger (log_initialize true None) ;;
       ret true)
      (fun e =>
         let error_msg := "Failed to initialize environment: " +:+ exn_msg e in
         logger ERROR error_msg ;;
         op_logger (log_initialize false (Some error_msg)) ;;
         ret false).

(** [json.loads] on a captured stdout. *)
Definition json_loads {A} (body : decoded A) : outcome A :=
  match body with
  | NotJson msg => Raise (Exn JSONDecodeError msg)
  | Json v => Ret v
  end.

(** [sorted(tags, reverse=True)] on strings: the descending
    arrangement, which the order on strings makes unique. *)
Definition sorted_reverse (tags : list string) : list string :=
  merge_sort (flip String.le) tags.

(** [sorted(tags_data.get('Tags', []), reverse=True)] *)
Definition sorted_tags (tags_data : tags_json) : outcome (list string) :=
  match tags_data with
  | NotObject type_name => Raise (no_get type_name)
  | Object None => Ret (sorted_reverse [])
  | Object (Some tags) => Ret (sorted_reverse tags)
  end.

(** The registry query of [get_available_tags]. *)
Definition list_tags_argv (adapter_name : string) : list string :=
  let repo :=
    "public.ecr.aws/chainlink/adapters/" +:+ adapter_name +:+ "-adapter" in
  ["skopeo"; "list-tags"; "docker://" +:+ repo].

Definition get_available_tags (adapter_name : string) : M W (list string) :=
  let argv := list_tags_argv adapter_name in
  try_except
    (result <- perform (SubprocessRun argv) (run_registry os argv) TagsOut ;;
     tags_data <- lift (json_loads result) ;;
     tags <- lift (sorted_tags tags_data) ;;
     ret (take 10 tags))
    (fun e =>
       match exn_cls e with
       | CalledProcessError =>
           logger ERROR
             ("Failed to get tags for " +:+ adapter_name +:+ ": " +:+ exn_msg e) ;;
           ret []
       | JSONDecodeError =>
           logger ERROR
             ("Failed to parse tags for " +:+ adapter_name +:+ ": " +:+ exn_msg e) ;;
           ret []
       | _ => raise e
       end).

(** The environment of the adapter container, as [deploy_adapter]
    builds it. *)
Definition base_env_vars (adapter_name : string)
    (adapter_config : gmap string (option string))
    : gmap string (option string) :=
  list_to_map
    [("EA_PORT", dict_get adapter_config "port" (Some "1113"));
     ("CACHE_ENABLED", Some "true");
     ("CACHE_TYPE", Some "redis");
     ("CACHE_KEY_GROUP", Some adapter_name);
     ("CACHE_REDIS_HOST", Some "192.168.1.1");
     ("CACHE_REDIS_PORT", Some "6379");
     ("CACHE_REDIS_TIMEOUT", Some "10000");
     ("RATE_LIMIT_ENABLED", Some "true");
     ("WARMUP_ENABLED", Some "true");
     ("RATE_LIMIT_API_PROVIDER", Some adapter_name);
     ("REQUEST_COALESCING_ENABLED", Some "true");
     ("REQUEST_COALESCING_INTERVAL", Some "100");
     ("REQUEST_COALESCING_INTERVAL_MAX", Some "1000");
     ("REQUEST_COALESCING_INTERVAL_COEFFICIENT", Some "2");
     ("REQUEST_COALESCING_ENTROPY_MAX", Some "0");
     ("LOG_LEVEL", Some "info");
     ("DEBUG", Some "false");
     ("API_VERBOSE", Some "false");
     ("EXPERIMENTAL_METRICS_ENABLED", Some "true");
     ("METRICS_NAME", Some adapter_name);
     ("RETRY", Some "1");
     ("TIMEOUT", Some "30000")].

Definition env_vars (adapter_name : string)
    (adapter_config : gmap string (option string))
    : gmap string (option string) :=
  let env_vars := base_env_vars adapter_name adapter_config in
  let api_key := get_api_key config adapter_name in
  let env_vars :=
    if truthy api_key then <["API_KEY" := api_key]> env_vars else env_vars in
  let sub_tier := get_subscription_tier config adapter_name in
  if truthy sub_tier
  then <["RATE_LIMIT_API_TIER" := sub_tier]> env_vars else env_vars.

(** [ip_address] and [port] as [deploy_adapter] reads them. *)
Definition ip_address (adapter_config : gmap string (option string))
    : option string :=
  dict_get adapter_config "ip" (Some "192.168.1.113").

Definition port (adapter_config : gmap string (option string))
    : option string :=
  dict_get adapter_config "port" (Some "1113").

Definition adapter_spec (adapter_name tag : string)
    (adapter_config : gmap string (option string)) (port_number : Z)
    : run_spec :=
  let container_name := adapter_name +:+ "-redis" in
  {| image :=
       "public.ecr.aws/chainlink/adapters/" +:+ adapter_name
         +:+ "-adapter:" +:+ tag;
     name := container_name;
     detach := true;
     restart_policy := "unless-stopped";
     network_mode := None;
     ports := [(format (port adapter_config) +:+ "/tcp", port_number)];
     volumes := [];
     environment := env_vars adapter_name adapter_config;
     labels :=
       [("prometheus-scrape.enabled", "true");
        ("prometheus-scrape.job_name", container_name);
        ("prometheus-scrape.port", "9080");
        ("prometheus-scrape.metrics_path", "/metrics")];
     command := None |}.

(** [for container in existing_containers: container.remove(force=True)] *)
Fixpoint remove_all (existing_containers : list container) : M W unit :=
  match existing_containers with
  | [] => ret tt
  | container :: rest =>
      perform (ContainerRemove container true)
        (container_remove os container true) (fun _ => Done) ;;
      remove_all rest
  end.

(** [deploy_adapter] once the tag is known. *)
Definition deploy_tag (adapter_name tag : string) : M W bool :=
  let adapter_config := get_adapter_config config adapter_name in
  match adapter_config with
  | None =>
      logger ERROR ("No configuration found for adapter " +:+ adapter_name) ;;
      ret false
  | Some adapter_config =>
      if no_config (Some adapter_config)
      then
        logger ERROR ("No configuration found for adapter " +:+ adapter_name) ;;
        ret false
      else
        checked <- attempt (docker_networks_list ["eas-net"]) ;;
        match checked with
        | Raise e =>
            logger ERROR ("Failed to check Docker networks: " +:+ exn_msg e) ;;
            ret false
        | Ret [] =>
            logger ERROR
              "Docker network 'eas-net' does not exist. Please run 'ea-manager -i' first." ;;
            ret false
        | Ret (_ :: _) =>
            try_except
              (let container_name := adapter_name +:+ "-redis" in
               existing_containers <- docker_containers_list container_name ;;
               (match existing_containers with
                | _ :: _ =>
                    logger WARNING
                      ("Container " +:+ container_name
                         +:+ " already exists. Removing...") ;;
                    remove_all existing_containers
                | [] => ret tt
                end) ;;
               logger INFO
                 ("Deploying " +:+ adapter_name +:+ " adapter with tag " +:+ tag) ;;
               port_number <- lift (Py.int (port adapter_config)) ;;
               docker_run (adapter_spec adapter_name tag adapter_config
                             port_number) ;;
               connect_static container_name (ip_address adapter_config)
                 "Failed to set static IP: " "Failed to connect to network: " ;;
               logger INFO
                 ("Successfully deployed " +:+ adapter_name +:+ " adapter") ;;
               op_logger (log_deploy adapter_name (Some tag) true None) ;;
               ret true)
              (fun e =>
                 let error_msg :=
                   "Failed to deploy " +:+ adapter_name +:+ " adapter: "
                     +:+ exn_msg e in
                 logger ERROR error_msg ;;
                 op_logger
                   (log_deploy adapter_name (Some tag) false (Some error_msg)) ;;
                 ret false)
        end
  end.

Definition deploy_adapter (adapter_name : string) (tag : option string)
    : M W bool :=
  match tag with
  | Some t =>
      if truthy tag then deploy_tag adapter_name t
      else
        tags <- get_available_tags adapter_name ;;
        match tags with
        | [] => logger ERROR ("No tags found for " +:+ adapter_name) ;; ret false
        | first :: _ => deploy_tag adapter_name first
        end
  | None =>
      tags <- get_available_tags adapter_name ;;
      match tags with
      | [] => logger ERROR ("No tags found for " +:+ adapter_name) ;; ret false
      | first :: _ => deploy_tag adapter_name first
      end
  end.

(** The loop of [upgrade_adapter]: stop and remove each container. *)
Fixpoint stop_and_remove (container_name : string)
    (existing_containers : list container) : M W unit :=
  match existing_containers with
  | [] => ret tt
  | container :: rest =>
      logger INFO ("Stopping and removing container " +:+ container_name) ;;
      perform (ContainerStop container) (container_stop os container)
        (fun _ => Done) ;;
      perform (ContainerRemove container false)
        (container_remove os container false) (fun _ => Done) ;;
      stop_and_remove container_name rest
  end.

Definition upgrade_adapter (adapter_name : string) (tag : option string)
    : M W bool :=
  let container_name := adapter_name +:+ "-redis" in
  existing_containers <- docker_containers_list container_name ;;
  match existing_containers with
  | [] =>
      logger ERROR ("Container " +:+ container_name +:+ " does not exist") ;;
      ret false
  | _ :: _ =>
      try_except
        (stop_and_remove container_name existing_containers ;;
         result <- deploy_adapter adapter_name tag ;;
         (if result : bool
          then op_logger (log_upgrade adapter_name tag true None)
          else ret tt) ;;
         ret result)
        (fun e =>
           let error_msg :=
             "Failed to upgrade " +:+ adapter_name +:+ " adapter: "
               +:+ exn_msg e in
           logger ERROR error_msg ;;
           op_logger (log_upgrade adapter_name tag false (Some error_msg)) ;;
           ret false)
  end.

(** [container.attrs['NetworkSettings']['Networks']['eas-net']['IPAddress']];
    [None] is the [KeyError] of a container that is not on the
    network. *)
Fixpoint ip_on (net : string) (networks : list (string * string))
    : option string :=
  match networks with
  | [] => None
  | (n, ip) :: rest => if bool_decide (n = net) then Some ip else ip_on net rest
  end.

(** The host the probe is sent to. *)
Definition container_ip (container_name : string) (got : outcome container)
    : string :=
  match got with
  | Ret container =>
      match ip_on "eas-net" (ctr_networks container) with
      | Some ip => ip
      | None => container_name
      end
  | Raise _ => container_name
  end.

Definition quote : string := String (ascii_of_nat 34) EmptyString.

Definition curl_cmd (container_ip from_param to_param : string)
    : list string :=
  ["curl"; "-v"; "--connect-timeout"; "5";
   "--header"; "Content-Type: application/json";
   "--request"; "POST";
   "--data";
   "{" +:+ quote +:+ "data" +:+ quote +:+ ":{"
     +:+ quote +:+ "from" +:+ quote +:+ ":" +:+ quote +:+ from_param +:+ quote
     +:+ ", " +:+ quote +:+ "to" +:+ quote +:+ ":" +:+ quote +:+ to_param
     +:+ quote +:+ "}}";
   "http://" +:+ container_ip +:+ ":1113"].

(** [response.get("result")] *)
Definition get_result (response : json) : outcome json :=
  match response with
  | JObj fields =>
      match assoc "result" fields with
      | Some v => Ret v
      | None => Ret JNull
      end
  | _ => Raise (no_get (type_name response))
  end.

(** [test_adapter]; the returned [JNull] is Python's [None]. *)
Definition test_adapter (container_name from_param to_param : string)
    : M W json :=
  try_except
    (got <- attempt (perform (ContainersGet container_name)
                       (containers_get os container_name) TheContainer) ;;
     let container_ip := container_ip container_name got in
     let curl_cmd := curl_cmd container_ip from_param to_param in
     logger INFO ("Running command: " +:+ join " " curl_cmd) ;;
     result <- perform (SubprocessRun curl_cmd) (run_probe os curl_cmd)
                 ProbeOut ;;
     response <- lift (json_loads result) ;;
     adapter_result <- lift (get_result response) ;;
     logger INFO
       ("Test result for " +:+ container_name +:+ ": " +:+ from_param
          +:+ " / " +:+ to_param +:+ " --> " +:+ str (repr os) adapter_result) ;;
     op_logger
       (log_test (repr os) container_name from_param to_param true
          adapter_result) ;;
     ret adapter_result)
    (fun e =>
       let error_msg :=
         match exn_cls e with
         | CalledProcessError => "Failed to test adapter: " +:+ exn_msg e
         | JSONDecodeError =>
             "Failed to parse adapter response: " +:+ exn_msg e
         | _ => "Error testing adapter: " +:+ exn_msg e
         end in
       logger ERROR error_msg ;;
       op_logger
         (log_test (repr os) container_name from_param to_param false
            (JStr error_msg)) ;;
       ret JNull).

End Orchestrator.

End Manager.

(** ** A scripted platform

    For running the orchestrator on concrete situations: the world is the
    list of answers still to come, and each platform call takes the next
    one.  An answer of the wrong kind, or a call after the script has
    run out, raises. *)

Module Script.
Import Manager.

Definition next {A} (pick : reply -> option A) (w : list reply)
    : outcome A * list reply :=
  match w with
  | Raised e :: rest => (Raise e, rest)
  | r :: rest =>
      match pick r with
      | Some a => (Ret a, rest)
      | None => (Raise (Exn OtherException "unscripted answer"), rest)
      end
  | [] => (Raise (Exn OtherException "unscripted call"), [])
  end.

Definition next_total {A} (pick : reply -> option A) (dflt : A)
    (w : list reply) : A * list reply :=
  match w with
  | r :: rest => (from_option id dflt (pick r), rest)
  | [] => (dflt, [])
  end.

Definition done (r : reply) : option unit :=
  match r with Done => Some tt | _ => None end.
Definition answer (r : reply) : option bool :=
  match r with Answer b => Some b | _ => None end.
Definition text (r : reply) : option string :=
  match r with Text s => Some s | _ => None end.
Definition the_networks (r : reply) : option (list network) :=
  match r with Networks ns => Some ns | _ => None end.
Definition the_containers (r : reply) : option (list container) :=
  match r with Containers cs => Some cs | _ => None end.
Definition the_network (r : reply) : option network :=
  match r with TheNetwork n => Some n | _ => None end.
Definition the_container (r : reply) : option container :=
  match r with TheContainer c => Some c | _ => None end.
Definition tags_out (r : reply) : option (decoded tags_json) :=
  match r with TagsOut body => Some body | _ => None end.
Definition probe_out (r : reply) : option (decoded json) :=
  match r with ProbeOut body => Some body | _ => None end.

Definition home (path : string) : string :=
  match path with
  | String c rest =>
      if bool_decide (c = ascii_of_nat 126) then "/home/ea" +:+ rest else path
  | EmptyString => path
  end.

Definition os : platform (list reply) :=
  {| run_check := fun _ => next done;
     run_registry := fun _ => next tags_out;
     run_probe := fun _ => next probe_out;
     platform_system := next_total text "";
     install_docker := next answer;
     expanduser := home;
     path_exists := fun _ => next_total answer false;
     makedirs := fun _ => next done;
     networks_list := fun _ => next the_networks;
     networks_create := fun _ _ _ _ => next done;
     networks_get := fun _ => next the_network;
     network_connect := fun _ _ _ => next done;
     containers_list := fun _ => next the_containers;
     containers_run := fun _ => next done;
     containers_get := fun _ => next the_container;
     container_stop := fun _ => next done;
     container_remove := fun _ _ => next done;
     repr := fun _ => "[...]" |}.

End Script.

(** ** Concrete situations *)

Module Fixtures.
Import Config Manager.

(** Three adapter scripts: coingecko as the repository sets it up, one
    in which neither the address nor the port pattern matches, and one
    whose key variable is exported with nothing after the equals sign. *)
Definition listing : option (list dir_entry) :=
  Some
    [DirEntry "coingecko" false true
       (Some (Script (Some "192.168.1.113") (Some "1113")
                (Some "COINGECKO_API_KEY") None));
     DirEntry "bare" false true (Some (Script None None None None));
     DirEntry "blank" false true
       (Some (Script (Some "192.168.1.120") (Some "1120")
                (Some "BLANK_API_KEY") (Some "BLANK_TIER")))].

Definition exports : option (list (string * string)) :=
  Some [("COINGECKO_API_KEY", "abc123"); ("BLANK_API_KEY", "");
        ("BLANK_TIER", "")].

Definition fleet : ConfigManager := Config.init exports listing.

Definition eas_net : network := Network "eas-net".

Definition old_coingecko : container :=
  Container "coingecko-redis" [("eas-net", "192.168.1.113")].

Definition new_coingecko : container := Container "coingecko-redis" [].

Definition redis_cache : container := Container "redis-cache" [].

Definition address_in_use : exn := Exn OtherException "Address already in use".

Definition exit_status_1 : exn :=
  Exn CalledProcessError "Command returned non-zero exit status 1.".

Definition missing_result : json := JObj [("jobRunID", JStr "1")].

(** The dicts static discovery stores for coingecko, bare and blank. *)
Definition coingecko_dict : gmap string (option string) :=
  adapter_dict
    (Script (Some "192.168.1.113") (Some "1113") (Some "COINGECKO_API_KEY") None).

Definition bare_dict : gmap string (option string) :=
  adapter_dict (Script None None None None).

Definition blank_dict : gmap string (option string) :=
  adapter_dict
    (Script (Some "192.168.1.120") (Some "1120") (Some "BLANK_API_KEY")
       (Some "BLANK_TIER")).

(** Docker answers for a deploy of coingecko in which the connect at
    the static address raises. *)
Definition deploy_script : list reply :=
  [Networks [eas_net]; Containers []; Done;
   TheContainer new_coingecko; TheNetwork eas_net;
   Raised address_in_use; Done].

(** Answers for an initialize on a host with Docker running, the
    network present and no cache container, in which the connect at the
    static address raises. *)
Definition initialize_script : list reply :=
  [Done; Done; Networks [eas_net]; Answer true; Containers []; Done;
   TheContainer redis_cache; TheNetwork eas_net;
   Raised address_in_use; Done].

(** Answers for an initialize that finds the network and the cache
    container. *)
Definition present_script : list reply :=
  [Done; Done; Networks [eas_net]; Answer true; Containers [redis_cache]].

(** The container a deploy of coingecko at tag 3.2.1 runs. *)
Definition coingecko_spec : run_spec :=
  adapter_spec fleet "coingecko" "3.2.1" coingecko_dict 1113.

(** Answers for an upgrade of coingecko that goes through. *)
Definition upgrade_script : list reply :=
  [Containers [old_coingecko]; Done; Done;
   Networks [eas_net]; Containers []; Done;
   TheContainer new_coingecko; TheNetwork eas_net; Done].

End Fixtures.

(** ** Reading a run *)

Module Shape.
Import Logger Manager.


(** The calls of docker_utils: commands on the host. *)
Definition host (c : call) : bool :=
  match c with
  | SubprocessRun _ | PlatformSystem | InstallDocker => true
  | _ => false
  end.

(** Stopping and removing containers. *)
Definition removal (c : call) : bool :=
  match c with
  | ContainerStop _ | ContainerRemove _ _ => true
  | _ => false
  end.

Definition subprocess (c : call) : bool :=
  match c with
  | SubprocessRun _ => true
  | _ => false
  end.

(** Looking a container or the network up and attaching one to the
    other. *)
Definition attachment (c : call) : bool :=
  match c with
  | ContainersGet _ | NetworksGet _ | NetworkConnect _ _ _ => true
  | _ => false
  end.


(** Descending order on tags, and its strict part. *)
Definition descending (a b : string) : Prop := String.le b a.

Definition strictly_descending (a b : string) : Prop :=
  String.le b a /\ a <> b.

(** The run [t] holds a connect at the static address [a] that raised
    [e], followed at once by the warning and by the connect without an
    address. *)
Definition falls_back (warning : string) (n : network) (c : container)
    (a : string) (e : exn) (t : list effect) : Prop :=
  exists pre r post,
    t = pre ++ [Call (NetworkConnect n c (Some a)) (Raised e);
                Log WARNING (warning +:+ exn_msg e);
                Call (NetworkConnect n c None) r] ++ post.

(** How an operation of kind [kind] on [subject] that ended with [o]
    shows in the appends [j] it made under its own kind: one entry whose
    success flag is the returned value, or none at all, and then the
    operation did not return [True]. *)
Definition journaled (kind : string) (subject : option string)
    (o : outcome bool) (j : list entry) : Prop :=
  (j = [] /\ o <> Ret true) \/
  (exists b d, o = Ret b /\ j = [Entry kind subject b d]).

(** All calls of a run satisfy [p]. *)
Definition all_calls (p : call -> bool) (t : list effect) : Prop :=
  Forall (fun cr => p cr.1 = true) (calls t).

End Shape.

(** ** config/config_manager.py: chain variables *)

Module Chains.
Import Logger Config.

(** The dict kept for one chain: its two keys, [rpc_url] and
    [chain_id], each present or not. *)
Record chain : Type := Chain { rpc_url : option string; chain_id : option Z }.

(** What [_load_chain_vars] finds: no [misc_vars] file, a file whose
    reading raises, or the chain name and raw value of every RPC URL
    line and of every chain id line, in file order. *)
Inductive misc_vars : Type :=
| NoFile
| Unreadable (msg : string)
| Matches (rpc_matches chain_id_matches : list (string * string)).

Section Load.
(** [int] on a text, [None] for a [ValueError]; and the path of the
    file, which depends on the working directory. *)
Variable int_of : string -> option Z.
Variable misc_vars_path : string.

(** [chain_vars[name]] once [if chain not in chain_vars] has run. *)
Definition entry_of (chain_vars : gmap string chain) (name : string) : chain :=
  default (Chain None None) (chain_vars !! name).

(** One round of the loop over the RPC URL lines. *)
Definition add_rpc_url (chain_vars : gmap string chain) (m : string * string)
    : gmap string chain :=
  let url := strip m.2 in
  if bool_decide (url = "") then chain_vars
  else
    <[m.1 := Chain (Some url) (chain_id (entry_of chain_vars m.1))]> chain_vars.

(** One round of the loop over the chain id lines, with the warnings
    written so far. *)
Definition add_chain_id (acc : gmap string chain * list (level * string))
    (m : string * string) : gmap string chain * list (level * string) :=
  let chain_id := strip m.2 in
  if bool_decide (chain_id = "") then acc
  else
    let old := entry_of acc.1 m.1 in
    match int_of chain_id with
    | Some n => (<[m.1 := Chain (rpc_url old) (Some n)]> acc.1, acc.2)
    | None =>
        (<[m.1 := old]> acc.1,
         acc.2 ++
           [(WARNING, "Invalid chain ID for " +:+ m.1 +:+ ": " +:+ chain_id)])
    end.

Definition _load_chain_vars (file : misc_vars)
    : gmap string chain * list (level * string) :=
  match file with
  | NoFile => (∅, [(WARNING, "Misc vars file not found: " +:+ misc_vars_path)])
  | Unreadable msg =>
      (∅, [(ERROR, "Failed to load chain variables: " +:+ msg)])
  | Matches rpc_matches chain_id_matches =>
      foldl add_chain_id (foldl add_rpc_url ∅ rpc_matches, []) chain_id_matches
  end.

End Load.

End Chains.

(** ** adapters/coingecko.py *)

Module CoinGecko.

Definition get_env_vars (api_key sub_tier : option string)
    : gmap string (option string) :=
  let env_vars : gmap string (option string) :=
    list_to_map
      [("CACHE_KEY_GROUP", Some "coingecko");
       ("RATE_LIMIT_API_PROVIDER", Some "coingecko");
       ("METRICS_NAME", Some "coingecko")] in
  let env_vars :=
    if truthy api_key then <["API_KEY" := api_key]> env_vars else env_vars in
  if truthy sub_tier
  then <["RATE_LIMIT_API_TIER" := sub_tier]> env_vars else env_vars.

Definition get_default_config : gmap string (option string) :=
  list_to_map
    [("ip", Some "192.168.1.113");
     ("port", Some "1113");
     ("api_key_var", Some "COINGECKO_API_KEY");
     ("sub_tier_var", Some "COINGECKO_SUB_HTTP")].

End CoinGecko.

(** ** cli.py: the command line *)

Module Cli.
Import Logger Config Manager.

(** What a command writes to the terminal: the text of a [print], the
    prompt of an [input], or the help of the argument parser. *)
Inductive out : Type :=
| Print (text : string)
| Prompt (text : string)
| Help.

(** How a command ends: it returns, it leaves through [sys.exit], or an
    exception goes uncaught. *)
Inductive ending (A : Type) : Type :=
| Return (a : A)
| Exit (code : Z)
| Uncaught (e : exn).
Global Arguments Return {A} a.
Global Arguments Exit {A} code.
Global Arguments Uncaught {A} e.

(** A command reads the lines still waiting on standard input and the
    world, and yields its ending, the lines left, the new world, the
    effects of the manager calls it made and its terminal output. *)
Definition C (W A : Type) : Type :=
  list string -> W -> ending A * list string * W * list effect * list out.

Definition ret {W A} (a : A) : C W A := fun stdin w => (Return a, stdin, w, [], []).

Definition bind {W A B} (m : C W A) (k : A -> C W B) : C W B :=
  fun stdin w =>
    match m stdin w with
    | (Return a, stdin1, w1, t1, o1) =>
        match k a stdin1 w1 with
        | (e, stdin2, w2, t2, o2) => (e, stdin2, w2, t1 ++ t2, o1 ++ o2)
        end
    | (Exit code, stdin1, w1, t1, o1) => (Exit code, stdin1, w1, t1, o1)
    | (Uncaught e, stdin1, w1, t1, o1) => (Uncaught e, stdin1, w1, t1, o1)
    end.

Declare Scope cli_scope.
Delimit Scope cli_scope with cli.
Notation "x <- m ;; k" := (bind m (fun x => k))
  (at level 100, m at next level, right associativity) : cli_scope.
Notation "m ;; k" := (bind m (fun _ => k))
  (at level 100, right associativity) : cli_scope.

Definition print {W} (text : string) : C W unit :=
  fun stdin w => (Return tt, stdin, w, [], [Print text]).

(** [sys.exit(code)] *)
Definition exit {W A} (code : Z) : C W A :=
  fun stdin w => (Exit code, stdin, w, [], []).

(** A call of a method of the manager. *)
Definition manager {W A} (m : M W A) : C W A :=
  fun stdin w =>
    match m w with
    | (Ret a, w1, t) => (Return a, stdin, w1, t, [])
    | (Raise e, w1, t) => (Uncaught e, stdin, w1, t, [])
    end.

Definition end_of_input : exn := Exn OtherException "EOF when reading a line".

Definition BOLD : string := String (ascii_of_nat 27) "[1m".
Definition RESET : string := String (ascii_of_nat 27) "[0m".
Definition newline : string := String (ascii_of_nat 10) EmptyString.

Definition bold (text : string) : string := BOLD +:+ text +:+ RESET.

Section Commands.
Context {W : Type} (os : platform W) (config : ConfigManager).
(** [int] on a line typed at the prompt, [None] for a [ValueError]. *)
Variable int_of : string -> option Z.

Local Open Scope cli_scope.

Definition print_version : C W unit :=
  let version := "0.1.0" in
  print ("Chainlink EA Manager version: " +:+ BOLD +:+ version +:+ RESET).

Definition initialize_environment : C W unit :=
  print (bold "Initializing new Docker environment...") ;;
  ok <- manager (Manager.initialize_environment os) ;;
  if ok : bool
  then
    print (newline +:+ bold "Redis container info:") ;;
    print "containerName: redis-cache" ;;
    print "IPaddress: 192.168.1.1" ;;
    print "listnPort: 6379"
  else
    print (bold "Failed to initialize environment") ;;
    exit 1.

(** [len(tags) - 1] as the prompt and the complaint print it. *)
Definition last_index (tags : list string) : string :=
  pretty (Z.of_nat (length tags) - 1).

(** The [while True] loop that asks for a tag: one round for each line
    of input, and the [EOFError] of [input] when the lines run out. *)
Fixpoint choose (tags : list string) (stdin : list string) (w : W)
    : ending string * list string * W * list effect * list out :=
  let prompt := Prompt ("Select a tag (0-" +:+ last_index tags +:+ "): ") in
  match stdin with
  | [] => (Uncaught end_of_input, [], w, [], [prompt])
  | selection :: rest =>
      match int_of selection with
      | Some index =>
          if Z.leb 0 index && Z.ltb index (Z.of_nat (length tags))
          then
            (Return (default "" (tags !! Z.to_nat index)), rest, w, [], [prompt])
          else
            match choose tags rest w with
            | (e, stdin1, w1, t, o) =>
                (e, stdin1, w1, t,
                 prompt
                   :: Print
                        ("Invalid selection. Please enter a number between 0 and "
                           +:+ last_index tags +:+ ".")
                   :: o)
            end
      | None =>
          match choose tags rest w with
          | (e, stdin1, w1, t, o) =>
              (e, stdin1, w1, t,
               prompt :: Print "Invalid input. Please enter a number." :: o)
          end
      end
  end.

(** The lines [0) tag], [1) tag], ... *)
Fixpoint numbered (i : nat) (tags : list string) : list out :=
  match tags with
  | [] => []
  | tag_name :: rest =>
      Print (pretty (Z.of_nat i) +:+ ") " +:+ tag_name) :: numbered (S i) rest
  end.

(** The block that opens both [deploy_adapter] and [upgrade_adapter]:
    the tag to use, asked for when none was given. *)
Definition resolve_tag (adapter_name : string) (tag : option string)
    : C W (option string) :=
  if truthy tag then ret tag
  else
    tags <- manager (get_available_tags os adapter_name) ;;
    match tags with
    | [] =>
        print (bold ("No tags found for " +:+ adapter_name)) ;;
        exit 1
    | _ :: _ =>
        print ("Available tags for " +:+ adapter_name +:+ ":") ;;
        (fun stdin w => (Return tt, stdin, w, [], numbered 0 tags)) ;;
        chosen <- choose tags ;;
        ret (Some chosen)
    end.

Definition deploy_adapter (adapter_name : string) (tag : option string)
    : C W unit :=
  tag <- resolve_tag adapter_name tag ;;
  print (bold ("Deploying " +:+ adapter_name +:+ " at version " +:+ format tag)) ;;
  ok <- manager (Manager.deploy_adapter os config adapter_name tag) ;;
  if ok : bool
  then print (bold ("Successfully deployed " +:+ adapter_name +:+ " adapter"))
  else
    print (bold ("Failed to deploy " +:+ adapter_name +:+ " adapter")) ;;
    exit 1.

Definition upgrade_adapter (adapter_name : string) (tag : option string)
    : C W unit :=
  tag <- resolve_tag adapter_name tag ;;
  print
    (bold
       ("Stopping, removing, and redeploying " +:+ adapter_name
          +:+ " at version " +:+ format tag)) ;;
  ok <- manager (Manager.upgrade_adapter os config adapter_name tag) ;;
  if ok : bool
  then print (bold ("Successfully upgraded " +:+ adapter_name +:+ " adapter"))
  else
    print (bold ("Failed to upgrade " +:+ adapter_name +:+ " adapter")) ;;
    exit 1.

Definition test_adapter (container_name : string) (params : list string)
    : C W unit :=
  match params with
  | from_param :: to_param :: _ =>
      print (bold "Container:" +:+ " " +:+ container_name) ;;
      print (bold "FROM:" +:+ "      " +:+ from_param) ;;
      print (bold "TO:" +:+ "        " +:+ to_param) ;;
      result <-
        manager (Manager.test_adapter os container_name from_param to_param) ;;
      match result with
      | JNull =>
          print (bold "Failed to test adapter") ;;
          exit 1
      | _ =>
          print
            (BOLD +:+ from_param +:+ " / " +:+ to_param +:+ " --> " +:+ RESET
               +:+ str (repr os) result)
      end
  | _ =>
      print (bold "Error: Missing parameters for test") ;;
      print "Usage: ea-manager -t CONTAINER FROM TO" ;;
      exit 1
  end.

(** [sorted(manager.get_supported_adapters())]: the names of the
    discovered adapters in ascending order. *)
Definition sorted_adapters : list string :=
  merge_sort String.le (map_to_list (adapter_configs config)).*1.

Definition list_adapters : C W unit :=
  print (bold "Listing Supported EAs:") ;;
  print "" ;;
  match sorted_adapters with
  | [] => print "  No supported adapters found"
  | adapters =>
      fun stdin w =>
        (Return tt, stdin, w, [], (fun adapter => Print ("  " +:+ adapter)) <$> adapters)
  end.

(** The parsed command line. *)
Record args : Type := Args {
  version : bool;
  initialize : bool;
  deploy : option string;
  upgrade : option string;
  test : option string;
  list_all : bool;
  params : list string;
  tag : option string
}.

(** [main] from the point where the arguments are parsed and the
    manager is built. *)
Definition main (a : args) : C W unit :=
  if version a then print_version
  else if initialize a then initialize_environment
  else if truthy (deploy a) then deploy_adapter (format (deploy a)) (tag a)
  else if truthy (upgrade a) then upgrade_adapter (format (upgrade a)) (tag a)
  else if truthy (test a) then test_adapter (format (test a)) (params a)
  else if list_all a then list_adapters
  else fun stdin w => (Return tt, stdin, w, [], [Help]).

(** The exit status of the process. *)
Definition status {A} (e : ending A) : Z :=
  match e with
  | Return _ => 0
  | Exit code => code
  | Uncaught _ => 1
  end.

End Commands.

End Cli.

(** ** More ways to read a run *)

Module Traits.
Import Logger Config Manager Shape.

(** A call to the Docker SDK or the file system, as opposed to a
    command on the host. *)
Definition sdk (c : call) : bool := negb (host c).

Definition networks_listing (c : call) : bool :=
  match c with
  | NetworksList _ => true
  | _ => false
  end.

Definition containers_listing (c : call) : bool :=
  match c with
  | ContainersList _ => true
  | _ => false
  end.

(** The calls a deploy makes before it touches any container. *)
Definition before_containers (c : call) : bool :=
  subprocess c || networks_listing c.

(** The calls of an upgrade that never got to its deploy. *)
Definition listing_or_removal (c : call) : bool :=
  containers_listing c || removal c.

(** [container.stop()] and [container.remove()] without force: the
    removals of [upgrade_adapter]. *)
Definition soft_removal (c : call) : bool :=
  match c with
  | ContainerStop _ | ContainerRemove _ false => true
  | _ => false
  end.

Definition is_run (cr : call * reply) : bool :=
  match cr.1 with
  | ContainersRun _ => true
  | _ => false
  end.

(** Every container of [cs] force-removed, in order, and every one
    stopped and removed, in order. *)
Definition forced (cs : list container) : list (call * reply) :=
  (fun c => (ContainerRemove c true, Done)) <$> cs.

Definition stopped (cs : list container) : list (call * reply) :=
  cs ≫= (fun c => [(ContainerStop c, Done); (ContainerRemove c false, Done)]).

(** A directory entry [_create_adapter_configs] does not skip. *)
Definition usable (f : dir_entry) : bool := negb (is_dir f) && executable f.

(** The text [test_adapter] logs for an exception. *)
Definition probe_error (e : exn) : string :=
  match exn_cls e with
  | CalledProcessError => "Failed to test adapter: " +:+ exn_msg e
  | JSONDecodeError => "Failed to parse adapter response: " +:+ exn_msg e
  | _ => "Error testing adapter: " +:+ exn_msg e
  end.

(** Looking the container or the network up before connecting, and
    the connecting itself. *)
Definition attach_lookup (c : call) : bool :=
  match c with
  | ContainersGet _ | NetworksGet _ => true
  | _ => false
  end.

Definition connects (c : call) : bool :=
  match c with
  | NetworkConnect _ _ _ => true
  | _ => false
  end.

Definition unconnected (c : call) : bool := negb (connects c).

(** The calls of a deploy on containers: listing, removing, running. *)
Definition container_action (c : call) : bool :=
  match c with
  | ContainersList _ | ContainerRemove _ _ | ContainersRun _ => true
  | _ => false
  end.

(** [text] between two quote characters [q]. *)
Definition quoted (q : ascii) (text : string) : string :=
  String q (text +:+ String q EmptyString).

(** Every character of [pad] is a blank. *)
Fixpoint blanks (pad : string) : bool :=
  match pad with
  | EmptyString => true
  | String c rest => is_blank c && blanks rest
  end.

End Traits.

(** ** More concrete situations *)

Module Cases.
Import Config Manager Fixtures.

(** A reading of [int] that takes runs of digits only, for running the
    loops that parse a line on concrete lines. *)
Definition int_of (s : string) : option Z :=
  match Py.int (Some s) with
  | Ret n => Some n
  | Raise _ => None
  end.

Definition docker_missing : exn :=
  Exn FileNotFoundError "[Errno 2] No such file or directory: 'docker'".

Definition skopeo_missing : exn :=
  Exn FileNotFoundError "[Errno 2] No such file or directory: 'skopeo'".

Definition permission_denied : exn := Exn OtherException "permission denied".

Definition pull_denied : exn := Exn OtherException "pull access denied".

Definition no_such_container : exn :=
  Exn OtherException "No such container: coingecko-redis".

Definition cannot_stop : exn := Exn OtherException "cannot stop container".

(** A host without Docker on which the installation goes through. *)
Definition install_script : list reply :=
  [Raised docker_missing; Done; Answer true; Done].

(** A host on which Docker is installed and running. *)
Definition running_script : list reply := [Done; Done].

(** An initialize that has to create the network, and one in which
    creating it raises. *)
Definition create_script : list reply :=
  [Done; Done; Networks []; Done; Answer true; Containers [redis_cache]].

Definition create_fails_script : list reply :=
  [Done; Done; Networks []; Raised permission_denied].

(** Deploys of coingecko: without the network, over an old container,
    with a run that raises, with a container lookup that raises, and
    without a tag. *)
Definition no_network_script : list reply := [Networks []].

Definition replace_script : list reply :=
  [Networks [eas_net]; Containers [old_coingecko]; Done; Done;
   TheContainer new_coingecko; TheNetwork eas_net; Done].

Definition run_fails_script : list reply :=
  [Networks [eas_net]; Containers []; Raised pull_denied].

Definition lookup_fails_script : list reply :=
  [Networks [eas_net]; Containers []; Done; Raised no_such_container].

Definition registry_tags : list string := ["3.1.0"; "3.2.1"; "3.2.0"].

Definition untagged_script : list reply :=
  [TagsOut (Json (Object (Some registry_tags)));
   Networks [eas_net]; Containers []; Done;
   TheContainer new_coingecko; TheNetwork eas_net; Done].

(** Upgrades of coingecko: one whose stop raises, and one that finds no
    network once the old container is gone. *)
Definition stop_fails_script : list reply :=
  [Containers [old_coingecko]; Raised cannot_stop].

Definition upgrade_no_network_script : list reply :=
  [Containers [old_coingecko]; Done; Done; Networks []].

(** Probes of coingecko: one whose command exits non-zero, and one that
    is answered. *)
Definition probe_fails_script : list reply :=
  [TheContainer old_coingecko; Raised exit_status_1].

Definition price : json := JFloat false "1800.25".

Definition answer_price : decoded json := Json (JObj [("result", price)]).

Definition probe_script : list reply :=
  [TheContainer old_coingecko; ProbeOut answer_price].

(** An answer that is a JSON array. *)
Definition answer_array : decoded json := Json (JArr [JNum 1800]).

Definition array_script : list reply :=
  [TheContainer old_coingecko; ProbeOut answer_array].

(** Entries of the adapters directory. *)
Definition coingecko_script : script :=
  Script (Some "192.168.1.113") (Some "1113") (Some "COINGECKO_API_KEY") None.

Definition coingecko_file : dir_entry :=
  DirEntry "coingecko" false true (Some coingecko_script).

Definition locked_file : dir_entry := DirEntry "locked" false true None.

Definition readme_file : dir_entry :=
  DirEntry "README" false false (Some (Script None None None None)).

Definition lib_dir : dir_entry := DirEntry "lib" true true None.


End Cases.

Import Manager Config Logger Shape.

Arguments String.append : simpl never.

Ltac exec_in H :=
  repeat
    (simpl in H;
     match type of H with
     | context [match ?x with _ => _ end] =>
         lazymatch x with
         | context [match _ with _ => _ end] => fail
         | _ => destruct x eqn:?
         end
     end).

(** ** Effects of a run, piece by piece *)

Lemma calls_app t1 t2 : calls (t1 ++ t2) = calls t1 ++ calls t2.
Proof.
  induction t1 as [|[c r|lvl msg|e] t1 IH]; simpl; rewrite ?IH; reflexivity.
Qed.

Lemma logged_app t1 t2 : logged (t1 ++ t2) = logged t1 ++ logged t2.
Proof.
  induction t1 as [|[c r|lvl msg|e] t1 IH]; simpl; rewrite ?IH; reflexivity.
Qed.

Lemma journal_app t1 t2 : journal (t1 ++ t2) = journal t1 ++ journal t2.
Proof.
  induction t1 as [|[c r|lvl msg|e] t1 IH]; simpl; rewrite ?IH; reflexivity.
Qed.

Lemma In_calls c r t : In (Call c r) t <-> In (c, r) (calls t).
Proof.
  induction t as [|[c' r'|lvl msg|e] t IH]; simpl; [tauto| | |].
  - rewrite <- IH. split; intros [H|H]; auto; left; congruence.
  - rewrite <- IH. split; [intros [H|H]; [discriminate|assumption]|auto].
  - rewrite <- IH. split; [intros [H|H]; [discriminate|assumption]|auto].
Qed.

Lemma all_calls_nil p : all_calls p [].
Proof. constructor. Qed.

Lemma all_calls_app p t1 t2 :
  all_calls p (t1 ++ t2) <-> all_calls p t1 /\ all_calls p t2.
Proof. unfold all_calls. rewrite calls_app. apply Forall_app. Qed.

Lemma all_calls_cons_call p c r t :
  all_calls p (Call c r :: t) <-> p c = true /\ all_calls p t.
Proof. unfold all_calls. simpl. apply Forall_cons_iff. Qed.

Lemma all_calls_cons_log p lvl msg t :
  all_calls p (Log lvl msg :: t) <-> all_calls p t.
Proof. reflexivity. Qed.

Lemma all_calls_cons_journal p e t :
  all_calls p (Journal e :: t) <-> all_calls p t.
Proof. reflexivity. Qed.

Lemma all_calls_In p t c r : all_calls p t -> In (Call c r) t -> p c = true.
Proof.
  unfold all_calls. rewrite Forall_forall, In_calls. intros Hall Hin.
  apply (Hall (c, r)). apply list_elem_of_In. exact Hin.
Qed.

Lemma all_calls_weaken (p q : call -> bool) t :
  (forall c, p c = true -> q c = true) -> all_calls p t -> all_calls q t.
Proof.
  unfold all_calls. rewrite !Forall_forall. intros Hpq Hall cr Hin.
  apply Hpq, Hall, Hin.
Qed.

Ltac unfold_monad H :=
  unfold try_except, attempt, bind, perform, perform_total, logger, op_logger,
    ret, raise, lift in H.

Ltac leaf H :=
  inversion H; subst; clear H;
  repeat match goal with u : unit |- _ => destruct u end.

Ltac all_calls_tac :=
  repeat first
    [ apply all_calls_nil
    | rewrite all_calls_app
    | rewrite all_calls_cons_call
    | rewrite all_calls_cons_log
    | rewrite all_calls_cons_journal
    | split
    | reflexivity
    | assumption ].

Lemma falls_back_cons warning n c a e x t :
  falls_back warning n c a e t -> falls_back warning n c a e (x :: t).
Proof. intros (pre & r & post & ->). exists (x :: pre), r, post. reflexivity. Qed.

Lemma falls_back_app_l warning n c a e t0 t :
  falls_back warning n c a e t -> falls_back warning n c a e (t0 ++ t).
Proof.
  intros (pre & r & post & ->). exists (t0 ++ pre), r, post.
  rewrite <- app_assoc. reflexivity.
Qed.

Lemma falls_back_app_r warning n c a e t t1 :
  falls_back warning n c a e t -> falls_back warning n c a e (t ++ t1).
Proof.
  intros (pre & r & post & ->). exists pre, r, (post ++ t1).
  rewrite <- !app_assoc. reflexivity.
Qed.

Ltac falls_back_tac :=
  solve
    [ assumption
    | apply falls_back_cons; falls_back_tac
    | apply falls_back_app_r; falls_back_tac
    | apply falls_back_app_l; falls_back_tac ].

Ltac split_in :=
  repeat match goal with
  | H : False |- _ => destruct H
  | H : _ \/ _ |- _ => destruct H as [H|H]
  | H : In _ [] |- _ => destruct H
  | H : In _ (_ :: _) |- _ => simpl in H
  | H : In _ (_ ++ _) |- _ => apply in_app_or in H
  | H : Log _ _ = Call _ _ |- _ => discriminate H
  | H : Journal _ = Call _ _ |- _ => discriminate H
  | H : Call _ _ = Call _ _ |- _ => inversion H; subst; clear H
  | H : In (Call ?c _) ?t, Hall : all_calls ?p ?t |- _ =>
      apply (all_calls_In _ _ _ _ Hall) in H; simpl in H; discriminate H
  end.

Ltac journal_tac :=
  repeat (simpl; rewrite ?journal_app);
  repeat match goal with
  | Hj : journal ?t = [] |- context [journal ?t] => rewrite Hj
  end;
  simpl; try reflexivity.

Ltac journaled_tac :=
  unfold journaled;
  first
    [ solve [left; split; [journal_tac | discriminate]]
    | solve [right; eexists _, _; split; [reflexivity | journal_tac]] ].

(** ** The order of tags *)

Lemma descending_total : Total descending.
Proof. intros a b. unfold descending. destruct (total String.le a b); auto. Qed.

Lemma descending_transitive : Transitive descending.
Proof. intros a b c Hab Hbc. unfold descending in *. etrans; eassumption. Qed.

Lemma descending_antisymm : AntiSymm (=) descending.
Proof.
  intros a b Hab Hba. unfold descending in *.
  apply (anti_symm String.le); assumption.
Qed.

Lemma sorted_reverse_sorted tags : Sorted descending (sorted_reverse tags).
Proof.
  unfold sorted_reverse.
  apply (@Sorted_merge_sort _ (flip String.le) _ descending_total).
Qed.

Lemma sorted_reverse_perm tags : sorted_reverse tags ≡ₚ tags.
Proof. unfold sorted_reverse. apply merge_sort_Permutation. Qed.

(** There is one descending arrangement of a list of tags. *)
Lemma sorted_reverse_unique tags l :
  Sorted descending l -> l ≡ₚ tags -> l = sorted_reverse tags.
Proof.
  intros Hsorted Hperm.
  apply (@Sorted_unique _ descending descending_transitive descending_antisymm).
  - exact Hsorted.
  - apply sorted_reverse_sorted.
  - rewrite Hperm. symmetry. apply sorted_reverse_perm.
Qed.

Lemma StronglySorted_take {A} (R : relation A) n l :
  StronglySorted R l -> StronglySorted R (take n l).
Proof.
  intros H. rewrite <- (take_drop n l) in H.
  apply StronglySorted_app_1_l in H. exact H.
Qed.

Lemma descending_take n l : Sorted descending l -> Sorted descending (take n l).
Proof.
  intros H. apply StronglySorted_Sorted, StronglySorted_take.
  apply (@Sorted_StronglySorted _ descending descending_transitive). exact H.
Qed.

Lemma strictly_descending_of_NoDup l :
  StronglySorted descending l -> NoDup l ->
  StronglySorted strictly_descending l.
Proof.
  induction 1 as [|a l Hl IH Ha]; intros Hnd; constructor.
  - apply IH. apply NoDup_cons in Hnd. apply Hnd.
  - apply NoDup_cons in Hnd. destruct Hnd as [Hnotin _].
    rewrite Forall_forall in *. intros b Hb. split; [apply Ha, Hb|].
    intros ->. apply Hnotin, Hb.
Qed.

Section Runs.
Context {W : Type} (os : platform W) (config : ConfigManager).

Local Arguments get_adapter_config : simpl never.
Local Arguments no_config : simpl never.
Local Arguments Py.int : simpl never.
Local Arguments env_vars : simpl never.
Local Arguments adapter_spec : simpl never.
Local Arguments redis_spec : simpl never.
Local Arguments ip_address : simpl never.
Local Arguments port : simpl never.
Local Arguments sorted_reverse : simpl never.
Local Arguments list_tags_argv : simpl never.
Local Arguments curl_cmd : simpl never.
Local Arguments container_ip : simpl never.
Local Arguments log_initialize : simpl never.
Local Arguments log_deploy : simpl never.
Local Arguments log_upgrade : simpl never.
Local Arguments log_test : simpl never.
Local Arguments str : simpl never.
Local Arguments join : simpl never.

Lemma ensure_docker_running_spec w o w' t :
  ensure_docker_running os w = (o, w', t) ->
  journal t = [] /\ all_calls host t.
Proof.
  intros H.
  unfold ensure_docker_running, is_docker_installed, has_sudo_privileges,
    is_docker_running, start_docker, subprocess_check, try_except, attempt,
    bind, perform, perform_total, logger, ret, raise in H.
  exec_in H.
  all: inversion H; subst; clear H.
  all: split; [reflexivity | all_calls_tac].
Qed.

Lemma remove_all_spec cs w o w' t :
  remove_all os cs w = (o, w', t) ->
  journal t = [] /\ logged t = [] /\ all_calls removal t.
Proof.
  revert w o w' t.
  induction cs as [|c cs IH]; intros w o w' t H; simpl in H; unfold_monad H.
  - inversion H; subst. repeat split. apply all_calls_nil.
  - destruct (container_remove os c true w) as [[[]|e] w1]; simpl in H.
    + destruct (remove_all os cs w1) as [[o2 w2] t2] eqn:E.
      inversion H; subst. destruct (IH _ _ _ _ E) as (Hj & Hl & Hc).
      simpl. repeat split; [assumption .. | all_calls_tac].
    + inversion H; subst. repeat split. all_calls_tac.
Qed.

Lemma stop_and_remove_spec container_name cs w o w' t :
  stop_and_remove os container_name cs w = (o, w', t) ->
  journal t = [] /\ all_calls removal t.
Proof.
  revert w o w' t.
  induction cs as [|c cs IH]; intros w o w' t H; simpl in H; unfold_monad H.
  - inversion H; subst. split; [reflexivity | apply all_calls_nil].
  - destruct (container_stop os c w) as [[[]|e] w1]; simpl in H.
    + destruct (container_remove os c false w1) as [[[]|e] w2]; simpl in H.
      * destruct (stop_and_remove os container_name cs w2) as [[o3 w3] t3] eqn:E.
        inversion H; subst. destruct (IH _ _ _ _ E) as (Hj & Hc).
        simpl. split; [assumption | all_calls_tac].
      * inversion H; subst. split; [reflexivity | all_calls_tac].
    + inversion H; subst. split; [reflexivity | all_calls_tac].
Qed.

Local Arguments remove_all : simpl never.
Local Arguments stop_and_remove : simpl never.

(** [connect_static] never raises and never touches the journal; when a
    connect at a static address raised, the very next effects are the
    warning and the connect without an address. *)
Lemma connect_static_spec container_name ip warning error w o w' t :
  connect_static os container_name ip warning error w = (o, w', t) ->
  o = Ret tt /\ journal t = [] /\ all_calls attachment t /\
  forall n c a e,
    In (Call (NetworkConnect n c (Some a)) (Raised e)) t ->
    falls_back warning n c a e t.
Proof.
  intros H.
  unfold connect_static, connect_fallback, docker_connect in H.
  unfold_monad H. exec_in H.
  all: leaf H.
  all: split; [reflexivity|]; split; [reflexivity|]; split; [all_calls_tac|].
  all: intros ? ? ? ? Hin; simpl in Hin.
  all: repeat match goal with Hor : _ \/ _ |- _ => destruct Hor end.
  all: try contradiction; try discriminate.
  all: match goal with Heq : Call _ _ = Call _ _ |- _ => inversion Heq; subst end.
  all: eexists [_; _], _, _; reflexivity.
Qed.

Lemma get_available_tags_spec adapter_name w o w' t :
  get_available_tags os adapter_name w = (o, w', t) ->
  journal t = [] /\ all_calls subprocess t.
Proof.
  intros H. unfold get_available_tags in H. unfold_monad H. exec_in H.
  all: inversion H; subst; clear H.
  all: split; [reflexivity | all_calls_tac].
Qed.

(** ** Upgrade of an adapter that has no container *)

(** C8: when the listing of containers named [{adapter}-redis], in any
    state, comes back empty, [upgrade_adapter] returns [False] after one
    error record saying the container does not exist; it makes no other
    call and appends nothing to the operation journal, so no SUCCESS
    entry is produced. *)
Theorem upgrade_of_missing_container adapter_name tag w w1 :
  containers_list os (adapter_name +:+ "-redis") w = (Ret [], w1) ->
  exists t,
    upgrade_adapter os config adapter_name tag w = (Ret false, w1, t) /\
    calls t = [(ContainersList (adapter_name +:+ "-redis"), Containers [])] /\
    logged t =
      [(ERROR,
        "Container " +:+ (adapter_name +:+ "-redis") +:+ " does not exist")] /\
    journal t = [].
Proof.
  intros Hlist.
  unfold upgrade_adapter, docker_containers_list, bind, perform.
  rewrite Hlist. simpl. eexists. split; [reflexivity|].
  repeat split.
Qed.

(** ** The probe *)


(** ** Initialize *)

Ltac use_specs :=
  repeat match goal with
  | E : ensure_docker_running _ _ = _ |- _ =>
      apply ensure_docker_running_spec in E; destruct E as (? & ?)
  | E : connect_static _ _ _ _ _ _ = _ |- _ =>
      apply connect_static_spec in E; destruct E as (? & ? & ? & ?);
      try discriminate
  | E : remove_all _ _ _ = _ |- _ =>
      apply remove_all_spec in E; destruct E as (? & ? & ?)
  | E : stop_and_remove _ _ _ _ = _ |- _ =>
      apply stop_and_remove_spec in E; destruct E as (? & ?)
  | E : get_available_tags _ _ _ = _ |- _ =>
      apply get_available_tags_spec in E; destruct E as (? & ?)
  end.



(** ** Deploy *)

(** What a run of [deploy_tag] leaves: it never raises; its journal
    appends are as [journaled] says; a failed connect at the static
    address is followed by the fallback and the run still returns
    [True]; and a container is only ever run with the environment
    [env_vars] builds. *)
Lemma deploy_tag_spec adapter_name tag w o w' t :
  deploy_tag os config adapter_name tag w = (o, w', t) ->
  (exists b, o = Ret b) /\
  journaled "DEPLOY" (Some adapter_name) o (journal t) /\
  (forall n c a e,
     In (Call (NetworkConnect n c (Some a)) (Raised e)) t ->
     o = Ret true /\ falls_back "Failed to set static IP: " n c a e t) /\
  (forall spec r,
     In (Call (ContainersRun spec) r) t ->
     exists d,
       get_adapter_config config adapter_name = Some d /\
       environment spec = env_vars config adapter_name d).
Proof.
  intros H.
  unfold deploy_tag, docker_networks_list, docker_containers_list, docker_run
    in H.
  unfold_monad H. exec_in H.
  all: leaf H; use_specs.
  all: split; [eexists; reflexivity|]; split; [journaled_tac|]; split.
  all: intros; split_in.
  all: try match goal with
       | Hcs : forall n c a e, In _ ?t -> _, Hin : In _ ?t |- _ =>
           apply Hcs in Hin; split; [reflexivity | falls_back_tac]
       end.
  all: eexists; split; [reflexivity | reflexivity].
Qed.

Local Arguments deploy_tag : simpl never.

Ltac carry_journal :=
  first
    [ journaled_tac
    | match goal with
      | Hj : journaled _ _ ?o (journal ?t2) |- journaled _ _ ?o (journal ?T) =>
          replace (journal T) with (journal t2);
          [exact Hj | symmetry; journal_tac]
      end ].

Ltac carry_fallback :=
  match goal with
  | Hf : forall n c a e, In _ ?t -> _ /\ _, Hin : In _ ?t |- _ =>
      apply Hf in Hin; destruct Hin; split; [assumption | falls_back_tac]
  | Hf : forall n c a e, In _ ?t -> falls_back _ _ _ _ _ _, Hin : In _ ?t |- _ =>
      apply Hf in Hin; split; [reflexivity | falls_back_tac]
  end.

Lemma deploy_adapter_spec adapter_name tag w o w' t :
  deploy_adapter os config adapter_name tag w = (o, w', t) ->
  journaled "DEPLOY" (Some adapter_name) o (journal t) /\
  (forall n c a e,
     In (Call (NetworkConnect n c (Some a)) (Raised e)) t ->
     o = Ret true /\ falls_back "Failed to set static IP: " n c a e t) /\
  (forall spec r,
     In (Call (ContainersRun spec) r) t ->
     exists d,
       get_adapter_config config adapter_name = Some d /\
       environment spec = env_vars config adapter_name d).
Proof.
  intros H. unfold deploy_adapter in H. unfold_monad H. exec_in H.
  all: leaf H; use_specs.
  all: repeat match goal with
       | E : deploy_tag _ _ _ _ _ = _ |- _ =>
           apply deploy_tag_spec in E; destruct E as (_ & ? & ? & ?)
       end.
  all: split; [carry_journal|]; split.
  all: intros; split_in.
  all: try carry_fallback.
  all: match goal with
       | He : forall spec r, In _ ?t -> _, Hin : In _ ?t |- _ =>
           apply He in Hin; exact Hin
       end.
Qed.

Local Arguments deploy_adapter : simpl never.

(** What [initialize_environment] leaves in the journal, and how it
    treats a failed connect at the static address. *)
Lemma initialize_environment_spec w o w' t :
  initialize_environment os w = (o, w', t) ->
  journaled "INITIALIZE" None o (journal t) /\
  (forall n c a e,
     In (Call (NetworkConnect n c (Some a)) (Raised e)) t ->
     o = Ret true /\
     falls_back "Failed to set static IP for Redis: " n c a e t).
Proof.
  intros H.
  unfold initialize_environment, docker_networks_list, docker_containers_list,
    docker_run in H.
  unfold_monad H. exec_in H.
  all: leaf H; use_specs.
  all: split; [carry_journal|].
  all: intros; split_in.
  all: carry_fallback.
Qed.



(** ** The operation journal *)

Lemma journaled_success kind subject j :
  journaled kind subject (Ret true) j ->
  exists d, j = [Entry kind subject true d].
Proof.
  intros [[_ Hne]|(b & d & Hb & ->)]; [congruence|].
  injection Hb as <-. exists d. reflexivity.
Qed.



(** ** The static address fallback *)

(** C7: in every run of [initialize_environment] or [deploy_adapter] in
    which the connect of the new container at its static address
    raises, the next effects are a WARNING record naming the failure and
    a connect of the same container to the same network without an
    address; the run returns [True] and its journal append is the
    SUCCESS entry of the operation. *)
Theorem static_address_failure_is_downgraded :
  (forall w o w' t n c a e,
     initialize_environment os w = (o, w', t) ->
     In (Call (NetworkConnect n c (Some a)) (Raised e)) t ->
     o = Ret true /\
     falls_back "Failed to set static IP for Redis: " n c a e t /\
     exists d, journal t = [Entry "INITIALIZE" None true d]) /\
  (forall adapter_name tag w o w' t n c a e,
     deploy_adapter os config adapter_name tag w = (o, w', t) ->
     In (Call (NetworkConnect n c (Some a)) (Raised e)) t ->
     o = Ret true /\
     falls_back "Failed to set static IP: " n c a e t /\
     exists d, journal t = [Entry "DEPLOY" (Some adapter_name) true d]).
Proof.
  split.
  - intros w o w' t n c a e H Hin.
    apply initialize_environment_spec in H. destruct H as (Hj & Hf).
    destruct (Hf _ _ _ _ Hin) as (-> & Hfb).
    split; [reflexivity|]; split; [exact Hfb|].
    apply journaled_success. exact Hj.
  - intros adapter_name tag w o w' t n c a e H Hin.
    apply deploy_adapter_spec in H. destruct H as (Hj & Hf & _).
    destruct (Hf _ _ _ _ Hin) as (-> & Hfb).
    split; [reflexivity|]; split; [exact Hfb|].
    apply journaled_success. exact Hj.
Qed.

(** ** The registry *)

(** C4, as the code has it: [get_available_tags] does not fail when the
    registry query exits non-zero or when its output is not JSON; it
    writes one ERROR record and returns the empty list, which is also
    what a lookup that went through and found no tags returns.  Only
    the process log tells the two apart. *)
Theorem registry_failure_gives_no_tags adapter_name w w1 :
  let argv := list_tags_argv adapter_name in
  (forall e,
     exn_cls e = CalledProcessError ->
     run_registry os argv w = (Raise e, w1) ->
     get_available_tags os adapter_name w =
       (Ret [], w1,
        [Call (SubprocessRun argv) (Raised e);
         Log ERROR
           ("Failed to get tags for " +:+ adapter_name +:+ ": " +:+ exn_msg e)])) /\
  (forall msg,
     run_registry os argv w = (Ret (NotJson msg), w1) ->
     get_available_tags os adapter_name w =
       (Ret [], w1,
        [Call (SubprocessRun argv) (TagsOut (NotJson msg));
         Log ERROR
           ("Failed to parse tags for " +:+ adapter_name +:+ ": " +:+ msg)])) /\
  (forall tags,
     tags = None \/ tags = Some [] ->
     run_registry os argv w = (Ret (Json (Object tags)), w1) ->
     get_available_tags os adapter_name w =
       (Ret [], w1, [Call (SubprocessRun argv) (TagsOut (Json (Object tags)))])).
Proof.
  cbv zeta. unfold get_available_tags.
  unfold try_except, attempt, bind, perform, logger, ret, raise, lift.
  split; [|split].
  - intros e Hcls Hrun. rewrite Hrun. simpl. rewrite Hcls. reflexivity.
  - intros msg Hrun. rewrite Hrun. reflexivity.
  - intros tags [->| ->] Hrun; rewrite Hrun; reflexivity.
Qed.

(** C6, as the code has it: when the registry answers with a [Tags]
    array, [get_available_tags] returns the first ten elements at most
    of the descending arrangement of the raw tags, in that order: the
    result is descending (each tag at least the next one) and a prefix
    of every descending arrangement of the raw tags.  It is strictly
    descending when the raw tags hold no tag twice. *)
Theorem tags_descending_top_ten adapter_name tags w w1 :
  run_registry os (list_tags_argv adapter_name) w =
    (Ret (Json (Object (Some tags))), w1) ->
  exists top,
    (get_available_tags os adapter_name w).1.1 = Ret top /\
    Sorted descending top /\
    (length top <= 10)%nat /\
    top = take 10 (sorted_reverse tags) /\
    sorted_reverse tags ≡ₚ tags /\
    (forall l, Sorted descending l -> l ≡ₚ tags -> top `prefix_of` l) /\
    (NoDup tags -> Sorted strictly_descending top).
Proof.
  intros Hrun. exists (take 10 (sorted_reverse tags)).
  split.
  { unfold get_available_tags.
    unfold try_except, attempt, bind, perform, logger, ret, raise, lift.
    rewrite Hrun. reflexivity. }
  split; [apply descending_take, sorted_reverse_sorted|].
  split; [rewrite length_take; lia|].
  split; [reflexivity|].
  split; [apply sorted_reverse_perm|].
  split.
  - intros l Hsorted Hperm.
    rewrite (sorted_reverse_unique tags l Hsorted Hperm). apply prefix_take.
  - intros Hnd. apply StronglySorted_Sorted, StronglySorted_take.
    apply strictly_descending_of_NoDup.
    + apply (@Sorted_StronglySorted _ descending descending_transitive).
      apply sorted_reverse_sorted.
    + rewrite sorted_reverse_perm. exact Hnd.
Qed.

(** ** The container environment *)

Lemma base_env_has_no_credentials adapter_name d :
  base_env_vars adapter_name d !! "API_KEY" = None /\
  base_env_vars adapter_name d !! "RATE_LIMIT_API_TIER" = None.
Proof. split; reflexivity. Qed.

(** The two credential keys of the environment [env_vars] builds. *)
Lemma env_vars_credentials adapter_name d :
  env_vars config adapter_name d !! "API_KEY" =
    (if truthy (get_api_key config adapter_name)
     then Some (get_api_key config adapter_name) else None) /\
  env_vars config adapter_name d !! "RATE_LIMIT_API_TIER" =
    (if truthy (get_subscription_tier config adapter_name)
     then Some (get_subscription_tier config adapter_name) else None).
Proof.
  destruct (base_env_has_no_credentials adapter_name d) as [Hk Ht].
  unfold env_vars.
  destruct (truthy (get_api_key config adapter_name));
    destruct (truthy (get_subscription_tier config adapter_name)).
  - split; [rewrite lookup_insert_ne by discriminate|];
      rewrite lookup_insert_eq; reflexivity.
  - split; [rewrite lookup_insert_eq; reflexivity|].
    rewrite lookup_insert_ne by discriminate. exact Ht.
  - split; [rewrite lookup_insert_ne by discriminate; exact Hk|].
    rewrite lookup_insert_eq. reflexivity.
  - split; assumption.
Qed.

Lemma truthy_Some v : truthy (Some v) = negb (bool_decide (v = "")).
Proof. reflexivity. Qed.

(** C5, as the code has it: the environment of every container that a
    run of [deploy_adapter] starts holds API_KEY exactly when the
    adapter's key variable resolves to a stored value that is not the
    empty string, and then with that value; it holds no API_KEY when
    nothing is stored or when the stored value is empty.  The same goes
    for RATE_LIMIT_API_TIER and the tier variable.  Neither key is ever
    present with [None] or with the empty string. *)
Theorem deployed_environment_credentials adapter_name tag w o w' t spec r :
  deploy_adapter os config adapter_name tag w = (o, w', t) ->
  In (Call (ContainersRun spec) r) t ->
  let env := environment spec in
  let api_key := get_api_key config adapter_name in
  let sub_tier := get_subscription_tier config adapter_name in
  (api_key = None -> env !! "API_KEY" = None) /\
  (forall v, api_key = Some v -> v <> "" -> env !! "API_KEY" = Some (Some v)) /\
  (api_key = Some "" -> env !! "API_KEY" = None) /\
  (sub_tier = None -> env !! "RATE_LIMIT_API_TIER" = None) /\
  (forall v,
     sub_tier = Some v -> v <> "" ->
     env !! "RATE_LIMIT_API_TIER" = Some (Some v)) /\
  (sub_tier = Some "" -> env !! "RATE_LIMIT_API_TIER" = None) /\
  (forall k,
     k = "API_KEY" \/ k = "RATE_LIMIT_API_TIER" ->
     env !! k <> Some None /\ env !! k <> Some (Some "")).
Proof.
  intros H Hin.
  apply deploy_adapter_spec in H. destruct H as (_ & _ & Henv).
  destruct (Henv _ _ Hin) as (d & _ & ->).
  destruct (env_vars_credentials adapter_name d) as [Hk Ht].
  cbv zeta.
  assert (Hclean : forall k,
             k = "API_KEY" \/ k = "RATE_LIMIT_API_TIER" ->
             env_vars config adapter_name d !! k <> Some None /\
             env_vars config adapter_name d !! k <> Some (Some "")).
  { intros k [->| ->]; [rewrite Hk | rewrite Ht].
    - destruct (get_api_key config adapter_name) as [v|];
        rewrite ?truthy_Some; simpl; [|split; congruence].
      destruct (bool_decide_reflect (v = "")); simpl; split; congruence.
    - destruct (get_subscription_tier config adapter_name) as [v|];
        rewrite ?truthy_Some; simpl; [|split; congruence].
      destruct (bool_decide_reflect (v = "")); simpl; split; congruence. }
  rewrite Hk, Ht. clear Hk Ht.
  repeat split; try apply Hclean; auto.
  - intros Hnone. rewrite Hnone. reflexivity.
  - intros v Hv Hne. rewrite Hv, truthy_Some.
    destruct (bool_decide_reflect (v = "")); [contradiction | reflexivity].
  - intros Hv. rewrite Hv. reflexivity.
  - intros Hnone. rewrite Hnone. reflexivity.
  - intros v Hv Hne. rewrite Hv, truthy_Some.
    destruct (bool_decide_reflect (v = "")); [contradiction | reflexivity].
  - intros Hv. rewrite Hv. reflexivity.
Qed.

End Runs.

(** ** Two places where the code stops short *)

Section Slips.
Context {W : Type} (os : platform W) (config : ConfigManager).

Local Arguments get_adapter_config : simpl never.
Local Arguments no_config : simpl never.
Local Arguments env_vars : simpl never.
Local Arguments adapter_spec : simpl never.
Local Arguments ip_address : simpl never.
Local Arguments remove_all : simpl never.
Local Arguments connect_static : simpl never.
Local Arguments log_deploy : simpl never.
Local Arguments log_test : simpl never.
Local Arguments str : simpl never.
Local Arguments join : simpl never.
Local Arguments curl_cmd : simpl never.
Local Arguments container_ip : simpl never.

(** An adapter whose dict holds [None] under [port] cannot be deployed:
    whatever Docker answers, no container is run, and the deploy
    returns [False]. *)
Lemma deploy_without_port adapter_name tag d w o w' t :
  get_adapter_config config adapter_name = Some d ->
  port d = None ->
  deploy_tag os config adapter_name tag w = (o, w', t) ->
  o = Ret false /\ forall spec r, ~ In (Call (ContainersRun spec) r) t.
Proof.
  intros Hd Hport H.
  unfold deploy_tag, docker_networks_list, docker_containers_list, docker_run
    in H.
  rewrite Hd, Hport in H. unfold_monad H. exec_in H.
  all: leaf H.
  all: repeat match goal with
       | E : remove_all _ _ _ = _ |- _ =>
           apply remove_all_spec in E; destruct E as (_ & _ & ?)
       end.
  all: split; [reflexivity|]; intros spec r Hin; split_in.
Qed.

(** A probe answered by a JSON object without a [result] member is
    journaled as TEST SUCCESS, and [None] is returned. *)
Lemma missing_result_is_journaled_success
    container_name from_param to_param w got w1 fields w2 :
  containers_get os container_name w = (got, w1) ->
  run_probe os
    (curl_cmd (container_ip container_name got) from_param to_param) w1 =
    (Ret (Json (JObj fields)), w2) ->
  assoc "result" fields = None ->
  (test_adapter os container_name from_param to_param w).1.1 = Ret JNull /\
  journal (test_adapter os container_name from_param to_param w).2 =
    [log_test (repr os) container_name from_param to_param true JNull].
Proof.
  intros Hgot Hprobe Hres.
  unfold test_adapter, try_except, attempt, bind, perform, logger, op_logger,
    ret, raise, lift.
  rewrite Hgot. cbv zeta. rewrite Hprobe. simpl. rewrite Hres.
  split; reflexivity.
Qed.

(** A registry answer that is JSON but no object is not caught by
    [get_available_tags]: the [AttributeError] leaves the function. *)
Lemma non_object_answer_raises adapter_name type_name w w1 :
  run_registry os (list_tags_argv adapter_name) w =
    (Ret (Json (NotObject type_name)), w1) ->
  exists e,
    (get_available_tags os adapter_name w).1.1 = Raise e /\
    exn_cls e = AttributeError.
Proof.
  intros Hrun. eexists.
  unfold get_available_tags, try_except, attempt, bind, perform, logger, ret,
    raise, lift.
  rewrite Hrun. simpl. split; reflexivity.
Qed.

End Slips.

(** ** The claims on concrete situations *)

Import Fixtures.

Ltac at_index k := apply (nth_error_In _ k); vm_compute; reflexivity.

Lemma upgrade_of_missing_container_witness :
  containers_list Script.os ("coingecko" +:+ "-redis") [Containers []] =
    (Ret [], []) /\
  exists t,
    upgrade_adapter Script.os fleet "coingecko" (Some "3.2.1") [Containers []] =
      (Ret false, [], t) /\
    calls t = [(ContainersList ("coingecko" +:+ "-redis"), Containers [])] /\
    logged t =
      [(ERROR, "Container " +:+ ("coingecko" +:+ "-redis") +:+ " does not exist")] /\
    journal t = [].
Proof.
  split; [reflexivity|].
  apply (upgrade_of_missing_container Script.os fleet "coingecko"
           (Some "3.2.1") [Containers []] []).
  reflexivity.
Defined.



Lemma static_address_failure_is_downgraded_witness :
  ((initialize_environment Script.os initialize_script).1.1 = Ret true /\
   falls_back "Failed to set static IP for Redis: " eas_net redis_cache
     "192.168.1.1" address_in_use
     (initialize_environment Script.os initialize_script).2 /\
   exists d,
     journal (initialize_environment Script.os initialize_script).2 =
       [Entry "INITIALIZE" None true d]) /\
  ((deploy_adapter Script.os fleet "coingecko" (Some "3.2.1") deploy_script).1.1
     = Ret true /\
   falls_back "Failed to set static IP: " eas_net new_coingecko
     "192.168.1.113" address_in_use
     (deploy_adapter Script.os fleet "coingecko" (Some "3.2.1") deploy_script).2 /\
   exists d,
     journal
       (deploy_adapter Script.os fleet "coingecko" (Some "3.2.1") deploy_script).2
       = [Entry "DEPLOY" (Some "coingecko") true d]).
Proof.
  split.
  - apply (proj1 (static_address_failure_is_downgraded Script.os fleet)
             initialize_script _ [] _ eas_net redis_cache "192.168.1.1"
             address_in_use).
    + vm_compute. reflexivity.
    + at_index 13%nat.
  - apply (proj2 (static_address_failure_is_downgraded Script.os fleet)
             "coingecko" (Some "3.2.1") deploy_script _ [] _ eas_net
             new_coingecko "192.168.1.113" address_in_use).
    + vm_compute. reflexivity.
    + at_index 6%nat.
Defined.



Lemma registry_failure_gives_no_tags_witness :
  get_available_tags Script.os "coingecko" [Raised exit_status_1] =
    (Ret [], [],
     [Call (SubprocessRun (list_tags_argv "coingecko")) (Raised exit_status_1);
      Log ERROR
        ("Failed to get tags for " +:+ "coingecko" +:+ ": "
           +:+ exn_msg exit_status_1)]) /\
  get_available_tags Script.os "coingecko" [TagsOut (NotJson "Expecting value")] =
    (Ret [], [],
     [Call (SubprocessRun (list_tags_argv "coingecko"))
        (TagsOut (NotJson "Expecting value"));
      Log ERROR
        ("Failed to parse tags for " +:+ "coingecko" +:+ ": "
           +:+ "Expecting value")]) /\
  get_available_tags Script.os "coingecko" [TagsOut (Json (Object (Some [])))] =
    (Ret [], [],
     [Call (SubprocessRun (list_tags_argv "coingecko"))
        (TagsOut (Json (Object (Some []))))]).
Proof.
  split; [|split].
  - apply (proj1 (registry_failure_gives_no_tags Script.os "coingecko"
                    [Raised exit_status_1] []));
      reflexivity.
  - apply (proj1 (proj2 (registry_failure_gives_no_tags Script.os "coingecko"
                           [TagsOut (NotJson "Expecting value")] [])));
      reflexivity.
  - apply (proj2 (proj2 (registry_failure_gives_no_tags Script.os "coingecko"
                           [TagsOut (Json (Object (Some [])))] [])));
      [right; reflexivity | reflexivity].
Defined.

(** C4 as stated fails: a registry query that exits non-zero and a
    lookup that finds an empty [Tags] array both make
    [get_available_tags] return the empty list; the failure is not
    raised, and the returned value does not tell the two apart. *)
Lemma registry_failure_looks_like_no_tags :
  (get_available_tags Script.os "coingecko" [Raised exit_status_1]).1.1 = Ret [] /\
  (get_available_tags Script.os "coingecko"
     [TagsOut (Json (Object (Some [])))]).1.1 = Ret [].
Proof. split; reflexivity. Qed.

Lemma deployed_environment_credentials_witness :
  environment coingecko_spec !! "API_KEY" = Some (Some "abc123") /\
  environment coingecko_spec !! "RATE_LIMIT_API_TIER" = None.
Proof.
  assert (Hrun : deploy_adapter Script.os fleet "coingecko" (Some "3.2.1")
                   deploy_script =
                 ((deploy_adapter Script.os fleet "coingecko" (Some "3.2.1")
                     deploy_script).1.1, [],
                  (deploy_adapter Script.os fleet "coingecko" (Some "3.2.1")
                     deploy_script).2))
    by (vm_compute; reflexivity).
  assert (Hin : In (Call (ContainersRun coingecko_spec) Done)
                  (deploy_adapter Script.os fleet "coingecko" (Some "3.2.1")
                     deploy_script).2)
    by at_index 3%nat.
  destruct (deployed_environment_credentials Script.os fleet "coingecko"
              (Some "3.2.1") deploy_script _ _ _ coingecko_spec Done Hrun Hin)
    as (_ & Hkey & _ & Htier & _).
  split.
  - apply Hkey; [vm_compute; reflexivity | discriminate].
  - apply Htier. vm_compute. reflexivity.
Defined.

(** C5 as stated fails: the key variable of adapter blank resolves to a
    stored value, the empty string its export line gives it, and the
    environment holds no API_KEY. *)
Lemma empty_credential_is_dropped :
  api_keys fleet !! "BLANK_API_KEY" = Some "" /\
  get_api_key fleet "blank" = Some "" /\
  env_vars fleet "blank" blank_dict !! "API_KEY" = None.
Proof. repeat split; vm_compute; reflexivity. Qed.

Lemma tags_descending_top_ten_witness :
  exists top,
    (get_available_tags Script.os "coingecko"
       [TagsOut (Json (Object (Some ["3.1.0"; "3.2.1"; "3.2.0"])))]).1.1 = Ret top /\
    Sorted descending top /\
    (length top <= 10)%nat /\
    top = take 10 (sorted_reverse ["3.1.0"; "3.2.1"; "3.2.0"]) /\
    sorted_reverse ["3.1.0"; "3.2.1"; "3.2.0"] ≡ₚ ["3.1.0"; "3.2.1"; "3.2.0"] /\
    (forall l,
       Sorted descending l -> l ≡ₚ ["3.1.0"; "3.2.1"; "3.2.0"] ->
       top `prefix_of` l) /\
    (NoDup ["3.1.0"; "3.2.1"; "3.2.0"] -> Sorted strictly_descending top).
Proof.
  apply (tags_descending_top_ten Script.os "coingecko"
           ["3.1.0"; "3.2.1"; "3.2.0"]
           [TagsOut (Json (Object (Some ["3.1.0"; "3.2.1"; "3.2.0"])))] []).
  reflexivity.
Defined.

(** C6 as stated fails on a [Tags] array that holds a tag twice: the two
    copies come out next to each other, and the result is not strictly
    descending. *)
Lemma duplicate_tags_not_strict :
  (get_available_tags Script.os "coingecko"
     [TagsOut (Json (Object (Some ["1.0.0"; "1.0.0"])))]).1.1 =
    Ret ["1.0.0"; "1.0.0"] /\
  ~ Sorted strictly_descending ["1.0.0"; "1.0.0"].
Proof.
  split; [vm_compute; reflexivity|].
  intros Hs. inversion Hs as [|a l _ Hhd]; subst.
  inversion Hhd as [|b l' [_ Hne]]; subst. apply Hne. reflexivity.
Qed.

(** ** Static discovery and the fallbacks *)

Lemma scan_dicts entries acc m :
  scan entries acc = Some m ->
  (forall n d, acc !! n = Some d -> exists sc, d = adapter_dict sc) ->
  forall n d, m !! n = Some d -> exists sc, d = adapter_dict sc.
Proof.
  revert acc. induction entries as [|f rest IH]; intros acc Hscan Hacc; simpl in Hscan.
  - injection Hscan as <-. exact Hacc.
  - destruct (is_dir f || negb (executable f)).
    + eapply IH; eassumption.
    + destruct (content f) as [sc|]; [|discriminate].
      eapply IH; [eassumption|].
      intros n d Hn. destruct (decide (file_name f = n)) as [Heq|Hne].
      * rewrite Heq, lookup_insert_eq in Hn. injection Hn as <-. eauto.
      * rewrite lookup_insert_ne in Hn by assumption. eauto.
Qed.

(** Every adapter of the discovered set has all four keys, so the
    defaults that [deploy_adapter] passes to [get] are never used: the
    address and the port it reads are what discovery found, [None]
    included. *)
Lemma discovered_address_never_defaults listing adapter_name d :
  _create_adapter_configs listing !! adapter_name = Some d ->
  exists sc,
    d = adapter_dict sc /\
    ip_address d = ip_match sc /\ port d = port_match sc.
Proof.
  intros Hd.
  assert (Hsc : exists sc, d = adapter_dict sc).
  { unfold _create_adapter_configs in Hd.
    destruct listing as [entries|]; [|rewrite lookup_empty in Hd; discriminate].
    destruct (scan entries ∅) as [m|] eqn:Hscan;
      [|rewrite lookup_empty in Hd; discriminate].
    eapply scan_dicts; [exact Hscan| |exact Hd].
    intros n d0 Hn. rewrite lookup_empty in Hn. discriminate. }
  destruct Hsc as [sc ->]. exists sc. repeat split.
Qed.

(** C1, the code at an adapter whose script gives neither address nor
    port: the adapter is in the discovered set, the address and the
    port [deploy_adapter] reads are [None] and not 192.168.1.113 and
    1113, no container is run, and the deploy returns [False] with a
    DEPLOY FAILURE entry: [int(None)] raises. *)
Theorem missing_port_fails_deploy :
  get_adapter_config fleet "bare" = Some bare_dict /\
  ip_address bare_dict = None /\
  port bare_dict = None /\
  deploy_adapter Script.os fleet "bare" (Some "1.0")
    [Networks [eas_net]; Containers []] =
    (Ret false, [],
     [Call (NetworksList ["eas-net"]) (Networks [eas_net]);
      Call (ContainersList "bare-redis") (Containers []);
      Log INFO "Deploying bare adapter with tag 1.0";
      Log ERROR
        "Failed to deploy bare adapter: int() argument must be a string, a bytes-like object or a real number, not 'NoneType'";
      Journal
        (Entry "DEPLOY" (Some "bare") false
           (Some
              "Tag: 1.0, Failed to deploy bare adapter: int() argument must be a string, a bytes-like object or a real number, not 'NoneType'"))]).
Proof. repeat split; vm_compute; reflexivity. Qed.

(** C3, the code at a probe whose response is a JSON object without a
    [result] member: [test_adapter] returns [None], and the one journal
    entry it appends is TEST SUCCESS. *)
Theorem probe_without_result_is_journaled_success :
  get_result missing_result = Ret JNull /\
  test_adapter Script.os "coingecko-redis" "ETH" "USD"
    [TheContainer old_coingecko; ProbeOut (Json missing_result)] =
    (Ret JNull, [],
     [Call (ContainersGet "coingecko-redis") (TheContainer old_coingecko);
      Log INFO
        ("Running command: "
           +:+ join " " (curl_cmd "192.168.1.113" "ETH" "USD"));
      Call (SubprocessRun (curl_cmd "192.168.1.113" "ETH" "USD"))
        (ProbeOut (Json missing_result));
      Log INFO "Test result for coingecko-redis: ETH / USD --> None";
      Journal
        (Entry "TEST" (Some "coingecko-redis") true (Some "FROM: ETH, TO: USD"))]).
Proof. split; vm_compute; reflexivity. Qed.

(** ** The scenarios of the specification, run *)

(** coingecko with its key stored: the environment names the adapter
    three times, carries the key, and has no tier. *)
Example coingecko_environment :
  let env := environment coingecko_spec in
  env !! "CACHE_KEY_GROUP" = Some (Some "coingecko") /\
  env !! "RATE_LIMIT_API_PROVIDER" = Some (Some "coingecko") /\
  env !! "METRICS_NAME" = Some (Some "coingecko") /\
  env !! "EA_PORT" = Some (Some "1113") /\
  env !! "API_KEY" = Some (Some "abc123") /\
  env !! "RATE_LIMIT_API_TIER" = None.
Proof. repeat split; vm_compute; reflexivity. Qed.

(** A deploy without a tag takes the first of the listed tags. *)
Example deploy_takes_first_tag :
  journal
    (deploy_adapter Script.os fleet "coingecko" None
       (TagsOut (Json (Object (Some ["3.2.1"; "3.2.0"; "3.1.0"])))
          :: deploy_script)).2 =
    [log_deploy "coingecko" (Some "3.2.1") true None].
Proof. vm_compute. reflexivity. Qed.

(** The lines the journal file gets. *)
Example journal_lines :
  line (log_deploy "coingecko" (Some "3.2.1") true None) =
    (INFO, "DEPLOY - SUCCESS - Adapter: coingecko - Details: Tag: 3.2.1") /\
  line (log_initialize false (Some "Failed to initialize environment: boom")) =
    (ERROR,
     "INITIALIZE - FAILURE - Details: Failed to initialize environment: boom").
Proof. split; vm_compute; reflexivity. Qed.

(** The clean-up of exported values and the reading of ports. *)
Example cleaned_values :
  clean "  abc123 " = "abc123" /\
  clean "'abc123'" = "abc123" /\
  clean "" = "" /\
  Py.int (Some "1113") = Ret 1113 /\
  Py.int (Some "0080") = Ret 80.
Proof. repeat split; vm_compute; reflexivity. Qed.

(** The probe command, word by word. *)
Example probe_command :
  curl_cmd "192.168.1.113" "ETH" "USD" =
    ["curl"; "-v"; "--connect-timeout"; "5";
     "--header"; "Content-Type: application/json";
     "--request"; "POST"; "--data";
     "{" +:+ quote +:+ "data" +:+ quote +:+ ":{" +:+ quote +:+ "from" +:+ quote
       +:+ ":" +:+ quote +:+ "ETH" +:+ quote +:+ ", " +:+ quote +:+ "to"
       +:+ quote +:+ ":" +:+ quote +:+ "USD" +:+ quote +:+ "}}";
     "http://192.168.1.113:1113"].
Proof. vm_compute. reflexivity. Qed.

(** * Further properties of the code

    What follows covers the branches of the orchestrator, of the
    configuration manager and of the command line that the properties
    above leave out. *)

Import Traits Cases Chains.

Ltac in_tac :=
  lazymatch goal with
  | |- In _ (_ :: _) => first [left; reflexivity | right; in_tac]
  | |- In _ (_ ++ _) => apply in_or_app; first [right; in_tac | left; in_tac]
  | |- _ => assumption
  end.

Ltac use_run_specs :=
  repeat match goal with
  | E : ensure_docker_running _ _ = _ |- _ =>
      apply ensure_docker_running_spec in E; destruct E as (? & ?)
  | E : connect_static _ _ _ _ _ _ = _ |- _ =>
      apply connect_static_spec in E; destruct E as (? & ? & ? & ?);
      try discriminate
  | E : remove_all _ _ _ = _ |- _ =>
      apply remove_all_spec in E; destruct E as (? & ? & ?)
  | E : stop_and_remove _ _ _ _ = _ |- _ =>
      apply stop_and_remove_spec in E; destruct E as (? & ?)
  | E : get_available_tags _ _ _ = _ |- _ =>
      apply get_available_tags_spec in E; destruct E as (? & ?)
  end.

(** Find where in a run a call was made, dropping the parts that hold
    no call of its kind. *)
Ltac where_is Hin :=
  lazymatch type of Hin with
  | In _ [] => destruct Hin
  | In _ (_ :: _) =>
      destruct Hin as [Hin|Hin];
      [ try discriminate Hin; try (inversion Hin; subst; clear Hin)
      | where_is Hin ]
  | In _ (_ ++ _) =>
      apply in_app_or in Hin; destruct Hin as [Hin|Hin]; where_is Hin
  | In (Call _ _) ?l =>
      try match goal with
      | Hall : all_calls _ l |- _ =>
          apply (all_calls_In _ _ _ _ Hall) in Hin; simpl in Hin;
          discriminate Hin
      end
  | _ => idtac
  end.

(** A call found in a part of the run whose calls are all of one kind
    is of that kind. *)
Ltac kind_of_call :=
  repeat match goal with
  | Hin : In (Call ?c _) ?t, Hall : all_calls _ ?t |- _ =>
      apply (all_calls_In _ _ _ _ Hall) in Hin
  end.

(** ** Loops and kinds of calls *)

Lemma no_run_among (p : call -> bool) t :
  (forall c, p c = true -> forall r, is_run (c, r) = false) ->
  all_calls p t -> List.filter is_run (calls t) = [].
Proof.
  intros Hp. unfold all_calls. induction (calls t) as [|[c r] l IH]; [reflexivity|].
  intros Hall. apply Forall_cons_iff in Hall. destruct Hall as [Hc Hl].
  simpl. rewrite (Hp c Hc r). apply IH, Hl.
Qed.

Lemma no_run_in_attachment t :
  all_calls attachment t -> List.filter is_run (calls t) = [].
Proof.
  apply no_run_among. intros c Hc r.
  destruct c; try discriminate Hc; reflexivity.
Qed.

Lemma no_run_in_removal t :
  all_calls removal t -> List.filter is_run (calls t) = [].
Proof.
  apply no_run_among. intros c Hc r.
  destruct c; try discriminate Hc; reflexivity.
Qed.

Lemma no_run_in_subprocess t :
  all_calls subprocess t -> List.filter is_run (calls t) = [].
Proof.
  apply no_run_among. intros c Hc r.
  destruct c; try discriminate Hc; reflexivity.
Qed.

Lemma attachment_unconnected_lookup t :
  all_calls attach_lookup t -> all_calls unconnected t.
Proof.
  apply all_calls_weaken. intros c Hc.
  destruct c; try discriminate Hc; reflexivity.
Qed.

Lemma removal_unconnected t : all_calls removal t -> all_calls unconnected t.
Proof.
  apply all_calls_weaken. intros c Hc.
  destruct c; try discriminate Hc; reflexivity.
Qed.

Lemma subprocess_unconnected t : all_calls subprocess t -> all_calls unconnected t.
Proof.
  apply all_calls_weaken. intros c Hc.
  destruct c; try discriminate Hc; reflexivity.
Qed.

Lemma host_unconnected t : all_calls host t -> all_calls unconnected t.
Proof.
  apply all_calls_weaken. intros c Hc.
  destruct c; try discriminate Hc; reflexivity.
Qed.

Lemma forced_all_done t cs c e :
  calls t = forced cs -> In (Call c (Raised e)) t -> False.
Proof.
  intros Hf Hin. apply In_calls in Hin. rewrite Hf in Hin.
  unfold forced in Hin. apply list_elem_of_In, list_elem_of_fmap in Hin.
  destruct Hin as (x & Hx & _). discriminate Hx.
Qed.

Lemma stopped_all_done t cs c e :
  calls t = stopped cs -> In (Call c (Raised e)) t -> False.
Proof.
  intros Hf Hin. apply In_calls in Hin. rewrite Hf in Hin.
  unfold stopped in Hin. apply list_elem_of_In, list_elem_of_bind in Hin.
  destruct Hin as (x & Hx & _).
  apply list_elem_of_In in Hx. destruct Hx as [Hx|[Hx|[]]]; discriminate Hx.
Qed.

Lemma attachment_not_soft t :
  all_calls attachment t -> all_calls (fun c => negb (soft_removal c)) t.
Proof.
  apply all_calls_weaken. intros c Hc.
  destruct c; try discriminate Hc; reflexivity.
Qed.

Lemma subprocess_not_soft t :
  all_calls subprocess t -> all_calls (fun c => negb (soft_removal c)) t.
Proof.
  apply all_calls_weaken. intros c Hc.
  destruct c; try discriminate Hc; reflexivity.
Qed.

Lemma removal_listing_or_removal t :
  all_calls removal t -> all_calls listing_or_removal t.
Proof.
  apply all_calls_weaken. intros c Hc.
  destruct c; try discriminate Hc; reflexivity.
Qed.

Lemma no_run_in_stopped cs : List.filter is_run (stopped cs) = [].
Proof.
  induction cs as [|c cs IH]; [reflexivity|]. unfold stopped in *. simpl.
  exact IH.
Qed.

Section Loops.
Context {W : Type} (os : platform W) (config : ConfigManager).

Local Arguments get_adapter_config : simpl never.
Local Arguments no_config : simpl never.
Local Arguments Py.int : simpl never.
Local Arguments env_vars : simpl never.
Local Arguments adapter_spec : simpl never.
Local Arguments redis_spec : simpl never.
Local Arguments ip_address : simpl never.
Local Arguments port : simpl never.
Local Arguments sorted_reverse : simpl never.
Local Arguments list_tags_argv : simpl never.
Local Arguments curl_cmd : simpl never.
Local Arguments container_ip : simpl never.
Local Arguments log_initialize : simpl never.
Local Arguments log_deploy : simpl never.
Local Arguments log_upgrade : simpl never.
Local Arguments log_test : simpl never.
Local Arguments str : simpl never.
Local Arguments join : simpl never.
Local Arguments remove_all : simpl never.
Local Arguments stop_and_remove : simpl never.
Local Arguments connect_static : simpl never.

Local Arguments remove_all : simpl nomatch.
Local Arguments stop_and_remove : simpl nomatch.

(** A removal loop that ends normally has force-removed every
    container, in order; when it raises, every earlier removal went
    through. *)
Lemma remove_all_exact cs w o w' t :
  remove_all os cs w = (o, w', t) ->
  match o with
  | Ret _ => calls t = forced cs
  | Raise e => forall c' e', In (Call c' (Raised e')) t -> e' = e
  end.
Proof.
  revert w o w' t. induction cs as [|c cs IH]; intros w o w' t H; simpl in H;
    unfold_monad H.
  - inversion H; subst. reflexivity.
  - destruct (container_remove os c true w) as [[[]|e] w1]; simpl in H.
    + destruct (remove_all os cs w1) as [[o2 w2] t2] eqn:E.
      apply IH in E. destruct o2; inversion H; subst; simpl.
      * f_equal. exact E.
      * intros c' e' [Hc|Hc]; [discriminate|]. eauto.
    + inversion H; subst. intros c' e' [Hc|[]]. congruence.
Qed.

Lemma remove_all_forced cs w o w' t :
  remove_all os cs w = (o, w', t) ->
  all_calls (fun c => negb (soft_removal c)) t.
Proof.
  revert w o w' t. induction cs as [|c cs IH]; intros w o w' t H; simpl in H;
    unfold_monad H.
  - inversion H; subst. apply all_calls_nil.
  - destruct (container_remove os c true w) as [[[]|e] w1]; simpl in H.
    + destruct (remove_all os cs w1) as [[o2 w2] t2] eqn:E.
      apply IH in E. inversion H; subst. all_calls_tac.
    + inversion H; subst. all_calls_tac.
Qed.

(** The stop-and-remove loop: when it ends normally every container was
    stopped and removed, in order; when it raises, the exception is the
    one of its last call. *)
Lemma stop_and_remove_exact container_name cs w o w' t :
  stop_and_remove os container_name cs w = (o, w', t) ->
  match o with
  | Ret _ => calls t = stopped cs
  | Raise e =>
      exists c, last (calls t) = Some (c, Raised e) /\ soft_removal c = true /\
      forall c' e', In (Call c' (Raised e')) t -> e' = e
  end.
Proof.
  revert w o w' t. induction cs as [|c cs IH]; intros w o w' t H; simpl in H;
    unfold_monad H.
  - inversion H; subst. reflexivity.
  - destruct (container_stop os c w) as [[[]|e] w1]; simpl in H.
    + destruct (container_remove os c false w1) as [[[]|e] w2]; simpl in H.
      * destruct (stop_and_remove os container_name cs w2) as [[o3 w3] t3] eqn:E.
        apply IH in E. destruct o3; inversion H; subst; simpl.
        -- unfold stopped in *. simpl. rewrite E. reflexivity.
        -- destruct E as (c0 & Hlast & Hsoft & Hall). exists c0.
           split; [|split; [exact Hsoft|]].
           ++ destruct (calls t3) as [|x l]; [discriminate|]. exact Hlast.
           ++ intros c' e' [Hc|[Hc|[Hc|Hc]]]; try discriminate. eauto.
      * inversion H; subst. exists (ContainerRemove c false).
        split; [reflexivity|]. split; [reflexivity|].
        intros c' e' [Hc|[Hc|[Hc|[]]]]; try discriminate. congruence.
    + inversion H; subst. exists (ContainerStop c).
      split; [reflexivity|]. split; [reflexivity|].
      intros c' e' [Hc|[Hc|[]]]; try discriminate. congruence.
Qed.

End Loops.

(** ** The Docker check *)

Section Docker.
Context {W : Type} (os : platform W) (config : ConfigManager).

Local Arguments get_adapter_config : simpl never.
Local Arguments no_config : simpl never.
Local Arguments Py.int : simpl never.
Local Arguments env_vars : simpl never.
Local Arguments adapter_spec : simpl never.
Local Arguments redis_spec : simpl never.
Local Arguments ip_address : simpl never.
Local Arguments port : simpl never.
Local Arguments sorted_reverse : simpl never.
Local Arguments list_tags_argv : simpl never.
Local Arguments curl_cmd : simpl never.
Local Arguments container_ip : simpl never.
Local Arguments log_initialize : simpl never.
Local Arguments log_deploy : simpl never.
Local Arguments log_upgrade : simpl never.
Local Arguments log_test : simpl never.
Local Arguments str : simpl never.
Local Arguments join : simpl never.
Local Arguments remove_all : simpl never.
Local Arguments stop_and_remove : simpl never.
Local Arguments connect_static : simpl never.

(** X1: in every run of [ensure_docker_running], the installation of Docker
    is started only after [docker --version] has raised and
    [sudo -n true] has gone through. *)
Theorem docker_is_installed_only_when_missing w o w' t r :
  ensure_docker_running os w = (o, w', t) ->
  In (Call InstallDocker r) t ->
  (exists e, In (Call (SubprocessRun ["docker"; "--version"]) (Raised e)) t) /\
  In (Call (SubprocessRun ["sudo"; "-n"; "true"]) Done) t.
Proof.
  intros H Hin.
  unfold ensure_docker_running, is_docker_installed, has_sudo_privileges,
    is_docker_running, start_docker, subprocess_check in H.
  unfold_monad H. exec_in H.
  all: leaf H; split_in.
  all: split; [eexists; in_tac | in_tac].
Qed.

(** X2: when [ensure_docker_running] returns [True], either [docker info]
    went through, or the platform is Linux and
    [sudo systemctl start docker] went through. *)
Theorem docker_answers_when_ensured w w' t :
  ensure_docker_running os w = (Ret true, w', t) ->
  (In (Call (SubprocessRun ["docker"; "info"]) Done) t \/
   (In (Call PlatformSystem (Text "Linux")) t /\
    In (Call (SubprocessRun ["sudo"; "systemctl"; "start"; "docker"]) Done) t)).
Proof.
  intros H.
  unfold ensure_docker_running, is_docker_installed, has_sudo_privileges,
    is_docker_running, start_docker, subprocess_check in H.
  unfold_monad H. exec_in H.
  all: leaf H.
  all: repeat match goal with
       | Hb : bool_decide _ = true |- _ =>
           apply bool_decide_eq_true in Hb; subst
       end.
  all: first [left; in_tac | right; split; in_tac].
Qed.

End Docker.

(** ** Initialize, branch by branch *)

Section Initialize.
Context {W : Type} (os : platform W) (config : ConfigManager).

Local Arguments get_adapter_config : simpl never.
Local Arguments no_config : simpl never.
Local Arguments Py.int : simpl never.
Local Arguments env_vars : simpl never.
Local Arguments adapter_spec : simpl never.
Local Arguments redis_spec : simpl never.
Local Arguments ip_address : simpl never.
Local Arguments port : simpl never.
Local Arguments sorted_reverse : simpl never.
Local Arguments list_tags_argv : simpl never.
Local Arguments curl_cmd : simpl never.
Local Arguments container_ip : simpl never.
Local Arguments log_initialize : simpl never.
Local Arguments log_deploy : simpl never.
Local Arguments log_upgrade : simpl never.
Local Arguments log_test : simpl never.
Local Arguments str : simpl never.
Local Arguments join : simpl never.
Local Arguments remove_all : simpl never.
Local Arguments stop_and_remove : simpl never.
Local Arguments connect_static : simpl never.

(** X3: once [initialize_environment] has made a call that is not one of
    the host commands of the Docker check, it does not raise, and it
    appends exactly one INITIALIZE entry, whose success flag is the
    value it returns. *)
Theorem initialize_journals_once_docker_answers w o w' t c r :
  initialize_environment os w = (o, w', t) ->
  In (Call c r) t ->
  host c = false ->
  exists b d, o = Ret b /\ journal t = [Entry "INITIALIZE" None b d].
Proof.
  intros H Hin Hsdk.
  unfold initialize_environment, docker_networks_list, docker_containers_list,
    docker_run in H.
  unfold_monad H. exec_in H.
  all: leaf H; use_run_specs.
  all: split_in.
  all: try (kind_of_call; simpl in *; congruence).
  all: eexists _, _; split; [reflexivity | journal_tac].
Qed.

(** X4: [initialize_environment] creates a network only when the listing
    of the networks named eas-net came back empty, and the network is
    then the bridge eas-net with subnet 192.168.0.0/16 and gateway
    192.168.0.1. *)
Theorem network_is_created_only_when_absent w o w' t nm driver subnet gateway r :
  initialize_environment os w = (o, w', t) ->
  In (Call (NetworksCreate nm driver subnet gateway) r) t ->
  nm = "eas-net" /\ driver = "bridge" /\
  subnet = "192.168.0.0/16" /\ gateway = "192.168.0.1" /\
  In (Call (NetworksList ["eas-net"]) (Networks [])) t.
Proof.
  intros H Hin.
  unfold initialize_environment, docker_networks_list, docker_containers_list,
    docker_run in H.
  unfold_monad H. exec_in H.
  all: leaf H; use_run_specs.
  all: split_in.
  all: repeat split; in_tac.
Qed.

(** X5: when a call of [initialize_environment] to Docker or to the file
    system raises, the lookups and connects of the attach block apart,
    the run returns [False] and appends one INITIALIZE FAILURE entry
    whose details end in the text of that exception. *)
Theorem initialize_failure_is_journaled w o w' t c e :
  initialize_environment os w = (o, w', t) ->
  In (Call c (Raised e)) t ->
  host c = false ->
  attachment c = false ->
  o = Ret false /\
  journal t =
    [log_initialize false
       (Some ("Failed to initialize environment: " +:+ exn_msg e))].
Proof.
  intros H Hin Hsdk Hatt.
  unfold initialize_environment, docker_networks_list, docker_containers_list,
    docker_run in H.
  unfold_monad H. exec_in H.
  all: leaf H; use_run_specs.
  all: split_in.
  all: try (kind_of_call; simpl in *; congruence).
  all: split; [reflexivity | journal_tac].
Qed.

End Initialize.

(** ** Deploy, branch by branch *)

Section DeployFacts.
Context {W : Type} (os : platform W) (config : ConfigManager).

Local Arguments get_adapter_config : simpl never.
Local Arguments no_config : simpl never.
Local Arguments Py.int : simpl never.
Local Arguments env_vars : simpl never.
Local Arguments adapter_spec : simpl never.
Local Arguments redis_spec : simpl never.
Local Arguments ip_address : simpl never.
Local Arguments port : simpl never.
Local Arguments sorted_reverse : simpl never.
Local Arguments list_tags_argv : simpl never.
Local Arguments curl_cmd : simpl never.
Local Arguments container_ip : simpl never.
Local Arguments log_initialize : simpl never.
Local Arguments log_deploy : simpl never.
Local Arguments log_upgrade : simpl never.
Local Arguments log_test : simpl never.
Local Arguments str : simpl never.
Local Arguments join : simpl never.
Local Arguments remove_all : simpl never.
Local Arguments stop_and_remove : simpl never.
Local Arguments connect_static : simpl never.

(** When a lookup of the attach block raises, no connect is attempted. *)
Lemma connect_static_lookup container_name ip warning error w o w' t :
  connect_static os container_name ip warning error w = (o, w', t) ->
  forall c e,
    In (Call c (Raised e)) t ->
    attach_lookup c = true ->
    all_calls unconnected t.
Proof.
  intros H c e Hin Hc.
  unfold connect_static, connect_fallback, docker_connect in H.
  unfold_monad H. exec_in H.
  all: leaf H; split_in.
  all: simpl in Hc; try discriminate Hc.
  all: all_calls_tac.
Qed.

Ltac use_exact_specs :=
  repeat match goal with
  | E : remove_all _ _ _ = _ |- _ =>
      let Hx := fresh "Hremoved" in
      pose proof E as Hx; apply remove_all_exact in Hx; cbv beta iota in Hx;
      apply remove_all_spec in E; destruct E as (? & ? & ?)
  | E : connect_static _ _ _ _ _ _ = _ |- _ =>
      let Hx := fresh "Hlookup" in
      first [ pose proof (connect_static_lookup _ _ _ _ _ _ _ _ E) as Hx
            | pose proof (connect_static_lookup _ _ _ _ _ _ _ _ _ E) as Hx ];
      apply connect_static_spec in E; destruct E as (? & ? & ? & ?);
      try discriminate
  end.

Ltac calls_tac :=
  repeat (simpl; rewrite ?calls_app);
  repeat match goal with
  | Hc : calls ?l = _ |- context [calls ?l] => rewrite Hc
  end;
  rewrite ?app_nil_r, <- ?app_assoc.

Ltac run_deploy_tag H :=
  unfold deploy_tag, docker_networks_list, docker_containers_list, docker_run
    in H;
  unfold_monad H; exec_in H; leaf H; use_exact_specs.

Lemma deploy_tag_unknown adapter_name tag w o w' t :
  deploy_tag os config adapter_name tag w = (o, w', t) ->
  no_config (get_adapter_config config adapter_name) = true ->
  o = Ret false /\ calls t = [] /\ journal t = [].
Proof.
  intros H Hnone. run_deploy_tag H.
  all: repeat match goal with
       | Hg : get_adapter_config _ _ = _ |- _ => rewrite Hg in Hnone; clear Hg
       end.
  all: try congruence.
  all: repeat split.
Qed.

Lemma deploy_tag_without_network adapter_name tag w o w' t nm r :
  deploy_tag os config adapter_name tag w = (o, w', t) ->
  In (Call (NetworksList nm) r) t ->
  r = Networks [] \/ (exists e, r = Raised e) ->
  o = Ret false /\ journal t = [] /\ all_calls networks_listing t.
Proof.
  intros H Hin Hr. run_deploy_tag H.
  all: split_in.
  all: repeat match goal with
       | Hx : exists _, _ |- _ => destruct Hx
       end; try discriminate.
  all: repeat split; all_calls_tac.
Qed.

Lemma deploy_tag_replaces adapter_name tag w o w' t spec r :
  deploy_tag os config adapter_name tag w = (o, w', t) ->
  In (Call (ContainersRun spec) r) t ->
  exists pre cs post,
    calls t =
      pre ++ (ContainersList (adapter_name +:+ "-redis"), Containers cs)
          :: forced cs ++ (ContainersRun spec, r) :: post.
Proof.
  intros H Hin. run_deploy_tag H.
  all: split_in.
  all: match goal with
       | E : containers_list _ _ _ = (Ret ?cs, _) |- _ =>
           eexists [_], cs, _; calls_tac; reflexivity
       end.
Qed.

Lemma deploy_tag_container_failure adapter_name tag w o w' t c e :
  deploy_tag os config adapter_name tag w = (o, w', t) ->
  In (Call c (Raised e)) t ->
  container_action c = true ->
  o = Ret false /\
  (forall spec, ~ In (Call (ContainersRun spec) Done) t) /\
  journal t =
    [log_deploy adapter_name (Some tag) false
       (Some ("Failed to deploy " +:+ adapter_name +:+ " adapter: "
                +:+ exn_msg e))].
Proof.
  intros H Hin Hc. run_deploy_tag H.
  all: split_in.
  all: simpl in Hc; try discriminate Hc.
  all: try (exfalso; eapply forced_all_done; eassumption).
  all: try (kind_of_call; destruct c; simpl in *; congruence).
  all: try match goal with
       | Hall : forall c' e', In (Call c' (Raised e')) ?l -> e' = _,
         Hin : In (Call _ (Raised _)) ?l |- _ => apply Hall in Hin; subst
       end.
  all: split; [reflexivity|]; split; [|solve [journal_tac]].
  all: intros spec0 Hrun; split_in.
Qed.

Lemma deploy_tag_runs adapter_name tag w o w' t spec r :
  deploy_tag os config adapter_name tag w = (o, w', t) ->
  In (Call (ContainersRun spec) r) t ->
  exists d port_number,
    get_adapter_config config adapter_name = Some d /\
    Py.int (port d) = Ret port_number /\
    spec = adapter_spec config adapter_name tag d port_number.
Proof.
  intros H Hin. run_deploy_tag H.
  all: split_in.
  all: eexists _, _; split; [reflexivity|]; split; [eassumption|reflexivity].
Qed.

End DeployFacts.

Section DeployMore.
Context {W : Type} (os : platform W) (config : ConfigManager).

Local Arguments get_adapter_config : simpl never.
Local Arguments no_config : simpl never.
Local Arguments Py.int : simpl never.
Local Arguments env_vars : simpl never.
Local Arguments adapter_spec : simpl never.
Local Arguments redis_spec : simpl never.
Local Arguments ip_address : simpl never.
Local Arguments port : simpl never.
Local Arguments sorted_reverse : simpl never.
Local Arguments list_tags_argv : simpl never.
Local Arguments curl_cmd : simpl never.
Local Arguments container_ip : simpl never.
Local Arguments log_initialize : simpl never.
Local Arguments log_deploy : simpl never.
Local Arguments log_upgrade : simpl never.
Local Arguments log_test : simpl never.
Local Arguments str : simpl never.
Local Arguments join : simpl never.
Local Arguments remove_all : simpl never.
Local Arguments stop_and_remove : simpl never.
Local Arguments connect_static : simpl never.

Ltac use_exact_specs :=
  repeat match goal with
  | E : remove_all _ _ _ = _ |- _ =>
      let Hx := fresh "Hremoved" in
      pose proof E as Hx; apply remove_all_exact in Hx; cbv beta iota in Hx;
      apply remove_all_spec in E; destruct E as (? & ? & ?)
  | E : connect_static _ _ _ _ _ _ = _ |- _ =>
      let Hx := fresh "Hlookup" in
      first [ pose proof (connect_static_lookup _ _ _ _ _ _ _ _ E) as Hx
            | pose proof (connect_static_lookup _ _ _ _ _ _ _ _ _ E) as Hx ];
      apply connect_static_spec in E; destruct E as (? & ? & ? & ?);
      try discriminate
  end.

Ltac run_deploy_tag H :=
  unfold deploy_tag, docker_networks_list, docker_containers_list, docker_run
    in H;
  unfold_monad H; exec_in H; leaf H; use_exact_specs.

Lemma deploy_tag_success adapter_name tag w w' t :
  deploy_tag os config adapter_name tag w = (Ret true, w', t) ->
  exists d port_number,
    get_adapter_config config adapter_name = Some d /\
    Py.int (port d) = Ret port_number /\
    List.filter is_run (calls t) =
      [(ContainersRun (adapter_spec config adapter_name tag d port_number),
        Done)] /\
    journal t = [log_deploy adapter_name (Some tag) true None].
Proof.
  intros H. run_deploy_tag H.
  all: eexists _, _; split; [reflexivity|]; split; [eassumption|].
  all: split; [|journal_tac].
  all: repeat (simpl; rewrite ?calls_app, ?List.filter_app).
  all: repeat first [ rewrite no_run_in_attachment by assumption
                    | rewrite no_run_in_removal by assumption ].
  all: reflexivity.
Qed.

Lemma deploy_tag_lookup_failure adapter_name tag w o w' t c e :
  deploy_tag os config adapter_name tag w = (o, w', t) ->
  In (Call c (Raised e)) t ->
  attach_lookup c = true ->
  o = Ret true /\ all_calls unconnected t /\
  journal t = [log_deploy adapter_name (Some tag) true None].
Proof.
  intros H Hin Hc. run_deploy_tag H.
  all: split_in.
  all: simpl in Hc; try discriminate Hc.
  all: try (exfalso; eapply forced_all_done; eassumption).
  all: try (kind_of_call; destruct c; simpl in *; congruence).
  all: split; [reflexivity|]; split; [|solve [journal_tac]].
  all: repeat match goal with
       | Hrem : all_calls removal _ |- _ => apply removal_unconnected in Hrem
       end.
  all: all_calls_tac.
  all: eauto.
Qed.

Local Arguments deploy_tag : simpl never.
Local Arguments get_available_tags : simpl never.

Lemma deploy_adapter_cases adapter_name tag w o w' t :
  deploy_adapter os config adapter_name tag w = (o, w', t) ->
  (exists first w0 t0 t1,
     t = t0 ++ t1 /\
     deploy_tag os config adapter_name first w0 = (o, w', t1) /\
     ((tag = Some first /\ truthy tag = true /\ t0 = [] /\ w0 = w) \/
      (truthy tag = false /\ exists rest,
         get_available_tags os adapter_name w = (Ret (first :: rest), w0, t0)))) \/
  (truthy tag = false /\ o <> Ret true /\ journal t = [] /\
   all_calls subprocess t).
Proof.
  intros H. unfold deploy_adapter in H.
  destruct tag as [s|]; [destruct (truthy (Some s)) eqn:Ht|].
  - left. exists s, w, [], t. repeat split; auto.
  - unfold_monad H.
    destruct (get_available_tags os adapter_name w) as [[[[|first rest]|e] w0] t0] eqn:E.
    + right. leaf H. apply get_available_tags_spec in E. destruct E.
      repeat split; [discriminate|journal_tac|all_calls_tac].
    + destruct (deploy_tag os config adapter_name first w0) as [[o1 w1] t1] eqn:E1.
      leaf H. left. exists first, w0, t0, t1.
      split; [reflexivity|]. split; [exact E1|]. right.
      split; [reflexivity|]. exists rest. reflexivity.
    + right. leaf H. apply get_available_tags_spec in E. destruct E.
      repeat split; [discriminate|journal_tac|all_calls_tac].
  - unfold_monad H.
    destruct (get_available_tags os adapter_name w) as [[[[|first rest]|e] w0] t0] eqn:E.
    + right. leaf H. apply get_available_tags_spec in E. destruct E.
      repeat split; [discriminate|journal_tac|all_calls_tac].
    + destruct (deploy_tag os config adapter_name first w0) as [[o1 w1] t1] eqn:E1.
      leaf H. left. exists first, w0, t0, t1.
      split; [reflexivity|]. split; [exact E1|]. right.
      split; [reflexivity|]. exists rest. reflexivity.
    + right. leaf H. apply get_available_tags_spec in E. destruct E.
      repeat split; [discriminate|journal_tac|all_calls_tac].
Qed.

End DeployMore.

Lemma sorted_reverse_head tags first rest :
  first :: rest = take 10 (sorted_reverse tags) ->
  In first tags /\ forall x, In x tags -> String.le x first.
Proof.
  intros H.
  pose proof (sorted_reverse_sorted tags) as Hs.
  pose proof (sorted_reverse_perm tags) as Hp.
  destruct (sorted_reverse tags) as [|a l]; [discriminate|].
  simpl in H. injection H as -> _.
  apply (@Sorted_StronglySorted _ descending descending_transitive) in Hs.
  apply StronglySorted_inv in Hs. destruct Hs as [_ Hall].
  split.
  - apply list_elem_of_In. rewrite <- Hp. left.
  - intros x Hx. apply list_elem_of_In in Hx. rewrite <- Hp in Hx.
    apply elem_of_cons in Hx. destruct Hx as [->|Hx]; [reflexivity|].
    rewrite Forall_forall in Hall. apply Hall, Hx.
Qed.

Lemma networks_listing_before t :
  all_calls networks_listing t -> all_calls before_containers t.
Proof.
  apply all_calls_weaken. intros c Hc.
  destruct c; try discriminate Hc; reflexivity.
Qed.

Lemma subprocess_before t :
  all_calls subprocess t -> all_calls before_containers t.
Proof.
  apply all_calls_weaken. intros c Hc.
  destruct c; try discriminate Hc; reflexivity.
Qed.

Section DeployExtras.
Context {W : Type} (os : platform W) (config : ConfigManager).

Local Arguments get_adapter_config : simpl never.
Local Arguments no_config : simpl never.
Local Arguments Py.int : simpl never.
Local Arguments env_vars : simpl never.
Local Arguments adapter_spec : simpl never.
Local Arguments redis_spec : simpl never.
Local Arguments ip_address : simpl never.
Local Arguments port : simpl never.
Local Arguments sorted_reverse : simpl never.
Local Arguments list_tags_argv : simpl never.
Local Arguments curl_cmd : simpl never.
Local Arguments container_ip : simpl never.
Local Arguments log_initialize : simpl never.
Local Arguments log_deploy : simpl never.
Local Arguments log_upgrade : simpl never.
Local Arguments log_test : simpl never.
Local Arguments str : simpl never.
Local Arguments join : simpl never.
Local Arguments remove_all : simpl never.
Local Arguments stop_and_remove : simpl never.
Local Arguments connect_static : simpl never.

Local Arguments deploy_tag : simpl never.
Local Arguments get_available_tags : simpl never.
Local Arguments deploy_adapter : simpl never.

Lemma get_available_tags_first adapter_name w first rest w' t :
  get_available_tags os adapter_name w = (Ret (first :: rest), w', t) ->
  exists tags,
    t = [Call (SubprocessRun (list_tags_argv adapter_name))
           (TagsOut (Json (Object (Some tags))))] /\
    first :: rest = take 10 (sorted_reverse tags).
Proof.
  intros H. unfold get_available_tags, json_loads, sorted_tags in H.
  unfold_monad H. exec_in H.
  all: leaf H.
  all: try match goal with
       | Hnil : take 10 (sorted_reverse []) = _ :: _ |- _ =>
           vm_compute in Hnil; discriminate Hnil
       end.
  all: eexists; split; [reflexivity|]; congruence.
Qed.

Ltac deploy_cases H :=
  apply deploy_adapter_cases in H;
  destruct H as
    [(first & w0 & t0 & t1 & -> & H &
      [(-> & Htag & -> & ->)|(Htag & rest & Htags)])
    |(Htag & Ho & Hj & Hall)];
  [ | pose proof Htags as Hreg; apply get_available_tags_spec in Hreg;
      destruct Hreg as [Hj0 Hall0] | ].

(** X6: a deploy of an adapter for which [get_adapter_config] gives [None]
    or an empty dict never returns [True], makes no call but the
    registry query and appends nothing to the journal; with a tag given
    it returns [False] without any call at all. *)
Theorem deploy_of_unknown_adapter adapter_name tag w o w' t :
  deploy_adapter os config adapter_name tag w = (o, w', t) ->
  no_config (get_adapter_config config adapter_name) = true ->
  o <> Ret true /\ all_calls subprocess t /\ journal t = [] /\
  (truthy tag = true -> o = Ret false /\ calls t = []).
Proof.
  intros H Hnone. deploy_cases H.
  - apply deploy_tag_unknown in H; [|exact Hnone].
    destruct H as (-> & Hc & Hj). simpl.
    split; [discriminate|]. split; [unfold all_calls; rewrite Hc; constructor|].
    split; [exact Hj|]. intros _. split; [reflexivity | exact Hc].
  - apply deploy_tag_unknown in H; [|exact Hnone].
    destruct H as (-> & Hc & Hj).
    split; [discriminate|]. split.
    + apply all_calls_app. split; [exact Hall0|].
      unfold all_calls. rewrite Hc. constructor.
    + split; [rewrite journal_app, Hj0, Hj; reflexivity|]. congruence.
  - split; [exact Ho|]. split; [exact Hall|]. split; [exact Hj|]. congruence.
Qed.

(** X7: when the listing of networks in [deploy_adapter] comes back empty
    or raises, the deploy returns [False], appends nothing to the
    journal, and has made no call but the registry query and that
    listing: no container is listed, removed or run. *)
Theorem deploy_without_network adapter_name tag w o w' t names r :
  deploy_adapter os config adapter_name tag w = (o, w', t) ->
  In (Call (NetworksList names) r) t ->
  r = Networks [] \/ (exists e, r = Raised e) ->
  o = Ret false /\ journal t = [] /\ all_calls before_containers t.
Proof.
  intros H Hin Hr. deploy_cases H.
  - simpl in Hin. eapply deploy_tag_without_network in H; [|eassumption..].
    destruct H as (-> & Hj & Hc). split; [reflexivity|]. split; [exact Hj|].
    apply networks_listing_before, Hc.
  - apply in_app_or in Hin. destruct Hin as [Hin|Hin];
      [apply (all_calls_In _ _ _ _ Hall0) in Hin; discriminate Hin|].
    eapply deploy_tag_without_network in H; [|eassumption..].
    destruct H as (-> & Hj & Hc). split; [reflexivity|].
    split; [rewrite journal_app, Hj0, Hj; reflexivity|].
    apply all_calls_app. split.
    + apply subprocess_before, Hall0.
    + apply networks_listing_before, Hc.
  - apply (all_calls_In _ _ _ _ Hall) in Hin. discriminate Hin.
Qed.

(** X8: whenever [deploy_adapter] calls [containers.run], the calls just
    before it are the listing of the containers named
    [{adapter}-redis] and the forced removal of every container of that
    listing, in order, each of which went through. *)
Theorem deploy_removes_before_running adapter_name tag w o w' t spec r :
  deploy_adapter os config adapter_name tag w = (o, w', t) ->
  In (Call (ContainersRun spec) r) t ->
  exists pre cs post,
    calls t =
      pre ++ (ContainersList (adapter_name +:+ "-redis"), Containers cs)
          :: forced cs ++ (ContainersRun spec, r) :: post.
Proof.
  intros H Hin. deploy_cases H.
  - simpl in Hin. eapply deploy_tag_replaces in H; [|eassumption]. exact H.
  - split_in. eapply deploy_tag_replaces in H; [|eassumption].
    destruct H as (pre & cs & post & Hc).
    exists (calls t0 ++ pre), cs, post.
    rewrite calls_app, Hc, <- app_assoc. reflexivity.
  - split_in.
Qed.

(** X9: when listing, removing or running a container raises in
    [deploy_adapter], the deploy returns [False], no container has been
    started, and one DEPLOY FAILURE entry is appended, with the tag
    used and the text of the exception. *)
Theorem deploy_container_failure adapter_name tag w o w' t c e :
  deploy_adapter os config adapter_name tag w = (o, w', t) ->
  In (Call c (Raised e)) t ->
  container_action c = true ->
  o = Ret false /\
  (forall spec, ~ In (Call (ContainersRun spec) Done) t) /\
  exists used,
    journal t =
      [log_deploy adapter_name (Some used) false
         (Some ("Failed to deploy " +:+ adapter_name +:+ " adapter: "
                  +:+ exn_msg e))] /\
    (truthy tag = true -> tag = Some used).
Proof.
  intros H Hin Hc. deploy_cases H.
  - simpl in Hin. eapply deploy_tag_container_failure in H; [|eassumption..].
    destruct H as (-> & Hrun & Hj). split; [reflexivity|].
    split; [exact Hrun|]. exists first. split; [exact Hj | reflexivity].
  - apply in_app_or in Hin. destruct Hin as [Hin|Hin].
    + apply (all_calls_In _ _ _ _ Hall0) in Hin.
      destruct c; simpl in *; congruence.
    + eapply deploy_tag_container_failure in H; [|eassumption..].
      destruct H as (-> & Hrun & Hj). split; [reflexivity|]. split.
      * intros spec Hs. apply in_app_or in Hs. destruct Hs as [Hs|Hs].
        -- apply (all_calls_In _ _ _ _ Hall0) in Hs. discriminate Hs.
        -- exact (Hrun spec Hs).
      * exists first. split; [rewrite journal_app, Hj0, Hj; reflexivity|].
        congruence.
  - apply (all_calls_In _ _ _ _ Hall) in Hin.
    destruct c; simpl in *; congruence.
Qed.

(** X10: a deploy that returns [True] made exactly one [containers.run]
    call, which went through, for the container [adapter_spec] builds
    from the adapter's configuration and the tag used, the given one
    when there is one; and it appended exactly the DEPLOY SUCCESS entry
    of that tag. *)
Theorem successful_deploy_runs_one_container adapter_name tag w w' t :
  deploy_adapter os config adapter_name tag w = (Ret true, w', t) ->
  exists used d port_number,
    get_adapter_config config adapter_name = Some d /\
    Py.int (port d) = Ret port_number /\
    List.filter is_run (calls t) =
      [(ContainersRun (adapter_spec config adapter_name used d port_number),
        Done)] /\
    journal t = [log_deploy adapter_name (Some used) true None] /\
    (truthy tag = true -> tag = Some used).
Proof.
  intros H. deploy_cases H.
  - apply deploy_tag_success in H.
    destruct H as (d & p & Hd & Hp & Hf & Hj).
    exists first, d, p. repeat split; assumption.
  - apply deploy_tag_success in H.
    destruct H as (d & p & Hd & Hp & Hf & Hj).
    exists first, d, p. split; [exact Hd|]. split; [exact Hp|]. split.
    + rewrite calls_app, List.filter_app, no_run_in_subprocess by assumption.
      exact Hf.
    + split; [rewrite journal_app, Hj0, Hj; reflexivity|]. congruence.
  - congruence.
Qed.

(** X11: when the lookup of the new container or of the network raises in
    [deploy_adapter], no [network.connect] is ever called, and yet the
    deploy returns [True] and appends a DEPLOY SUCCESS entry. *)
Theorem deploy_survives_failed_lookup adapter_name tag w o w' t c e :
  deploy_adapter os config adapter_name tag w = (o, w', t) ->
  In (Call c (Raised e)) t ->
  attach_lookup c = true ->
  o = Ret true /\ all_calls unconnected t /\
  exists used, journal t = [log_deploy adapter_name (Some used) true None].
Proof.
  intros H Hin Hc. deploy_cases H.
  - simpl in Hin. eapply deploy_tag_lookup_failure in H; [|eassumption..].
    destruct H as (-> & Hu & Hj). eauto.
  - apply in_app_or in Hin. destruct Hin as [Hin|Hin].
    + apply (all_calls_In _ _ _ _ Hall0) in Hin.
      destruct c; simpl in *; congruence.
    + eapply deploy_tag_lookup_failure in H; [|eassumption..].
      destruct H as (-> & Hu & Hj). split; [reflexivity|]. split.
      * apply all_calls_app. split; [apply subprocess_unconnected, Hall0|exact Hu].
      * exists first. rewrite journal_app, Hj0, Hj. reflexivity.
  - apply (all_calls_In _ _ _ _ Hall) in Hin.
    destruct c; simpl in *; congruence.
Qed.

(** X12: when [deploy_adapter] is called without a tag and runs a
    container, the registry answered with a [Tags] array, and the tag
    of the container is an element of that array that every element is
    at most. *)
Theorem deploy_without_tag_takes_greatest adapter_name tag w o w' t spec r :
  deploy_adapter os config adapter_name tag w = (o, w', t) ->
  truthy tag = false ->
  In (Call (ContainersRun spec) r) t ->
  exists tags first d port_number,
    In (Call (SubprocessRun (list_tags_argv adapter_name))
          (TagsOut (Json (Object (Some tags))))) t /\
    In first tags /\ (forall x, In x tags -> String.le x first) /\
    spec = adapter_spec config adapter_name first d port_number.
Proof.
  intros H Hnone Hin. deploy_cases H.
  - congruence.
  - apply in_app_or in Hin. destruct Hin as [Hin|Hin].
    + apply (all_calls_In _ _ _ _ Hall0) in Hin. discriminate Hin.
    + apply get_available_tags_first in Htags.
      destruct Htags as (tags & -> & Htop).
      apply sorted_reverse_head in Htop. destruct Htop as [Hfirst Hmax].
      eapply deploy_tag_runs in H; [|eassumption].
      destruct H as (d & p & _ & _ & ->).
      exists tags, first, d, p. split; [left; reflexivity|]. auto.
  - apply (all_calls_In _ _ _ _ Hall) in Hin. discriminate Hin.
Qed.

End DeployExtras.

(** ** Upgrade *)

Section UpgradeExtras.
Context {W : Type} (os : platform W) (config : ConfigManager).

Local Arguments get_adapter_config : simpl never.
Local Arguments no_config : simpl never.
Local Arguments Py.int : simpl never.
Local Arguments env_vars : simpl never.
Local Arguments adapter_spec : simpl never.
Local Arguments redis_spec : simpl never.
Local Arguments ip_address : simpl never.
Local Arguments port : simpl never.
Local Arguments sorted_reverse : simpl never.
Local Arguments list_tags_argv : simpl never.
Local Arguments curl_cmd : simpl never.
Local Arguments container_ip : simpl never.
Local Arguments log_initialize : simpl never.
Local Arguments log_deploy : simpl never.
Local Arguments log_upgrade : simpl never.
Local Arguments log_test : simpl never.
Local Arguments str : simpl never.
Local Arguments join : simpl never.
Local Arguments remove_all : simpl never.
Local Arguments stop_and_remove : simpl never.
Local Arguments connect_static : simpl never.

Lemma deploy_tag_no_soft adapter_name tag w o w' t :
  deploy_tag os config adapter_name tag w = (o, w', t) ->
  all_calls (fun c => negb (soft_removal c)) t.
Proof.
  intros H.
  unfold deploy_tag, docker_networks_list, docker_containers_list, docker_run
    in H.
  unfold_monad H. exec_in H.
  all: leaf H.
  all: repeat match goal with
       | E : remove_all _ _ _ = _ |- _ => apply remove_all_forced in E
       | E : connect_static _ _ _ _ _ _ = _ |- _ =>
           apply connect_static_spec in E; destruct E as (_ & _ & E & _);
           apply attachment_not_soft in E
       end.
  all: all_calls_tac.
Qed.

Local Arguments deploy_tag : simpl never.
Local Arguments get_available_tags : simpl never.

Lemma deploy_adapter_no_soft adapter_name tag w o w' t :
  deploy_adapter os config adapter_name tag w = (o, w', t) ->
  all_calls (fun c => negb (soft_removal c)) t.
Proof.
  intros H. apply deploy_adapter_cases in H.
  destruct H as
    [(first & w0 & t0 & t1 & -> & H &
      [(-> & Htag & -> & ->)|(Htag & rest & Htags)])
    |(Htag & Ho & Hj & Hall)].
  - apply deploy_tag_no_soft in H. exact H.
  - apply deploy_tag_no_soft in H. apply get_available_tags_spec in Htags.
    destruct Htags as [_ Hs]. apply all_calls_app.
    split; [apply subprocess_not_soft, Hs | exact H].
  - apply subprocess_not_soft, Hall.
Qed.

Local Arguments deploy_adapter : simpl never.

Ltac run_upgrade H :=
  unfold upgrade_adapter, docker_containers_list in H;
  unfold_monad H; exec_in H; leaf H;
  repeat match goal with
  | E : stop_and_remove _ _ _ _ = _ |- _ =>
      let Hx := fresh "Hstopped" in
      pose proof E as Hx; apply stop_and_remove_exact in Hx;
      cbv beta iota in Hx;
      apply stop_and_remove_spec in E; destruct E as (? & ?)
  end.

(** X13: when stopping or removing an existing container raises in
    [upgrade_adapter], the upgrade returns [False], has made no call
    but the listing, stops and removes, so the deploy is not attempted,
    and appends one UPGRADE FAILURE entry with the text of the
    exception. *)
Theorem upgrade_stops_at_failed_removal adapter_name tag w o w' t c e :
  upgrade_adapter os config adapter_name tag w = (o, w', t) ->
  In (Call c (Raised e)) t ->
  soft_removal c = true ->
  o = Ret false /\ all_calls listing_or_removal t /\
  journal t =
    [log_upgrade adapter_name tag false
       (Some ("Failed to upgrade " +:+ adapter_name +:+ " adapter: "
                +:+ exn_msg e))].
Proof.
  intros H Hin Hc. run_upgrade H.
  all: repeat match goal with
       | E : deploy_adapter _ _ _ _ _ = _ |- _ =>
           apply deploy_adapter_no_soft in E
       end.
  all: split_in.
  all: simpl in Hc; try discriminate Hc.
  all: try (exfalso; eapply stopped_all_done; eassumption).
  all: try match goal with
       | Hns : all_calls (fun c => negb (soft_removal c)) ?l,
         Hi : In (Call _ _) ?l |- _ =>
           apply (all_calls_In _ _ _ _ Hns) in Hi; rewrite Hc in Hi;
           discriminate Hi
       end.
  all: destruct Hstopped as (? & _ & _ & Hsame).
  all: apply Hsame in Hin; subst.
  all: split; [reflexivity|]; split; [|solve [journal_tac]].
  all: repeat match goal with
       | Hrem : all_calls removal _ |- _ =>
           apply removal_listing_or_removal in Hrem
       end.
  all: all_calls_tac.
Qed.

(** X14: an upgrade that returns [True] listed the containers named
    [{adapter}-redis], found at least one, stopped and removed every
    one of them in order, and then started exactly one container; it
    appended the DEPLOY SUCCESS entry with the tag used and then the
    UPGRADE SUCCESS entry with the tag the caller passed. *)
Theorem successful_upgrade_replaces_containers adapter_name tag w w' t :
  upgrade_adapter os config adapter_name tag w = (Ret true, w', t) ->
  exists cs post used d port_number,
    cs <> [] /\
    calls t =
      (ContainersList (adapter_name +:+ "-redis"), Containers cs)
        :: stopped cs ++ post /\
    List.filter is_run post =
      [(ContainersRun (adapter_spec config adapter_name used d port_number),
        Done)] /\
    journal t =
      [log_deploy adapter_name (Some used) true None;
       log_upgrade adapter_name tag true None] /\
    (truthy tag = true -> tag = Some used).
Proof.
  intros H. run_upgrade H.
  match goal with
  | E : deploy_adapter _ _ _ _ _ = _ |- _ =>
      apply deploy_adapter_cases in E;
      destruct E as
        [(first & w_reg & t0 & t1 & -> & E &
          [(-> & Htag & -> & ->)|(Htag & rest & Htags)])
        |(Htag & Ho & Hj & Hall)];
      [ apply deploy_tag_success in E
      | apply deploy_tag_success in E; apply get_available_tags_spec in Htags;
        destruct Htags as [Hj0 Hall0]
      | congruence ];
      destruct E as (d & p & Hd & Hp & Hf & Hj)
  end.
  - match goal with
    | Hl : containers_list _ _ _ = (Ret ?cs, _) |- _ =>
        exists cs, (calls t1), first, d, p
    end.
    split; [discriminate|]. split.
    + repeat (simpl; rewrite ?calls_app, ?app_nil_r). rewrite Hstopped.
      reflexivity.
    + split; [exact Hf|]. split; [|reflexivity].
      journal_tac. rewrite Hj. reflexivity.
  - match goal with
    | Hl : containers_list _ _ _ = (Ret ?cs, _) |- _ =>
        exists cs, (calls (t0 ++ t1)), first, d, p
    end.
    split; [discriminate|]. split.
    + repeat (simpl; rewrite ?calls_app, ?app_nil_r). rewrite Hstopped.
      reflexivity.
    + split.
      * rewrite calls_app, List.filter_app, no_run_in_subprocess by assumption.
        exact Hf.
      * split; [|congruence].
        journal_tac. rewrite ?Hj0, ?Hj. reflexivity.
Qed.

(** X15: when the deploy inside [upgrade_adapter] finds no network eas-net,
    the upgrade has already stopped and removed every existing
    container; it returns [False] and appends nothing to the journal. *)
Theorem upgrade_without_network adapter_name tag w o w' t names r :
  upgrade_adapter os config adapter_name tag w = (o, w', t) ->
  In (Call (NetworksList names) r) t ->
  r = Networks [] \/ (exists e, r = Raised e) ->
  o = Ret false /\ journal t = [] /\
  exists cs post,
    cs <> [] /\
    calls t =
      (ContainersList (adapter_name +:+ "-redis"), Containers cs)
        :: stopped cs ++ post.
Proof.
  intros H Hin Hr. run_upgrade H.
  all: where_is Hin.
  all: match goal with
       | E : deploy_adapter _ _ _ _ _ = _ |- _ =>
           apply deploy_adapter_cases in E;
           destruct E as
             [(first & w_reg & t0 & t1 & -> & E &
               [(-> & Htag & -> & ->)|(Htag & rest & Htags)])
             |(Htag & Ho & Hj & Hall)];
           [ | apply get_available_tags_spec in Htags;
               destruct Htags as [Hj0 Hall0];
               apply in_app_or in Hin; destruct Hin as [Hin|Hin];
               [apply (all_calls_In _ _ _ _ Hall0) in Hin; discriminate Hin|]
             | apply (all_calls_In _ _ _ _ Hall) in Hin; discriminate Hin ];
           (eapply deploy_tag_without_network in E; [|eassumption..]);
           destruct E as (E & Hj & _); try discriminate E
       end.
  all: split; [reflexivity|]; split;
       [journal_tac; rewrite ?Hj0, ?Hj; reflexivity|].
  all: match goal with
       | Hl : containers_list _ _ _ = (Ret ?cs, _) |- _ => exists cs
       end.
  all: eexists; split; [discriminate|].
  all: etransitivity;
       [ repeat (simpl; rewrite ?calls_app, ?app_nil_r); rewrite Hstopped;
         reflexivity
       | reflexivity ].
Qed.

End UpgradeExtras.

(** ** The probe and the registry *)

Section ProbeExtras.
Context {W : Type} (os : platform W) (config : ConfigManager).

Local Arguments get_adapter_config : simpl never.
Local Arguments no_config : simpl never.
Local Arguments Py.int : simpl never.
Local Arguments env_vars : simpl never.
Local Arguments adapter_spec : simpl never.
Local Arguments redis_spec : simpl never.
Local Arguments ip_address : simpl never.
Local Arguments port : simpl never.
Local Arguments sorted_reverse : simpl never.
Local Arguments list_tags_argv : simpl never.
Local Arguments curl_cmd : simpl never.
Local Arguments container_ip : simpl never.
Local Arguments log_initialize : simpl never.
Local Arguments log_deploy : simpl never.
Local Arguments log_upgrade : simpl never.
Local Arguments log_test : simpl never.
Local Arguments str : simpl never.
Local Arguments join : simpl never.
Local Arguments remove_all : simpl never.
Local Arguments stop_and_remove : simpl never.
Local Arguments connect_static : simpl never.

(** X16: when the command of [test_adapter] raises, [test_adapter] returns
    [None] and appends one TEST FAILURE entry whose result is the text
    the handler of that exception class builds. *)
Theorem probe_failure_is_journaled
    container_name from_param to_param w o w' t argv e :
  test_adapter os container_name from_param to_param w = (o, w', t) ->
  In (Call (SubprocessRun argv) (Raised e)) t ->
  o = Ret JNull /\
  journal t =
    [log_test (repr os) container_name from_param to_param false
       (JStr (probe_error e))].
Proof.
  intros H Hin. unfold test_adapter in H. unfold_monad H. exec_in H.
  all: leaf H; where_is Hin.
  all: split; [reflexivity|].
  all: unfold probe_error;
       repeat match goal with
       | Hcls : exn_cls _ = _ |- _ => rewrite Hcls
       end;
       reflexivity.
Qed.

(** X17: the output of the command decides the outcome of [test_adapter]:
    a JSON object gives its [result] member, [None] when it has none,
    with a TEST SUCCESS entry; another JSON value gives [None] with a
    TEST FAILURE entry that carries the [AttributeError] of [get] on a
    value of its type; output that is no JSON gives [None] with a TEST
    FAILURE entry that carries the complaint of the decoder. *)
Theorem probe_answer_decides_result
    container_name from_param to_param w o w' t argv body :
  test_adapter os container_name from_param to_param w = (o, w', t) ->
  In (Call (SubprocessRun argv) (ProbeOut body)) t ->
  match body with
  | Json (JObj fields) =>
      let v := default JNull (assoc "result" fields) in
      o = Ret v /\
      journal t =
        [log_test (repr os) container_name from_param to_param true v]
  | Json v =>
      o = Ret JNull /\
      journal t =
        [log_test (repr os) container_name from_param to_param false
           (JStr ("Error testing adapter: '" +:+ type_name v
                    +:+ "' object has no attribute 'get'"))]
  | NotJson msg =>
      o = Ret JNull /\
      journal t =
        [log_test (repr os) container_name from_param to_param false
           (JStr ("Failed to parse adapter response: " +:+ msg))]
  end.
Proof.
  intros H Hin. unfold test_adapter, json_loads, get_result in H.
  unfold_monad H. exec_in H.
  all: leaf H; where_is Hin.
  all: cbv zeta;
       repeat match goal with
       | Ha : assoc _ _ = _ |- _ => rewrite Ha
       end.
  all: split; reflexivity.
Qed.

End ProbeExtras.

Section RegistryExtras.
Context {W : Type} (os : platform W) (config : ConfigManager).

Local Arguments get_adapter_config : simpl never.
Local Arguments no_config : simpl never.
Local Arguments Py.int : simpl never.
Local Arguments env_vars : simpl never.
Local Arguments adapter_spec : simpl never.
Local Arguments redis_spec : simpl never.
Local Arguments ip_address : simpl never.
Local Arguments port : simpl never.
Local Arguments sorted_reverse : simpl never.
Local Arguments list_tags_argv : simpl never.
Local Arguments curl_cmd : simpl never.
Local Arguments container_ip : simpl never.
Local Arguments log_initialize : simpl never.
Local Arguments log_deploy : simpl never.
Local Arguments log_upgrade : simpl never.
Local Arguments log_test : simpl never.
Local Arguments str : simpl never.
Local Arguments join : simpl never.
Local Arguments remove_all : simpl never.
Local Arguments stop_and_remove : simpl never.
Local Arguments connect_static : simpl never.

Lemma get_available_tags_raised adapter_name w o w' t argv e :
  get_available_tags os adapter_name w = (o, w', t) ->
  In (Call (SubprocessRun argv) (Raised e)) t ->
  exn_cls e <> CalledProcessError ->
  exn_cls e <> JSONDecodeError ->
  o = Raise e /\
  t = [Call (SubprocessRun (list_tags_argv adapter_name)) (Raised e)].
Proof.
  intros H Hin Hc Hj. unfold get_available_tags, json_loads, sorted_tags in H.
  unfold_monad H. exec_in H.
  all: leaf H; where_is Hin.
  all: try congruence.
  all: split; reflexivity.
Qed.

Lemma deploy_tag_sdk adapter_name tag w o w' t :
  deploy_tag os config adapter_name tag w = (o, w', t) ->
  all_calls sdk t /\ exists b, o = Ret b.
Proof.
  intros H.
  unfold deploy_tag, docker_networks_list, docker_containers_list, docker_run
    in H.
  unfold_monad H. exec_in H.
  all: leaf H.
  all: repeat match goal with
       | E : remove_all _ _ _ = _ |- _ =>
           apply remove_all_spec in E; destruct E as (_ & _ & E);
           apply (all_calls_weaken removal sdk) in E;
           [|intros c0 Hc0; destruct c0; try discriminate Hc0; reflexivity]
       | E : connect_static _ _ _ _ _ _ = _ |- _ =>
           apply connect_static_spec in E; destruct E as (_ & _ & E & _);
           apply (all_calls_weaken attachment sdk) in E;
           [|intros c0 Hc0; destruct c0; try discriminate Hc0; reflexivity]
       end.
  all: split; [all_calls_tac | eexists; reflexivity].
Qed.

Local Arguments deploy_tag : simpl never.
Local Arguments get_available_tags : simpl never.
Local Arguments deploy_adapter : simpl never.

(** X18: when the registry query raises an exception that is neither a
    [CalledProcessError] nor a [JSONDecodeError], [deploy_adapter]
    raises it: the query is its only call and nothing is appended to
    the journal. *)
Theorem deploy_raises_with_the_registry_query
    adapter_name tag w o w' t argv e :
  deploy_adapter os config adapter_name tag w = (o, w', t) ->
  In (Call (SubprocessRun argv) (Raised e)) t ->
  exn_cls e <> CalledProcessError ->
  exn_cls e <> JSONDecodeError ->
  o = Raise e /\
  calls t = [(SubprocessRun (list_tags_argv adapter_name), Raised e)] /\
  journal t = [].
Proof.
  intros H Hin Hc Hj. unfold deploy_adapter in H.
  assert (Hdep : forall first w0 t1,
            deploy_tag os config adapter_name first w0 = (o, w', t1) ->
            ~ In (Call (SubprocessRun argv) (Raised e)) t1).
  { intros first w0 t1 E Hi. apply deploy_tag_sdk in E. destruct E as [E _].
    apply (all_calls_In _ _ _ _ E) in Hi. discriminate Hi. }
  destruct tag as [s|]; [destruct (truthy (Some s))|].
  1: exfalso; eapply Hdep; eassumption.
  all: unfold_monad H.
  all: destruct (get_available_tags os adapter_name w)
         as [[[[|first rest]|e0] w0] t0] eqn:E.
  all: try (destruct (deploy_tag os config adapter_name first w0)
              as [[o1 w1] t1] eqn:E1).
  all: leaf H.
  all: repeat (apply in_app_or in Hin; destruct Hin as [Hin|Hin]).
  all: try (exfalso; eapply Hdep; eassumption).
  all: try (simpl in Hin; destruct Hin as [Hin|[]]; discriminate Hin).
  all: eapply get_available_tags_raised in E; [|eassumption..].
  all: destruct E as [E ->]; try discriminate E.
  all: injection E as ->; repeat split.
Qed.

End RegistryExtras.

(** ** Static discovery and the key file *)

Lemma scan_unreadable entries acc f :
  In f entries -> usable f = true -> content f = None ->
  scan entries acc = None.
Proof.
  revert acc. induction entries as [|g rest IH]; intros acc Hin Hu Hc;
    [destruct Hin|].
  simpl. destruct Hin as [->|Hin].
  - unfold usable in Hu. apply andb_true_iff in Hu. destruct Hu as [Hd Hx].
    apply negb_true_iff in Hd. rewrite Hd, Hx, Hc. reflexivity.
  - destruct (is_dir g || negb (executable g)); [eauto|].
    destruct (content g); [eauto | reflexivity].
Qed.

Lemma scan_skips entries acc m name :
  scan entries acc = Some m ->
  (forall f, In f entries -> usable f = true -> file_name f <> name) ->
  m !! name = acc !! name.
Proof.
  revert acc. induction entries as [|g rest IH]; intros acc Hs Hn; simpl in Hs.
  - congruence.
  - destruct (is_dir g || negb (executable g)) eqn:Hskip.
    + apply IH; [exact Hs|]. intros f Hf. apply Hn. right. exact Hf.
    + destruct (content g) as [sc|]; [|discriminate].
      rewrite (IH _ Hs) by (intros f Hf; apply Hn; right; exact Hf).
      apply lookup_insert_ne. apply Hn; [left; reflexivity|].
      unfold usable. apply orb_false_iff in Hskip. destruct Hskip as [-> Hx].
      apply negb_false_iff in Hx. rewrite Hx. reflexivity.
Qed.

Lemma scan_readable entries acc :
  (forall f, In f entries -> usable f = true -> content f <> None) ->
  exists m, scan entries acc = Some m.
Proof.
  revert acc. induction entries as [|g rest IH]; intros acc Hr; simpl; [eauto|].
  destruct (is_dir g || negb (executable g)) eqn:Hskip.
  - apply IH. intros f Hf. apply Hr. right. exact Hf.
  - destruct (content g) as [sc|] eqn:Hc.
    + apply IH. intros f Hf. apply Hr. right. exact Hf.
    + exfalso. apply (Hr g); [left; reflexivity| |exact Hc].
      unfold usable. apply orb_false_iff in Hskip. destruct Hskip as [-> Hx].
      apply negb_false_iff in Hx. rewrite Hx. reflexivity.
Qed.

Lemma scan_app pre post acc :
  scan (pre ++ post) acc =
  match scan pre acc with
  | Some m => scan post m
  | None => None
  end.
Proof.
  revert acc. induction pre as [|g rest IH]; intros acc; simpl; [reflexivity|].
  destruct (is_dir g || negb (executable g)); [apply IH|].
  destruct (content g); [apply IH | reflexivity].
Qed.

(** X19: if reading one executable entry of the adapters directory that is
    no directory raises, [_create_adapter_configs] returns the empty
    dict: every adapter is lost, those read before included. *)
Theorem unreadable_script_voids_discovery entries f :
  In f entries -> usable f = true -> content f = None ->
  _create_adapter_configs (Some entries) = ∅.
Proof.
  intros Hin Hu Hc. unfold _create_adapter_configs.
  rewrite (scan_unreadable entries ∅ f Hin Hu Hc). reflexivity.
Qed.

(** X20: a name that no executable entry of the adapters directory which is
    no directory carries is not a key of what
    [_create_adapter_configs] returns. *)
Theorem skipped_entries_are_not_adapters entries name :
  (forall f, In f entries -> usable f = true -> file_name f <> name) ->
  _create_adapter_configs (Some entries) !! name = None.
Proof.
  intros Hn. unfold _create_adapter_configs.
  destruct (scan entries ∅) as [m|] eqn:Hs; [|apply lookup_empty].
  rewrite (scan_skips _ _ _ _ Hs Hn). apply lookup_empty.
Qed.

(** X21: when every executable entry that is no directory can be read, the
    dict stored under the name of such an entry is the dict of the four
    matches of its script; of two entries with one name the later one
    counts. *)
Theorem discovered_adapter_has_script_dict pre f post sc :
  (forall g, In g (pre ++ f :: post) -> usable g = true -> content g <> None) ->
  usable f = true ->
  content f = Some sc ->
  (forall g, In g post -> usable g = true -> file_name g <> file_name f) ->
  _create_adapter_configs (Some (pre ++ f :: post)) !! file_name f =
    Some (adapter_dict sc).
Proof.
  intros Hr Hu Hc Hlast. unfold _create_adapter_configs.
  rewrite scan_app.
  destruct (scan_readable pre ∅) as [m Hm].
  { intros g Hg. apply Hr. apply in_or_app. left. exact Hg. }
  rewrite Hm. simpl.
  unfold usable in Hu. apply andb_true_iff in Hu. destruct Hu as [Hd Hx].
  apply negb_true_iff in Hd. rewrite Hd, Hx, Hc. simpl.
  destruct (scan_readable post (<[file_name f := adapter_dict sc]> m)) as [m' Hm'].
  { intros g Hg. apply Hr. apply in_or_app. right. right. exact Hg. }
  rewrite Hm'. rewrite (scan_skips _ _ _ _ Hm' Hlast).
  apply lookup_insert_eq.
Qed.

Lemma load_keys_app (pairs : list (string * string))
    (acc : gmap string string) name :
  (forall v, ~ In (name, v) pairs) ->
  foldl (λ api_keys nv, <[nv.1 := clean nv.2]> api_keys) acc pairs !! name
  = acc !! name.
Proof.
  revert acc. induction pairs as [|[n v] rest IH]; intros acc Hn; [reflexivity|].
  simpl. rewrite IH by (intros v' Hv; apply (Hn v'); right; exact Hv).
  apply lookup_insert_ne. intros ->. apply (Hn v). left. reflexivity.
Qed.

(** X22: of the export statements of one variable, [_load_api_keys] stores
    the cleaned value of the last. *)
Theorem last_export_wins pairs name value rest :
  (forall v, ~ In (name, v) rest) ->
  _load_api_keys (Some (pairs ++ (name, value) :: rest)) !! name =
    Some (clean value).
Proof.
  intros Hn. unfold _load_api_keys. rewrite foldl_app. simpl.
  rewrite load_keys_app by exact Hn. apply lookup_insert_eq.
Qed.

(** ** Cleaning a value *)

Lemma append_cons a s t : String a s +:+ t = String a (s +:+ t).
Proof. reflexivity. Qed.

Lemma append_nil_l s : "" +:+ s = s.
Proof. reflexivity. Qed.

Lemma append_nil_r s : s +:+ "" = s.
Proof. induction s as [|a s IH]; [reflexivity|]. rewrite append_cons, IH. reflexivity. Qed.

Lemma append_assoc s t u : (s +:+ t) +:+ u = s +:+ (t +:+ u).
Proof.
  induction s as [|a s IH]; [reflexivity|]. rewrite !append_cons, IH. reflexivity.
Qed.

Lemma rev_app_spec s acc : String.rev_app s acc = String.rev s +:+ acc.
Proof.
  unfold String.rev. revert acc. induction s as [|a s IH]; intros acc;
    [reflexivity|].
  simpl. rewrite IH, (IH (String a "")), append_assoc. reflexivity.
Qed.

Lemma rev_cons a s : String.rev (String a s) = String.rev s +:+ String a "".
Proof. unfold String.rev at 1. simpl. apply rev_app_spec. Qed.

Lemma rev_append s t : String.rev (s +:+ t) = String.rev t +:+ String.rev s.
Proof.
  induction s as [|a s IH].
  - symmetry. apply append_nil_r.
  - rewrite append_cons, !rev_cons, IH, append_assoc. reflexivity.
Qed.

Lemma rev_involutive s : String.rev (String.rev s) = s.
Proof.
  induction s as [|a s IH]; [reflexivity|].
  rewrite rev_cons, rev_append, IH. reflexivity.
Qed.

Lemma blanks_append s t : blanks (s +:+ t) = blanks s && blanks t.
Proof.
  induction s as [|a s IH]; [reflexivity|].
  rewrite append_cons. simpl. rewrite IH, andb_assoc. reflexivity.
Qed.

Lemma blanks_rev s : blanks (String.rev s) = blanks s.
Proof.
  induction s as [|a s IH]; [reflexivity|].
  rewrite rev_cons, blanks_append, IH. simpl.
  rewrite andb_true_r. apply andb_comm.
Qed.

Lemma lstrip_blanks pad s : blanks pad = true -> lstrip (pad +:+ s) = lstrip s.
Proof.
  induction pad as [|a pad IH]; intros Hb; [reflexivity|].
  simpl in Hb. apply andb_true_iff in Hb. destruct Hb as [Ha Hb].
  rewrite append_cons. simpl. rewrite Ha. apply IH, Hb.
Qed.

Lemma strip_padded q body pad1 pad2 :
  is_blank q = false ->
  blanks pad1 = true -> blanks pad2 = true ->
  strip (pad1 +:+ quoted q body +:+ pad2) = quoted q body.
Proof.
  intros Hq H1 H2. unfold strip, quoted.
  rewrite lstrip_blanks by exact H1.
  rewrite append_cons. simpl lstrip. rewrite Hq.
  rewrite rev_cons, !rev_append, rev_cons. simpl String.rev at 2.
  rewrite !append_assoc.
  rewrite lstrip_blanks by (rewrite blanks_rev; exact H2).
  rewrite !append_cons. simpl lstrip. rewrite Hq.
  rewrite append_nil_l, rev_cons, rev_append, rev_involutive. reflexivity.
Qed.

Lemma inner_quoted q body : inner (quoted q body) = body.
Proof.
  unfold inner, quoted. rewrite rev_append, rev_cons. simpl.
  apply rev_involutive.
Qed.

Lemma ends_with_quoted q q' body :
  ends_with q' (quoted q body) = bool_decide (q = q').
Proof.
  unfold ends_with, quoted. rewrite rev_cons, rev_append, rev_cons.
  reflexivity.
Qed.

(** X23: the clean-up of a value in [_load_api_keys] gives back the text
    between the quotes when the raw value is that text in double or in
    single quotes, with blanks around. *)
Theorem clean_undoes_quoting q pad1 pad2 body :
  q = double_quote \/ q = single_quote ->
  blanks pad1 = true -> blanks pad2 = true ->
  clean (pad1 +:+ quoted q body +:+ pad2) = body.
Proof.
  intros Hq H1 H2. unfold clean.
  rewrite strip_padded; [| destruct Hq as [->| ->]; reflexivity | exact H1 | exact H2].
  rewrite !ends_with_quoted. unfold starts_with, quoted.
  destruct Hq as [->| ->].
  - rewrite bool_decide_eq_true_2 by reflexivity. apply inner_quoted.
  - rewrite (bool_decide_eq_false_2 (single_quote = double_quote)) by discriminate.
    rewrite bool_decide_eq_true_2 by reflexivity. apply inner_quoted.
Qed.

(** ** Chain variables *)

Section ChainVars.
Variable int_of : string -> option Z.

Lemma entry_of_insert (m : gmap string chain) k c name :
  entry_of (<[k := c]> m) name = if decide (k = name) then c else entry_of m name.
Proof.
  unfold entry_of. destruct (decide (k = name)) as [->|Hne].
  - rewrite lookup_insert_eq. reflexivity.
  - rewrite lookup_insert_ne by exact Hne. reflexivity.
Qed.

(** One round of either loop changes only its own key of the chain. *)
Lemma add_rpc_url_chain_id m p name :
  chain_id (entry_of (add_rpc_url m p) name) = chain_id (entry_of m name).
Proof.
  unfold add_rpc_url. destruct (bool_decide (strip p.2 = "")); [reflexivity|].
  rewrite entry_of_insert. destruct (decide (p.1 = name)) as [->|]; reflexivity.
Qed.

Lemma add_chain_id_rpc_url acc p name :
  rpc_url (entry_of (add_chain_id int_of acc p).1 name) =
  rpc_url (entry_of acc.1 name).
Proof.
  unfold add_chain_id. destruct (bool_decide (strip p.2 = "")); [reflexivity|].
  destruct (int_of (strip p.2)); simpl; rewrite entry_of_insert;
    destruct (decide (p.1 = name)) as [->|]; reflexivity.
Qed.

Lemma chain_ids_rpc_url ids acc name :
  rpc_url (entry_of (foldl (add_chain_id int_of) acc ids).1 name) =
  rpc_url (entry_of acc.1 name).
Proof.
  revert acc. induction ids as [|p ids IH]; intros acc; [reflexivity|].
  simpl. rewrite IH. apply add_chain_id_rpc_url.
Qed.

(** The chain ids and the warnings of the second loop depend on the
    map it starts from only through the chain ids in it. *)
Lemma chain_ids_congruence ids acc acc' :
  (forall name, chain_id (entry_of acc.1 name) = chain_id (entry_of acc'.1 name)) ->
  acc.2 = acc'.2 ->
  (forall name,
     chain_id (entry_of (foldl (add_chain_id int_of) acc ids).1 name) =
     chain_id (entry_of (foldl (add_chain_id int_of) acc' ids).1 name)) /\
  (foldl (add_chain_id int_of) acc ids).2 =
  (foldl (add_chain_id int_of) acc' ids).2.
Proof.
  revert acc acc'. induction ids as [|p ids IH]; intros acc acc' Hc Hw;
    [split; assumption|].
  simpl. apply IH.
  - intros name. unfold add_chain_id.
    destruct (bool_decide (strip p.2 = "")); [apply Hc|].
    destruct (int_of (strip p.2)); simpl; rewrite !entry_of_insert;
      destruct (decide (p.1 = name)) as [->|]; try reflexivity; apply Hc.
  - unfold add_chain_id.
    destruct (bool_decide (strip p.2 = "")); [exact Hw|].
    destruct (int_of (strip p.2)); simpl; rewrite ?Hw; reflexivity.
Qed.

Lemma rpc_urls_chain_id rpcs (m : gmap string chain) name :
  chain_id (entry_of (foldl add_rpc_url m rpcs) name) = chain_id (entry_of m name).
Proof.
  revert m. induction rpcs as [|p rpcs IH]; intros m; [reflexivity|].
  simpl. rewrite IH. apply add_rpc_url_chain_id.
Qed.

(** X24: the two loops of [_load_chain_vars] do not interfere: the
    [rpc_url] of a chain is what the RPC URL lines alone give, and the
    [chain_id] of a chain and the warnings are what the chain id lines
    alone give. *)
Theorem chain_passes_are_independent path rpcs ids name :
  let loaded := _load_chain_vars int_of path (Matches rpcs ids) in
  rpc_url (entry_of loaded.1 name) =
    rpc_url (entry_of (_load_chain_vars int_of path (Matches rpcs [])).1 name) /\
  chain_id (entry_of loaded.1 name) =
    chain_id (entry_of (_load_chain_vars int_of path (Matches [] ids)).1 name) /\
  loaded.2 = (_load_chain_vars int_of path (Matches [] ids)).2.
Proof.
  cbv zeta. unfold _load_chain_vars. split; [apply chain_ids_rpc_url|].
  destruct (chain_ids_congruence ids (foldl add_rpc_url ∅ rpcs, [])
              (foldl add_rpc_url ∅ [], [])) as [Hc Hw].
  - intros n. simpl. apply rpc_urls_chain_id.
  - reflexivity.
  - split; [apply Hc | exact Hw].
Qed.

Lemma chain_id_provenance ids acc name n :
  chain_id (entry_of (foldl (add_chain_id int_of) acc ids).1 name) = Some n ->
  chain_id (entry_of acc.1 name) = Some n \/
  exists v, In (name, v) ids /\ strip v <> "" /\ int_of (strip v) = Some n.
Proof.
  revert acc. induction ids as [|[k v] ids IH]; intros acc H; [left; exact H|].
  simpl in H. apply IH in H. destruct H as [H|(v' & Hin & Hv)].
  - unfold add_chain_id in H. simpl in H.
    destruct (bool_decide (strip v = "")) eqn:Hb; [left; exact H|].
    apply bool_decide_eq_false in Hb.
    destruct (int_of (strip v)) as [i|] eqn:Hi; simpl in H;
      rewrite entry_of_insert in H;
      destruct (decide (k = name)) as [->|]; auto.
    simpl in H. injection H as ->. right. exists v.
    split; [left; reflexivity|]. split; assumption.
  - right. exists v'. split; [right; exact Hin | exact Hv].
Qed.

(** X25: a [chain_id] that [_load_chain_vars] stores for a chain is the
    [int] of the stripped, non-empty value of a chain id line of that
    chain. *)
Theorem chain_id_comes_from_a_parsed_line path rpcs ids name n :
  chain_id (entry_of (_load_chain_vars int_of path (Matches rpcs ids)).1 name)
    = Some n ->
  exists v, In (name, v) ids /\ strip v <> "" /\ int_of (strip v) = Some n.
Proof.
  unfold _load_chain_vars. intros H. apply chain_id_provenance in H.
  destruct H as [H|H]; [|exact H].
  simpl in H. rewrite rpc_urls_chain_id in H. discriminate H.
Qed.

Lemma blank_rpc_urls_keep post (m : gmap string chain) name :
  (forall v, In (name, v) post -> strip v = "") ->
  rpc_url (entry_of (foldl add_rpc_url m post) name) = rpc_url (entry_of m name).
Proof.
  revert m. induction post as [|[k v] post IH]; intros m Hb; [reflexivity|].
  simpl. rewrite IH by (intros v' Hv; apply Hb; right; exact Hv).
  unfold add_rpc_url. simpl.
  destruct (bool_decide (strip v = "")) eqn:Hv; [reflexivity|].
  apply bool_decide_eq_false in Hv.
  rewrite entry_of_insert. destruct (decide (k = name)) as [->|]; [|reflexivity].
  exfalso. apply Hv, Hb. left. reflexivity.
Qed.

(** X26: the [rpc_url] that [_load_chain_vars] stores for a chain is the
    stripped value of the last RPC URL line of the chain that is not
    blank; later blank lines do not erase it. *)
Theorem last_rpc_url_wins path pre name url post ids :
  strip url <> "" ->
  (forall v, In (name, v) post -> strip v = "") ->
  rpc_url
    (entry_of
       (_load_chain_vars int_of path
          (Matches (pre ++ (name, url) :: post) ids)).1 name) =
  Some (strip url).
Proof.
  intros Hurl Hpost. unfold _load_chain_vars.
  rewrite chain_ids_rpc_url. simpl. rewrite foldl_app. simpl.
  rewrite blank_rpc_urls_keep by exact Hpost.
  unfold add_rpc_url at 1. simpl.
  rewrite bool_decide_eq_false_2 by exact Hurl.
  rewrite entry_of_insert, decide_True by reflexivity. reflexivity.
Qed.

End ChainVars.

(** ** The CoinGecko module *)

Section CoinGeckoEnv.
Context (config : ConfigManager).

Lemma coingecko_names_in_base d :
  (list_to_map
     [("CACHE_KEY_GROUP", Some "coingecko");
      ("RATE_LIMIT_API_PROVIDER", Some "coingecko");
      ("METRICS_NAME", Some "coingecko")] : gmap string (option string))
  ⊆ base_env_vars "coingecko" d.
Proof.
  apply map_subseteq_spec. intros key v H.
  rewrite !list_to_map_cons, list_to_map_nil in H.
  repeat (apply lookup_insert_Some in H;
          destruct H as [[<- <-]|[_ H]]; [vm_compute; reflexivity|]).
  rewrite lookup_empty in H. discriminate H.
Qed.

(** X27: every variable [CoinGeckoAdapter.get_env_vars] sets, given the
    key and the tier the configuration resolves for coingecko, is in
    the environment [deploy_adapter] builds for coingecko, with the
    same value. *)
Theorem coingecko_variables_are_what_deploy_sets d :
  CoinGecko.get_env_vars (get_api_key config "coingecko")
    (get_subscription_tier config "coingecko")
  ⊆ env_vars config "coingecko" d.
Proof.
  unfold CoinGecko.get_env_vars, env_vars.
  pose proof (coingecko_names_in_base d) as Hbase.
  destruct (truthy (get_api_key config "coingecko")),
    (truthy (get_subscription_tier config "coingecko"));
    repeat apply insert_mono; exact Hbase.
Qed.

End CoinGeckoEnv.

(** ** The command line *)

Section CommandLine.
Context {W : Type} (os : platform W) (config : ConfigManager).

Local Arguments get_adapter_config : simpl never.
Local Arguments no_config : simpl never.
Local Arguments Py.int : simpl never.
Local Arguments env_vars : simpl never.
Local Arguments adapter_spec : simpl never.
Local Arguments redis_spec : simpl never.
Local Arguments ip_address : simpl never.
Local Arguments port : simpl never.
Local Arguments sorted_reverse : simpl never.
Local Arguments list_tags_argv : simpl never.
Local Arguments curl_cmd : simpl never.
Local Arguments container_ip : simpl never.
Local Arguments log_initialize : simpl never.
Local Arguments log_deploy : simpl never.
Local Arguments log_upgrade : simpl never.
Local Arguments log_test : simpl never.
Local Arguments str : simpl never.
Local Arguments join : simpl never.
Local Arguments remove_all : simpl never.
Local Arguments stop_and_remove : simpl never.
Local Arguments connect_static : simpl never.
Variable int_of : string -> option Z.

Local Arguments deploy_tag : simpl never.
Local Arguments get_available_tags : simpl never.
Local Arguments deploy_adapter : simpl never.
Local Arguments upgrade_adapter : simpl never.
Local Arguments test_adapter : simpl never.

(** Asking for a tag touches neither the platform nor the manager, and
    never leaves through [sys.exit]. *)
Lemma choose_is_quiet tags stdin (w : W) e stdin' w' t o :
  Cli.choose int_of tags stdin w = (e, stdin', w', t, o) ->
  w' = w /\ t = [] /\ forall code, e <> Cli.Exit code.
Proof.
  revert e stdin' w' t o. induction stdin as [|line rest IH];
    intros e stdin' w' t o H; simpl in H.
  - inversion H; subst. repeat split. discriminate.
  - destruct (Cli.choose int_of tags rest w) as [[[[e1 s1] w1] t1] o1] eqn:E.
    destruct (IH _ _ _ _ _ eq_refl) as (-> & -> & Hne).
    destruct (int_of line) as [index|];
      [destruct (Z.leb 0 index && Z.ltb index (Z.of_nat (length tags)))|];
      inversion H; subst; repeat split; solve [discriminate | exact Hne].
Qed.

(** X28: the tag prompt of the command line makes no call and never leaves
    through [sys.exit]: it returns the tag at the index typed on the
    first line that is a number within range, having skipped only
    lines that are not, or it ends with the [EOFError] of [input] when
    no line is. *)
Theorem tag_prompt_outcomes tags stdin (w : W) e stdin' w' t o :
  Cli.choose int_of tags stdin w = (e, stdin', w', t, o) ->
  w' = w /\ t = [] /\
  match e with
  | Cli.Return chosen =>
      exists skipped line index,
        stdin = skipped ++ line :: stdin' /\
        int_of line = Some index /\
        (0 <= index < Z.of_nat (length tags))%Z /\
        tags !! Z.to_nat index = Some chosen /\
        Forall
          (fun l =>
             forall i, int_of l = Some i ->
                       ~ (0 <= i < Z.of_nat (length tags))%Z) skipped
  | Cli.Uncaught x =>
      x = Cli.end_of_input /\ stdin' = [] /\
      Forall
        (fun l =>
           forall i, int_of l = Some i ->
                     ~ (0 <= i < Z.of_nat (length tags))%Z) stdin
  | Cli.Exit _ => False
  end.
Proof.
  revert e stdin' w' t o. induction stdin as [|line rest IH];
    intros e stdin' w' t o H; simpl in H.
  - inversion H; subst. repeat split. constructor.
  - destruct (int_of line) as [index|] eqn:Hline.
    + destruct (Z.leb 0 index && Z.ltb index (Z.of_nat (length tags))) eqn:Hr.
      * inversion H; subst. split; [reflexivity|]. split; [reflexivity|].
        apply andb_true_iff in Hr. destruct Hr as [Hlo Hhi].
        apply Z.leb_le in Hlo. apply Z.ltb_lt in Hhi.
        exists [], line, index. split; [reflexivity|]. split; [exact Hline|].
        split; [lia|]. split; [|constructor].
        destruct (tags !! Z.to_nat index) as [x|] eqn:Hx; [reflexivity|].
        apply lookup_ge_None in Hx. lia.
      * destruct (Cli.choose int_of tags rest w) as [[[[e1 s1] w1] t1] o1] eqn:E.
        inversion H; subst. destruct (IH _ _ _ _ _ eq_refl) as (-> & -> & He).
        split; [reflexivity|]. split; [reflexivity|].
        assert (Hbad : forall i, int_of line = Some i ->
                         ~ (0 <= i < Z.of_nat (length tags))%Z).
        { intros i Hi [Hlo Hhi]. rewrite Hline in Hi. injection Hi as <-.
          apply andb_false_iff in Hr. destruct Hr as [Hr|Hr].
          - apply Z.leb_gt in Hr. lia.
          - apply Z.ltb_ge in Hr. lia. }
        destruct e; [|exact He|].
        -- destruct He as (skipped & l & i & -> & Hl & Hi & Hx & Hs).
           exists (line :: skipped), l, i. repeat split; try assumption; try lia.
           constructor; assumption.
        -- destruct He as (-> & -> & Hs). repeat split. constructor; assumption.
    + destruct (Cli.choose int_of tags rest w) as [[[[e1 s1] w1] t1] o1] eqn:E.
      inversion H; subst. destruct (IH _ _ _ _ _ eq_refl) as (-> & -> & He).
      split; [reflexivity|]. split; [reflexivity|].
      assert (Hbad : forall i, int_of line = Some i ->
                       ~ (0 <= i < Z.of_nat (length tags))%Z)
        by (intros i Hi; congruence).
      destruct e; [|exact He|].
      * destruct He as (skipped & l & i & -> & Hl & Hi & Hx & Hs).
        exists (line :: skipped), l, i. repeat split; try assumption; try lia.
        constructor; assumption.
      * destruct He as (-> & -> & Hs). repeat split. constructor; assumption.
Qed.

Local Arguments Cli.choose : simpl never.

Ltac unfold_cli H :=
  unfold Cli.bind, Cli.print, Cli.exit, Cli.manager, Cli.ret in H.

Lemma deploy_journal_success adapter_name tag w o w' t :
  deploy_adapter os config adapter_name tag w = (o, w', t) ->
  (o = Ret true <->
   exists used, journal t = [log_deploy adapter_name (Some used) true None]).
Proof.
  intros H. split.
  - intros ->. apply deploy_adapter_cases in H.
    destruct H as
      [(first & w0 & t0 & t1 & -> & H &
        [(-> & Htag & -> & ->)|(Htag & rest & Htags)])
      |(Htag & Ho & Hj & Hall)]; [| |congruence].
    + apply deploy_tag_success in H. destruct H as (d & p & _ & _ & _ & Hj).
      exists first. exact Hj.
    + apply deploy_tag_success in H. destruct H as (d & p & _ & _ & _ & Hj).
      apply get_available_tags_spec in Htags. destruct Htags as [Hj0 _].
      exists first. rewrite journal_app, Hj0, Hj. reflexivity.
  - intros [u Hj]. apply deploy_adapter_spec in H. destruct H as (H & _).
    destruct H as [[Hnil _]|(b & d & -> & Hb)].
    + rewrite Hnil in Hj. discriminate Hj.
    + rewrite Hb in Hj. injection Hj as -> _. reflexivity.
Qed.

(** X29: the deploy command ends with exit status 0 exactly when the
    journal received a DEPLOY SUCCESS entry, whether the tag was given
    or asked for. *)
Theorem cli_deploy_exit_status adapter_name tag stdin w e stdin' w' t o :
  Cli.deploy_adapter os config int_of adapter_name tag stdin w =
    (e, stdin', w', t, o) ->
  (Cli.status e = 0 <->
   exists used, journal t = [log_deploy adapter_name (Some used) true None]).
Proof.
  intros H. unfold Cli.deploy_adapter, Cli.resolve_tag in H.
  destruct (truthy tag) eqn:Htag.
  - unfold_cli H. exec_in H.
    all: leaf H.
    all: match goal with
         | E : deploy_adapter _ _ _ _ _ = _ |- _ =>
             apply deploy_journal_success in E;
             repeat (simpl; rewrite ?app_nil_r)
         end.
    all: match goal with
         | E : _ <-> _ |- _ =>
             split; [intros Hs; try discriminate Hs; apply E; reflexivity|];
             intros Hj; apply E in Hj; try discriminate Hj; reflexivity
         end.
  - unfold_cli H. exec_in H.
    all: leaf H.
    all: repeat match goal with
         | E : get_available_tags _ _ _ = _ |- _ =>
             apply get_available_tags_spec in E; destruct E as [? _]
         | E : Cli.choose _ _ _ _ = _ |- _ =>
             apply choose_is_quiet in E; destruct E as (-> & -> & Hnoexit)
         | E : deploy_adapter _ _ _ _ _ = _ |- _ =>
             apply deploy_journal_success in E
         end.
    all: repeat (simpl; rewrite ?app_nil_r, ?journal_app).
    all: repeat match goal with
         | Hj : journal ?l = [] |- _ => rewrite Hj
         end; simpl.
    all: try match goal with
         | E : _ <-> _ |- _ =>
             split; [intros Hs; try discriminate Hs; apply E; reflexivity|];
             intros Hj; apply E in Hj; try discriminate Hj; reflexivity
         end.
    all: try (exfalso; eapply Hnoexit; reflexivity).
    all: split; [intros Hs; discriminate Hs | intros [u Hu]; discriminate Hu].
Qed.

(** X30: the test command leaves with status 1, without a call of the
    manager, when fewer than two parameters are given; it ends with
    status 0 exactly when there are two and [test_adapter] returned a
    result other than [None]. *)
Theorem cli_test_exit_status container_name params stdin w e stdin' w' t o :
  Cli.test_adapter os container_name params stdin w = (e, stdin', w', t, o) ->
  ((length params < 2)%nat -> e = Cli.Exit 1 /\ t = []) /\
  (Cli.status e = 0 <->
   exists from_param to_param rest result,
     params = from_param :: to_param :: rest /\
     test_adapter os container_name from_param to_param w = (Ret result, w', t) /\
     result <> JNull).
Proof.
  intros H. unfold Cli.test_adapter in H.
  destruct params as [|from_param [|to_param rest]].
  1, 2: unfold_cli H; simpl in H; leaf H;
        (split; [intros _; split; reflexivity|]);
        (split; [intros Hs; discriminate Hs
                |intros (? & ? & ? & ? & Hp & _); discriminate Hp]).
  split; [simpl; lia|].
  unfold_cli H. exec_in H.
  all: leaf H.
  all: repeat (simpl; rewrite ?app_nil_r).
  all: split;
       [ intros Hs;
         first
           [ discriminate Hs
           | eexists _, _, _, _; split; [reflexivity|]; split; [eassumption|];
             discriminate ]
       | intros (f & t0 & r & v & Hp & Hrun & Hv); injection Hp as <- <- <-;
         match goal with
         | E : test_adapter _ _ _ _ _ = _ |- _ =>
             tryif constr_eq E Hrun then fail else rewrite E in Hrun
         end;
         first
           [ discriminate Hrun
           | injection Hrun as <-; first [congruence | reflexivity] ] ].
Qed.

End CommandLine.

(** ** The properties above on concrete runs *)

Lemma docker_is_installed_only_when_missing_witness :
  (exists e,
     In (Call (SubprocessRun ["docker"; "--version"]) (Raised e))
       (ensure_docker_running Script.os install_script).2) /\
  In (Call (SubprocessRun ["sudo"; "-n"; "true"]) Done)
    (ensure_docker_running Script.os install_script).2.
Proof.
  apply (docker_is_installed_only_when_missing Script.os install_script
           (Ret true) [] _ (Answer true)).
  - vm_compute. reflexivity.
  - at_index 4%nat.
Defined.

Lemma docker_answers_when_ensured_witness :
  In (Call (SubprocessRun ["docker"; "info"]) Done)
    (ensure_docker_running Script.os running_script).2 \/
  (In (Call PlatformSystem (Text "Linux"))
     (ensure_docker_running Script.os running_script).2 /\
   In (Call (SubprocessRun ["sudo"; "systemctl"; "start"; "docker"]) Done)
     (ensure_docker_running Script.os running_script).2).
Proof.
  apply (docker_answers_when_ensured Script.os running_script [] _).
  vm_compute. reflexivity.
Defined.

Lemma initialize_journals_once_docker_answers_witness :
  exists b d,
    (initialize_environment Script.os present_script).1.1 = Ret b /\
    journal (initialize_environment Script.os present_script).2 =
      [Entry "INITIALIZE" None b d].
Proof.
  apply (initialize_journals_once_docker_answers Script.os present_script
           _ [] _ (NetworksList ["eas-net"]) (Networks [eas_net])).
  - vm_compute. reflexivity.
  - at_index 5%nat.
  - reflexivity.
Defined.

Lemma network_is_created_only_when_absent_witness :
  "eas-net" = "eas-net" /\ "bridge" = "bridge" /\
  "192.168.0.0/16" = "192.168.0.0/16" /\ "192.168.0.1" = "192.168.0.1" /\
  In (Call (NetworksList ["eas-net"]) (Networks []))
    (initialize_environment Script.os create_script).2.
Proof.
  apply (network_is_created_only_when_absent Script.os create_script
           (Ret true) [] _ "eas-net" "bridge" "192.168.0.0/16" "192.168.0.1"
           Done).
  - vm_compute. reflexivity.
  - at_index 7%nat.
Defined.

Lemma initialize_failure_is_journaled_witness :
  (initialize_environment Script.os create_fails_script).1.1 = Ret false /\
  journal (initialize_environment Script.os create_fails_script).2 =
    [log_initialize false
       (Some ("Failed to initialize environment: "
                +:+ exn_msg permission_denied))].
Proof.
  apply (initialize_failure_is_journaled Script.os create_fails_script
           _ [] _
           (NetworksCreate "eas-net" "bridge" "192.168.0.0/16" "192.168.0.1")
           permission_denied).
  - vm_compute. reflexivity.
  - at_index 7%nat.
  - reflexivity.
  - reflexivity.
Defined.

Lemma deploy_of_unknown_adapter_witness :
  (deploy_adapter Script.os fleet "kraken" (Some "1.0") []).1.1 <> Ret true /\
  all_calls subprocess
    (deploy_adapter Script.os fleet "kraken" (Some "1.0") []).2 /\
  journal (deploy_adapter Script.os fleet "kraken" (Some "1.0") []).2 = [] /\
  (truthy (Some "1.0") = true ->
   (deploy_adapter Script.os fleet "kraken" (Some "1.0") []).1.1 = Ret false /\
   calls (deploy_adapter Script.os fleet "kraken" (Some "1.0") []).2 = []).
Proof.
  apply (deploy_of_unknown_adapter Script.os fleet "kraken" (Some "1.0")
           [] _ [] _).
  - vm_compute. reflexivity.
  - vm_compute. reflexivity.
Defined.

Lemma deploy_without_network_witness :
  (deploy_adapter Script.os fleet "coingecko" (Some "3.2.1")
     no_network_script).1.1 = Ret false /\
  journal
    (deploy_adapter Script.os fleet "coingecko" (Some "3.2.1")
       no_network_script).2 = [] /\
  all_calls before_containers
    (deploy_adapter Script.os fleet "coingecko" (Some "3.2.1")
       no_network_script).2.
Proof.
  apply (deploy_without_network Script.os fleet "coingecko" (Some "3.2.1")
           no_network_script _ [] _ ["eas-net"] (Networks [])).
  - vm_compute. reflexivity.
  - at_index 0%nat.
  - left. reflexivity.
Defined.

Lemma deploy_removes_before_running_witness :
  exists pre cs post,
    calls
      (deploy_adapter Script.os fleet "coingecko" (Some "3.2.1")
         replace_script).2 =
      pre ++ (ContainersList ("coingecko" +:+ "-redis"), Containers cs)
          :: forced cs ++ (ContainersRun coingecko_spec, Done) :: post.
Proof.
  apply (deploy_removes_before_running Script.os fleet "coingecko"
           (Some "3.2.1") replace_script (Ret true) [] _ coingecko_spec Done).
  - vm_compute. reflexivity.
  - at_index 5%nat.
Defined.

Lemma deploy_container_failure_witness :
  (deploy_adapter Script.os fleet "coingecko" (Some "3.2.1")
     run_fails_script).1.1 = Ret false /\
  (forall spec,
     ~ In (Call (ContainersRun spec) Done)
         (deploy_adapter Script.os fleet "coingecko" (Some "3.2.1")
            run_fails_script).2) /\
  exists used,
    journal
      (deploy_adapter Script.os fleet "coingecko" (Some "3.2.1")
         run_fails_script).2 =
      [log_deploy "coingecko" (Some used) false
         (Some ("Failed to deploy " +:+ "coingecko" +:+ " adapter: "
                  +:+ exn_msg pull_denied))] /\
    (truthy (Some "3.2.1") = true -> Some "3.2.1" = Some used).
Proof.
  apply (deploy_container_failure Script.os fleet "coingecko" (Some "3.2.1")
           run_fails_script _ [] _ (ContainersRun coingecko_spec) pull_denied).
  - vm_compute. reflexivity.
  - at_index 3%nat.
  - reflexivity.
Defined.

Lemma successful_deploy_runs_one_container_witness :
  exists used d port_number,
    get_adapter_config fleet "coingecko" = Some d /\
    Py.int (port d) = Ret port_number /\
    List.filter is_run
      (calls
         (deploy_adapter Script.os fleet "coingecko" (Some "3.2.1")
            deploy_script).2) =
      [(ContainersRun (adapter_spec fleet "coingecko" used d port_number),
        Done)] /\
    journal
      (deploy_adapter Script.os fleet "coingecko" (Some "3.2.1")
         deploy_script).2 =
      [log_deploy "coingecko" (Some used) true None] /\
    (truthy (Some "3.2.1") = true -> Some "3.2.1" = Some used).
Proof.
  apply (successful_deploy_runs_one_container Script.os fleet "coingecko"
           (Some "3.2.1") deploy_script [] _).
  vm_compute. reflexivity.
Defined.

Lemma deploy_survives_failed_lookup_witness :
  (deploy_adapter Script.os fleet "coingecko" (Some "3.2.1")
     lookup_fails_script).1.1 = Ret true /\
  all_calls unconnected
    (deploy_adapter Script.os fleet "coingecko" (Some "3.2.1")
       lookup_fails_script).2 /\
  exists used,
    journal
      (deploy_adapter Script.os fleet "coingecko" (Some "3.2.1")
         lookup_fails_script).2 =
      [log_deploy "coingecko" (Some used) true None].
Proof.
  apply (deploy_survives_failed_lookup Script.os fleet "coingecko"
           (Some "3.2.1") lookup_fails_script _ [] _
           (ContainersGet "coingecko-redis") no_such_container).
  - vm_compute. reflexivity.
  - at_index 4%nat.
  - reflexivity.
Defined.

Lemma deploy_without_tag_takes_greatest_witness :
  exists tags first d port_number,
    In (Call (SubprocessRun (list_tags_argv "coingecko"))
          (TagsOut (Json (Object (Some tags)))))
      (deploy_adapter Script.os fleet "coingecko" None untagged_script).2 /\
    In first tags /\ (forall x, In x tags -> String.le x first) /\
    coingecko_spec = adapter_spec fleet "coingecko" first d port_number.
Proof.
  apply (deploy_without_tag_takes_greatest Script.os fleet "coingecko" None
           untagged_script (Ret true) [] _ coingecko_spec Done).
  - vm_compute. reflexivity.
  - reflexivity.
  - at_index 4%nat.
Defined.

Lemma upgrade_stops_at_failed_removal_witness :
  (upgrade_adapter Script.os fleet "coingecko" (Some "3.2.1")
     stop_fails_script).1.1 = Ret false /\
  all_calls listing_or_removal
    (upgrade_adapter Script.os fleet "coingecko" (Some "3.2.1")
       stop_fails_script).2 /\
  journal
    (upgrade_adapter Script.os fleet "coingecko" (Some "3.2.1")
       stop_fails_script).2 =
    [log_upgrade "coingecko" (Some "3.2.1") false
       (Some ("Failed to upgrade " +:+ "coingecko" +:+ " adapter: "
                +:+ exn_msg cannot_stop))].
Proof.
  apply (upgrade_stops_at_failed_removal Script.os fleet "coingecko"
           (Some "3.2.1") stop_fails_script _ [] _
           (ContainerStop old_coingecko) cannot_stop).
  - vm_compute. reflexivity.
  - at_index 2%nat.
  - reflexivity.
Defined.

Lemma successful_upgrade_replaces_containers_witness :
  exists cs post used d port_number,
    cs <> [] /\
    calls
      (upgrade_adapter Script.os fleet "coingecko" (Some "3.2.1")
         upgrade_script).2 =
      (ContainersList ("coingecko" +:+ "-redis"), Containers cs)
        :: stopped cs ++ post /\
    List.filter is_run post =
      [(ContainersRun (adapter_spec fleet "coingecko" used d port_number),
        Done)] /\
    journal
      (upgrade_adapter Script.os fleet "coingecko" (Some "3.2.1")
         upgrade_script).2 =
      [log_deploy "coingecko" (Some used) true None;
       log_upgrade "coingecko" (Some "3.2.1") true None] /\
    (truthy (Some "3.2.1") = true -> Some "3.2.1" = Some used).
Proof.
  apply (successful_upgrade_replaces_containers Script.os fleet "coingecko"
           (Some "3.2.1") upgrade_script [] _).
  vm_compute. reflexivity.
Defined.

Lemma upgrade_without_network_witness :
  (upgrade_adapter Script.os fleet "coingecko" (Some "3.2.1")
     upgrade_no_network_script).1.1 = Ret false /\
  journal
    (upgrade_adapter Script.os fleet "coingecko" (Some "3.2.1")
       upgrade_no_network_script).2 = [] /\
  exists cs post,
    cs <> [] /\
    calls
      (upgrade_adapter Script.os fleet "coingecko" (Some "3.2.1")
         upgrade_no_network_script).2 =
      (ContainersList ("coingecko" +:+ "-redis"), Containers cs)
        :: stopped cs ++ post.
Proof.
  apply (upgrade_without_network Script.os fleet "coingecko" (Some "3.2.1")
           upgrade_no_network_script _ [] _ ["eas-net"] (Networks [])).
  - vm_compute. reflexivity.
  - at_index 4%nat.
  - left. reflexivity.
Defined.

Lemma probe_failure_is_journaled_witness :
  (test_adapter Script.os "coingecko-redis" "ETH" "USD"
     probe_fails_script).1.1 = Ret JNull /\
  journal
    (test_adapter Script.os "coingecko-redis" "ETH" "USD"
       probe_fails_script).2 =
    [log_test (repr Script.os) "coingecko-redis" "ETH" "USD" false
       (JStr (probe_error exit_status_1))].
Proof.
  apply (probe_failure_is_journaled Script.os "coingecko-redis" "ETH" "USD"
           probe_fails_script _ [] _
           (curl_cmd "192.168.1.113" "ETH" "USD") exit_status_1).
  - vm_compute. reflexivity.
  - at_index 2%nat.
Defined.

Lemma probe_answer_decides_result_witness :
  ((test_adapter Script.os "coingecko-redis" "ETH" "USD" probe_script).1.1 =
     Ret price /\
   journal
     (test_adapter Script.os "coingecko-redis" "ETH" "USD" probe_script).2 =
     [log_test (repr Script.os) "coingecko-redis" "ETH" "USD" true price]) /\
  ((test_adapter Script.os "coingecko-redis" "ETH" "USD" array_script).1.1 =
     Ret JNull /\
   journal
     (test_adapter Script.os "coingecko-redis" "ETH" "USD" array_script).2 =
     [log_test (repr Script.os) "coingecko-redis" "ETH" "USD" false
        (JStr "Error testing adapter: 'list' object has no attribute 'get'")]).
Proof.
  split.
  - apply (probe_answer_decides_result Script.os "coingecko-redis" "ETH" "USD"
             probe_script _ [] _
             (curl_cmd "192.168.1.113" "ETH" "USD") answer_price).
    + vm_compute. reflexivity.
    + at_index 2%nat.
  - apply (probe_answer_decides_result Script.os "coingecko-redis" "ETH" "USD"
             array_script _ [] _
             (curl_cmd "192.168.1.113" "ETH" "USD") answer_array).
    + vm_compute. reflexivity.
    + at_index 2%nat.
Defined.

Lemma deploy_raises_with_the_registry_query_witness :
  (deploy_adapter Script.os fleet "coingecko" None
     [Raised skopeo_missing]).1.1 = Raise skopeo_missing /\
  calls
    (deploy_adapter Script.os fleet "coingecko" None
       [Raised skopeo_missing]).2 =
    [(SubprocessRun (list_tags_argv "coingecko"), Raised skopeo_missing)] /\
  journal
    (deploy_adapter Script.os fleet "coingecko" None
       [Raised skopeo_missing]).2 = [].
Proof.
  apply (deploy_raises_with_the_registry_query Script.os fleet "coingecko" None
           [Raised skopeo_missing] _ [] _
           (list_tags_argv "coingecko") skopeo_missing).
  - vm_compute. reflexivity.
  - at_index 0%nat.
  - discriminate.
  - discriminate.
Defined.

Lemma unreadable_script_voids_discovery_witness :
  _create_adapter_configs (Some [coingecko_file; locked_file]) = ∅.
Proof.
  apply (unreadable_script_voids_discovery [coingecko_file; locked_file]
           locked_file).
  - right. left. reflexivity.
  - reflexivity.
  - reflexivity.
Defined.

Lemma skipped_entries_are_not_adapters_witness :
  _create_adapter_configs (Some [readme_file; lib_dir; coingecko_file])
    !! "README" = None.
Proof.
  apply (skipped_entries_are_not_adapters
           [readme_file; lib_dir; coingecko_file] "README").
  intros f [<-|[<-|[<-|[]]]] Hu; discriminate.
Defined.

Lemma discovered_adapter_has_script_dict_witness :
  _create_adapter_configs (Some ([lib_dir] ++ coingecko_file :: [readme_file]))
    !! file_name coingecko_file =
  Some (adapter_dict coingecko_script).
Proof.
  apply (discovered_adapter_has_script_dict [lib_dir] coingecko_file
           [readme_file] coingecko_script).
  - intros g [<-|[<-|[<-|[]]]] Hu; discriminate.
  - reflexivity.
  - reflexivity.
  - intros g [<-|[]] Hu; discriminate.
Defined.

Lemma last_export_wins_witness :
  _load_api_keys
    (Some ([("KEY", "old")] ++ ("KEY", " 'new' ") :: [("OTHER", "x")]))
    !! "KEY" =
  Some (clean " 'new' ").
Proof.
  apply (last_export_wins [("KEY", "old")] "KEY" " 'new' " [("OTHER", "x")]).
  intros v [Hv|[]]. discriminate Hv.
Defined.

Lemma clean_undoes_quoting_witness :
  clean (" " +:+ quoted double_quote "abc123" +:+ "  ") = "abc123".
Proof.
  apply (clean_undoes_quoting double_quote " " "  " "abc123").
  - left. reflexivity.
  - reflexivity.
  - reflexivity.
Defined.

Lemma chain_id_comes_from_a_parsed_line_witness :
  exists v,
    In ("ETHEREUM", v) [("POLYGON", "x137"); ("ETHEREUM", " 1 ")] /\
    strip v <> "" /\ int_of (strip v) = Some 1.
Proof.
  apply (chain_id_comes_from_a_parsed_line int_of "misc_vars"
           [("ETHEREUM", "https://rpc.example")]
           [("POLYGON", "x137"); ("ETHEREUM", " 1 ")] "ETHEREUM" 1).
  vm_compute. reflexivity.
Defined.

Lemma last_rpc_url_wins_witness :
  rpc_url
    (entry_of
       (_load_chain_vars int_of "misc_vars"
          (Matches
             ([("ETHEREUM", "https://old.example")]
                ++ ("ETHEREUM", " https://new.example ")
                :: [("ETHEREUM", "  ")])
             [("ETHEREUM", "1")])).1 "ETHEREUM") =
  Some (strip " https://new.example ").
Proof.
  apply (last_rpc_url_wins int_of "misc_vars"
           [("ETHEREUM", "https://old.example")] "ETHEREUM"
           " https://new.example " [("ETHEREUM", "  ")] [("ETHEREUM", "1")]).
  - vm_compute. discriminate.
  - intros v [Hv|[]]. injection Hv as <-. reflexivity.
Defined.

Lemma tag_prompt_outcomes_witness :
  ([] : list reply) = [] /\ ([] : list effect) = [] /\
  exists skipped line index,
    ["x"; "7"; "1"] = skipped ++ line :: [] /\
    int_of line = Some index /\
    (0 <= index < Z.of_nat (length ["3.2.1"; "3.2.0"]))%Z /\
    ["3.2.1"; "3.2.0"] !! Z.to_nat index = Some "3.2.0" /\
    Forall
      (fun l =>
         forall i, int_of l = Some i ->
                   ~ (0 <= i < Z.of_nat (length ["3.2.1"; "3.2.0"]))%Z)
      skipped.
Proof.
  apply (tag_prompt_outcomes int_of ["3.2.1"; "3.2.0"] ["x"; "7"; "1"]
           ([] : list reply) (Cli.Return "3.2.0") [] [] []
           (Cli.choose int_of ["3.2.1"; "3.2.0"] ["x"; "7"; "1"]
              ([] : list reply)).2).
  vm_compute. reflexivity.
Defined.

Lemma cli_deploy_exit_status_witness :
  Cli.status
    (Cli.deploy_adapter Script.os fleet int_of "coingecko" None ["0"]
       untagged_script).1.1.1.1 = 0 <->
  exists used,
    journal
      (Cli.deploy_adapter Script.os fleet int_of "coingecko" None ["0"]
         untagged_script).1.2 =
      [log_deploy "coingecko" (Some used) true None].
Proof.
  apply (cli_deploy_exit_status Script.os fleet int_of "coingecko" None ["0"]
           untagged_script _ [] [] _
           (Cli.deploy_adapter Script.os fleet int_of "coingecko" None ["0"]
              untagged_script).2).
  vm_compute. reflexivity.
Defined.

Lemma cli_test_exit_status_witness :
  ((length ["ETH"] < 2)%nat ->
   (Cli.test_adapter Script.os "coingecko-redis" ["ETH"] []
      probe_script).1.1.1.1 = Cli.Exit 1 /\
   (Cli.test_adapter Script.os "coingecko-redis" ["ETH"] []
      probe_script).1.2 = []) /\
  (Cli.status
     (Cli.test_adapter Script.os "coingecko-redis" ["ETH"] []
        probe_script).1.1.1.1 = 0 <->
   exists from_param to_param rest result,
     ["ETH"] = from_param :: to_param :: rest /\
     test_adapter Script.os "coingecko-redis" from_param to_param probe_script =
       (Ret result, probe_script,
        (Cli.test_adapter Script.os "coingecko-redis" ["ETH"] []
           probe_script).1.2) /\
     result <> JNull).
Proof.
  apply (cli_test_exit_status Script.os "coingecko-redis" ["ETH"] []
           probe_script _ [] probe_script _
           (Cli.test_adapter Script.os "coingecko-redis" ["ETH"] []
              probe_script).2).
  vm_compute. reflexivity.
Defined.
